(** * Quality module: data-access core of the operations-management system

  A shallow embedding of
    - [app/core/db.py]                          (MySQLDb, DbManager),
    - [app/quality/sql/quality_queries.py]      (QuerySqlQualityMYSQL),
    - [app/quality/repo/QualityRepository.py]   (QualityRepositoryMYSQL),
    - [app/quality/service/QualityService.py]   (QualityService),
    - [app/quality/router/api_router.py] and
      [app/quality/router/view_router.py]       (the request handlers),
    - [app/main.py]                             (the handler of HTTPException),
    - [app/auth/PersonRepository.py] and
      [app/auth/QueryUserAuth.py]               (the lookup of a user),
  together with the properties of the natural-language specification
  that speak about them and further properties of the code.

  Conventions.  Python [str] values are Rocq strings read as ASCII text;
  a Python [dict] with string keys is a [gmap string value]; [None] is
  [VNone]; an [Optional[str]] argument is an [option string]. *)

From Stdlib Require Import ZArith Ascii String List Bool Lia DecimalString DecimalPos.
From stdpp Require Import base option list strings gmap fin_maps sorting.

Local Open Scope Z_scope.

(** ** Python values and the string primitives the code uses *)

Module Py.

(** The values that cross the database boundary: [None], text, integers. *)
Inductive value : Type :=
| VNone
| VStr (s : string)
| VInt (z : Z).

#[global] Instance value_eq_dec : EqDecision value.
Proof. solve_decision. Defined.

(** Truth value of an object: [None], [""] and [0] are false. *)
Definition truthy (v : value) : bool :=
  match v with
  | VNone => false
  | VStr s => negb (String.eqb s "")
  | VInt z => negb (z =? 0)
  end.

(** [a or b]. *)
Definition or_ (a b : value) : value := if truthy a then a else b.

(** [str(v)]. *)
Definition str (v : value) : string :=
  match v with
  | VNone => "None"
  | VStr s => s
  | VInt z => NilEmpty.string_of_int (Z.to_int z)
  end.

(** [d.get(k)]: a missing key reads as [None]. *)
Definition get (d : gmap string value) (k : string) : value :=
  default VNone (d !! k).

(** An [Optional[str]] argument seen as a value. *)
Definition of_opt (o : option string) : value :=
  match o with
  | Some s => VStr s
  | None => VNone
  end.

Definition upper_ascii (c : ascii) : ascii :=
  let n := nat_of_ascii c in
  if (Nat.leb 97 n && Nat.leb n 122)%bool then ascii_of_nat (n - 32) else c.

(** [s.upper()]. *)
Fixpoint upper (s : string) : string :=
  match s with
  | EmptyString => EmptyString
  | String c r => String (upper_ascii c) (upper r)
  end.

(** Whitespace in the sense of [str.isspace]: TAB..CR, FS..US, SPACE. *)
Definition is_space (c : ascii) : bool :=
  let n := nat_of_ascii c in
  ((Nat.leb 9 n && Nat.leb n 13) || (Nat.leb 28 n && Nat.leb n 32))%bool.

Fixpoint lstrip (s : string) : string :=
  match s with
  | EmptyString => EmptyString
  | String c r => if is_space c then lstrip r else s
  end.

Fixpoint rstrip (s : string) : string :=
  match s with
  | EmptyString => EmptyString
  | String c r =>
      match rstrip r with
      | EmptyString => if is_space c then EmptyString else String c EmptyString
      | r' => String c r'
      end
  end.

(** [s.strip()]. *)
Definition strip (s : string) : string := rstrip (lstrip s).

(** [s.startswith(p)]. *)
Definition startswith (s p : string) : bool := String.prefix p s.

(** [s[n:]]. *)
Fixpoint slice_from (n : nat) (s : string) : string :=
  match n, s with
  | O, _ => s
  | S n', String _ r => slice_from n' r
  | S _, EmptyString => EmptyString
  end.

(** [p in s] for strings: [p] occurs in [s] as a contiguous substring. *)
Fixpoint contains (s p : string) : bool :=
  (String.prefix p s ||
   match s with
   | EmptyString => false
   | String _ r => contains r p
   end)%bool.

(** [x in t] for a tuple of strings. *)
Definition str_in (x : string) (t : list string) : bool :=
  existsb (String.eqb x) t.

End Py.

Export Py(value(..)).

Abbreviation dict := (gmap string value).

(** ** Exceptions, outcomes and the database driver

    The MySQL driver ([mysql.connector]) is an external collaborator.  Its
    behaviour is a parameter of the development: a [driver] answers every
    call from the history of calls made so far.  Calls that talk to the
    server may raise; [is_connected()] answers with a boolean and
    [MySQLConnection.close()] returns, as the driver documents. *)

Inductive exn_class : Type :=
| RuntimeError
| ValueError
| UnboundLocalError
| ProgrammingError
| OperationalError
| KeyboardInterrupt
| SystemExit.

Record exn : Type := mk_exn { exn_cls : exn_class; exn_msg : string }.

#[global] Instance exn_class_eq_dec : EqDecision exn_class.
Proof. solve_decision. Defined.

#[global] Instance exn_eq_dec : EqDecision exn.
Proof. solve_decision. Defined.

(** [isinstance(e, Exception)]: [KeyboardInterrupt] and [SystemExit] derive
    from [BaseException] only. *)
Definition is_Exception (e : exn) : bool :=
  match exn_cls e with
  | KeyboardInterrupt | SystemExit => false
  | _ => true
  end.

Inductive outcome (A : Type) : Type :=
| Ret (a : A)
| Raise (e : exn).

Arguments Ret {A} a.
Arguments Raise {A} e.

Definition conn := nat.
Definition cursor := nat.

(** Keyword arguments of [mysql.connector.connect]. *)
Record conn_args : Type := mk_conn_args {
  ca_host : string;
  ca_port : Z;
  ca_user : string;
  ca_password : string;
  ca_database : string;
  ca_autocommit : bool }.

(** One entry per call into the driver, in program order. *)
Inductive event : Type :=
| EvConnect (args : conn_args)
| EvIsConnected (c : conn)
| EvConnClose (c : conn)
| EvCursor (c : conn)
| EvExecute (k : cursor) (sql : string) (params : option (list value)) (multi : bool)
| EvFetchall (k : cursor)
| EvCommit (c : conn)
| EvRollback (c : conn)
| EvCursorClose (k : cursor).

Record driver : Type := mk_driver {
  drv_connect : list event -> conn_args -> outcome conn;
  drv_is_connected : list event -> conn -> bool;
  drv_cursor : list event -> conn -> outcome cursor;
  drv_execute :
    list event -> cursor -> string -> option (list value) -> bool -> outcome unit;
  drv_fetchall : list event -> cursor -> outcome (list dict);
  drv_commit : list event -> conn -> outcome unit;
  drv_rollback : list event -> conn -> outcome unit;
  drv_cursor_close : list event -> cursor -> outcome unit }.

(** The fields of [app.settings.Settings] that [MySQLDb.connect] reads. *)
Record Settings : Type := mk_Settings {
  API_MYSQL_HOSTNAME : string;
  API_MYSQL_PORT : Z;
  API_MYSQL_USERNAME : string;
  API_MYSQL_PASSWORD : string;
  API_MYSQL_DB : string;
  QUALITY_MYSQL_DB : string;
  QUALITY_MYSQL_HOSTNAME : option string;
  QUALITY_MYSQL_PORT : option Z;
  QUALITY_MYSQL_USERNAME : option string;
  QUALITY_MYSQL_PASSWORD : option string }.

(** The instance state of a [MySQLDb]. *)
Record MySQLDb : Type := mk_MySQLDb {
  _db_name : option string;
  _conn : option conn }.

(** The world a call runs in: the wrapper instance it operates on and the
    log of driver calls. *)
Record world : Type := mk_world {
  w_db : MySQLDb;
  w_log : list event }.

(** ** A state-and-exception monad for the Python code *)

Definition M (A : Type) : Type := world -> outcome A * world.

Definition ret {A} (a : A) : M A := fun w => (Ret a, w).

Definition raise {A} (e : exn) : M A := fun w => (Raise e, w).

Definition bind {A B} (m : M A) (f : A -> M B) : M B :=
  fun w =>
    match m w with
    | (Ret a, w') => f a w'
    | (Raise e, w') => (Raise e, w')
    end.

Declare Scope py_scope.
Delimit Scope py_scope with py.
Notation "x <- m ;; k" := (bind m (fun x => k))
  (at level 100, m at next level, right associativity) : py_scope.
Notation "m ;;; k" := (bind m (fun _ => k))
  (at level 100, right associativity) : py_scope.
Local Open Scope py_scope.

(** [try: body  except Exception: handler(e)]; other [BaseException]s pass. *)
Definition try_except_Exception {A} (body : M A) (handler : exn -> M A) : M A :=
  fun w =>
    match body w with
    | (Ret a, w') => (Ret a, w')
    | (Raise e, w') => if is_Exception e then handler e w' else (Raise e, w')
    end.

(** [try: body  finally: fin]: [fin] runs on every outcome; an exception it
    raises replaces the outcome of [body]. *)
Definition try_finally {A} (body : M A) (fin : M unit) : M A :=
  fun w =>
    match body w with
    | (o, w') =>
        match fin w' with
        | (Ret _, w'') => (o, w'')
        | (Raise e, w'') => (Raise e, w'')
        end
    end.

(** [with mgr as x: body].  [exit_] receives the exception of the body, if
    any, and answers whether to suppress it; [None] is the result of a
    block that was abandoned through a suppressed exception. *)
Definition with_stmt {X A}
    (enter : M X) (exit_ : option exn -> M bool) (body : X -> M A) : M (option A) :=
  x <- enter ;;
  fun w =>
    match body x w with
    | (Ret a, w') =>
        match exit_ None w' with
        | (Ret _, w'') => (Ret (Some a), w'')
        | (Raise e, w'') => (Raise e, w'')
        end
    | (Raise e, w') =>
        match exit_ (Some e) w' with
        | (Ret true, w'') => (Ret None, w'')
        | (Ret false, w'') => (Raise e, w'')
        | (Raise e', w'') => (Raise e', w'')
        end
    end.

Definition get_conn : M (option conn) := fun w => (Ret (_conn (w_db w)), w).

Definition set_conn (c : option conn) : M unit :=
  fun w =>
    (Ret tt, {| w_db := {| _db_name := _db_name (w_db w); _conn := c |};
                w_log := w_log w |}).

Definition get_db_name : M (option string) :=
  fun w => (Ret (_db_name (w_db w)), w).

Definition log_event (ev : event) (w : world) : world :=
  {| w_db := w_db w; w_log := w_log w ++ [ev] |}.

(** ** [app/core/db.py] *)

(** [QueryType]. *)
Inductive QueryType : Type := SELECT | GET | INSERT | UPDATE | DELETE | SCRIPT.

#[global] Instance QueryType_eq_dec : EqDecision QueryType.
Proof. solve_decision. Defined.

(** [query_type in (QueryType.SELECT, QueryType.GET)]. *)
Definition is_read (q : QueryType) : bool :=
  match q with
  | SELECT | GET => true
  | _ => false
  end.

(** [query_type is QueryType.SCRIPT]. *)
Definition is_script (q : QueryType) : bool :=
  match q with
  | SCRIPT => true
  | _ => false
  end.

(** [params or None] for an [Optional[Sequence[Any]]]. *)
Definition params_or_None (params : option (list value)) : option (list value) :=
  match params with
  | Some [] => None
  | p => p
  end.

(** [a or b] on optional settings: [None], [""] and [0] give way to [b]. *)
Definition opt_str_or (a : option string) (b : string) : string :=
  match a with
  | Some s => if String.eqb s "" then b else s
  | None => b
  end.

Definition opt_int_or (a : option Z) (b : Z) : Z :=
  match a with
  | Some z => if z =? 0 then b else z
  | None => b
  end.

Definition not_connected_error : exn :=
  mk_exn RuntimeError
    "Connessione MySQL non inizializzata. Chiama connect() prima di usare execute().".

Section Db.

Variable drv : driver.
Variable settings : Settings.

(** *** Calls into the driver: answer from the history, then log the call *)

Definition mysql_connector_connect (args : conn_args) : M conn :=
  fun w => (drv_connect drv (w_log w) args, log_event (EvConnect args) w).

Definition conn_is_connected (c : conn) : M bool :=
  fun w => (Ret (drv_is_connected drv (w_log w) c), log_event (EvIsConnected c) w).

Definition conn_close (c : conn) : M unit :=
  fun w => (Ret tt, log_event (EvConnClose c) w).

Definition conn_cursor (c : conn) : M cursor :=
  fun w => (drv_cursor drv (w_log w) c, log_event (EvCursor c) w).

Definition cursor_execute
    (k : cursor) (sql : string) (params : option (list value)) (multi : bool) : M unit :=
  fun w =>
    (drv_execute drv (w_log w) k sql params multi,
     log_event (EvExecute k sql params multi) w).

Definition cursor_fetchall (k : cursor) : M (list dict) :=
  fun w => (drv_fetchall drv (w_log w) k, log_event (EvFetchall k) w).

Definition conn_commit (c : conn) : M unit :=
  fun w => (drv_commit drv (w_log w) c, log_event (EvCommit c) w).

Definition conn_rollback (c : conn) : M unit :=
  fun w => (drv_rollback drv (w_log w) c, log_event (EvRollback c) w).

Definition cursor_close (k : cursor) : M unit :=
  fun w => (drv_cursor_close drv (w_log w) k, log_event (EvCursorClose k) w).

(** *** [MySQLDb] *)

(** [self._conn is not None and self._conn.is_connected()]. *)
Definition conn_is_live : M bool :=
  c <- get_conn ;;
  match c with
  | None => ret false
  | Some c => conn_is_connected c
  end.

(** The connection target [MySQLDb.connect] selects. *)
Definition connect_args (db_name : option string) : conn_args :=
  match db_name with
  | None =>
      {| ca_host := API_MYSQL_HOSTNAME settings;
         ca_port := API_MYSQL_PORT settings;
         ca_user := API_MYSQL_USERNAME settings;
         ca_password := API_MYSQL_PASSWORD settings;
         ca_database := API_MYSQL_DB settings;
         ca_autocommit := false |}
  | Some n =>
      if String.eqb n (QUALITY_MYSQL_DB settings) then
        {| ca_host :=
             opt_str_or (QUALITY_MYSQL_HOSTNAME settings) (API_MYSQL_HOSTNAME settings);
           ca_port := opt_int_or (QUALITY_MYSQL_PORT settings) (API_MYSQL_PORT settings);
           ca_user :=
             opt_str_or (QUALITY_MYSQL_USERNAME settings) (API_MYSQL_USERNAME settings);
           ca_password :=
             opt_str_or (QUALITY_MYSQL_PASSWORD settings) (API_MYSQL_PASSWORD settings);
           ca_database := QUALITY_MYSQL_DB settings;
           ca_autocommit := false |}
      else
        {| ca_host := API_MYSQL_HOSTNAME settings;
           ca_port := API_MYSQL_PORT settings;
           ca_user := API_MYSQL_USERNAME settings;
           ca_password := API_MYSQL_PASSWORD settings;
           ca_database := n;
           ca_autocommit := false |}
  end.

(** [MySQLDb.connect]. *)
Definition connect : M unit :=
  live <- conn_is_live ;;
  if live then ret tt
  else
    n <- get_db_name ;;
    c <- mysql_connector_connect (connect_args n) ;;
    set_conn (Some c).

(** [MySQLDb.close]. *)
Definition close : M unit :=
  c <- get_conn ;;
  (match c with
   | None => ret tt
   | Some c =>
       live <- conn_is_connected c ;;
       if live then conn_close c else ret tt
   end) ;;;
  set_conn None.

(** The body of the [try] block of [MySQLDb.execute]. *)
Definition execute_body
    (c : conn) (k : cursor) (query_type : QueryType)
    (sql : string) (params : option (list value)) : M (list dict) :=
  if is_script query_type then
    cursor_execute k sql (params_or_None params) true ;;;
    conn_commit c ;;;
    ret []
  else
    cursor_execute k sql (params_or_None params) false ;;;
    if is_read query_type then
      rows <- cursor_fetchall k ;;
      ret rows
    else
      conn_commit c ;;;
      ret [].

(** [MySQLDb.execute]. *)
Definition execute
    (query_type : QueryType) (sql : string) (params : option (list value))
  : M (list dict) :=
  c <- get_conn ;;
  match c with
  | None => raise not_connected_error
  | Some c =>
      live <- conn_is_connected c ;;
      if negb live then raise not_connected_error
      else
        k <- conn_cursor c ;;
        try_finally
          (try_except_Exception
             (execute_body c k query_type sql params)
             (fun e => conn_rollback c ;;; raise e))
          (cursor_close k)
  end.

(** [MySQLDb.execute_query]. *)
Definition execute_query
    (query : string) (params : option (list value)) (fetchall : bool)
    (query_type : QueryType) : M (list dict) :=
  if is_read query_type then
    rows <- execute query_type query params ;;
    match fetchall, rows with
    | false, r :: _ => ret [r]
    | _, _ => ret rows
    end
  else
    execute query_type query params ;;;
    ret [].

(** *** [DbManager] *)

(** [DbManager.__enter__]: connects and hands out the wrapped [MySQLDb]. *)
Definition DbManager_enter : M unit := connect.

(** [DbManager.__exit__]: closes; returns [None], which suppresses nothing. *)
Definition DbManager_exit (exc : option exn) : M bool := close ;;; ret false.

(** [with DbManager(db) as db: body]. *)
Definition with_DbManager {A} (body : M A) : M (option A) :=
  with_stmt DbManager_enter DbManager_exit (fun _ => body).

End Db.

(** ** [app/quality/sql/quality_queries.py]

    A template is its text cut at the positional placeholders.  Every
    placeholder is labelled with the filter whose predicate it stands in
    (the SQL comment above the predicate names it); rendering forgets the
    labels and gives back the text the Python method returns. *)

Inductive placeholder : Type :=
| ph_tipodoc
| ph_numerodoc
| ph_esanno
| ph_codicecf
| ph_anagrafe
| ph_articolo
| ph_limit
| ph_offset.


Inductive fragment : Type :=
| Txt (s : string)
| Ph (p : placeholder).

Definition fragment_text (f : fragment) : string :=
  match f with
  | Txt s => s
  | Ph _ => "%s"
  end.

Fixpoint render (t : list fragment) : string :=
  match t with
  | [] => ""
  | f :: r => fragment_text f +:+ render r
  end.

(** The labels of a template, left to right. *)
Fixpoint placeholders (t : list fragment) : list placeholder :=
  match t with
  | [] => []
  | Txt _ :: r => placeholders r
  | Ph p :: r => p :: placeholders r
  end.

(** The number of positional slots the driver finds in a statement: the
    occurrences of the two characters [%s], scanned left to right. *)
Fixpoint count_placeholders (s : string) : nat :=
  match s with
  | EmptyString => O
  | String c t =>
      match t with
      | EmptyString => O
      | String c' r =>
          if (Ascii.eqb c "%" && Ascii.eqb c' "s")%bool
          then S (count_placeholders r)
          else count_placeholders t
      end
  end.

(** [", ".join(parts)]. *)
Fixpoint join (sep : string) (parts : list string) : string :=
  match parts with
  | [] => ""
  | [x] => x
  | x :: r => x +:+ sep +:+ join sep r
  end.

Module QuerySqlQualityMYSQL.

Definition TIPI_DOC_LAVORO : list string := ["OC"; "ON"; "BA"; "CB"; "BC"; "BO"].

(** [", ".join(f"'{t}'" for t in TIPI_DOC_LAVORO)]. *)
Definition tipi_doc : string :=
  join ", " (map (fun t => "'" +:+ t +:+ "'") TIPI_DOC_LAVORO).

Definition search_schede_lavoro_template : list fragment :=
  [ Txt "
        SELECT
            d.tipodoc                               AS d_tipodoc,
            d.esanno                                AS d_esanno,
            d.numerodoc                             AS d_numerodoc,
            d.datadoc                               AS d_datadoc,
            d.codicecf                              AS d_codicecf,
            COALESCE(a.SUPRAGSOC, a.DESCRIZION)     AS d_cliente_nome,
            a.PARTIVA                               AS d_piva,
            a.CODFISCALE                            AS d_cfisc,
            d.ddragsoc                              AS d_ddragsoc,
            d.ddindir                               AS d_ddindir,
            d.ddcap                                 AS d_ddcap,
            d.ddlocal                               AS d_ddlocal,
            d.totdoc                                AS d_totdoc,
            d.totimp                                AS d_totimp,
            d.totmerce                              AS d_totmerce,
            d.totiva                                AS d_totiva,
            d.oggetto                               AS d_oggetto,
            d.note                                  AS d_note_testa,
            d.username                              AS d_username,
            d.timestamp_row                         AS d_timestamp_row
        FROM doctes d
        LEFT JOIN anagrafe a
               ON a.CODICE = d.codicecf
        WHERE
            -- includiamo solo i tipi documento di interesse
            d.tipodoc IN (";
    Txt tipi_doc;
    Txt ")

            -- filtro per tipo doc opzionale (OC/ON/BA/CB/BC/BO)
            AND (";
    Ph ph_tipodoc;
    Txt " IS NULL OR d.tipodoc = ";
    Ph ph_tipodoc;
    Txt ")

            -- filtro per NUMERO DOCUMENTO (parziale)
            AND (";
    Ph ph_numerodoc;
    Txt " IS NULL OR d.numerodoc LIKE CONCAT('%%', ";
    Ph ph_numerodoc;
    Txt ", '%%'))

            -- filtro per ANNO / ESERCIZIO
            AND (";
    Ph ph_esanno;
    Txt " IS NULL OR d.esanno = ";
    Ph ph_esanno;
    Txt ")

            -- filtro per CODICE CLIENTE / FORNITORE
            AND (";
    Ph ph_codicecf;
    Txt " IS NULL OR d.codicecf = ";
    Ph ph_codicecf;
    Txt ")

            -- filtro per RAGIONE SOCIALE (anagrafe)
            AND (
                ";
    Ph ph_anagrafe;
    Txt " IS NULL
                OR a.DESCRIZION LIKE CONCAT('%%', ";
    Ph ph_anagrafe;
    Txt ", '%%')
                OR a.SUPRAGSOC  LIKE CONCAT('%%', ";
    Ph ph_anagrafe;
    Txt ", '%%')
            )

            -- filtro per ARTICOLO / TESTO RIGA DOCUMENTO
            AND (
                ";
    Ph ph_articolo;
    Txt " IS NULL
                OR EXISTS (
                    SELECT 1
                    FROM docrig r2
                    LEFT JOIN magart ma2
                           ON ma2.CODICE = r2.codicearti
                    LEFT JOIN u_scimp us2
                           ON us2.id_rigadoc = r2.id
                    WHERE r2.tipodoc   = d.tipodoc
                      AND r2.esanno    = d.esanno
                      AND r2.numerodoc = d.numerodoc
                      AND (
                          r2.codicearti LIKE CONCAT('%%', ";
    Ph ph_articolo;
    Txt ", '%%')
                          OR r2.descrizion LIKE CONCAT('%%', ";
    Ph ph_articolo;
    Txt ", '%%')
                          OR ma2.DESCRIZION LIKE CONCAT('%%', ";
    Ph ph_articolo;
    Txt ", '%%')
                          OR us2.passo  LIKE CONCAT('%%', ";
    Ph ph_articolo;
    Txt ", '%%')
                          OR us2.fascia LIKE CONCAT('%%', ";
    Ph ph_articolo;
    Txt ", '%%')
                      )
                )
            )

        ORDER BY d.datadoc DESC, d.numerodoc DESC
        LIMIT ";
    Ph ph_limit;
    Txt " OFFSET ";
    Ph ph_offset;
    Txt "
        " ].

Definition search_articoli_per_cliente_template : list fragment :=
  [ Txt "
        SELECT
            -- campi di testata minimi (prefisso d_)
            d.tipodoc                           AS d_tipodoc,
            d.esanno                            AS d_esanno,
            d.numerodoc                         AS d_numerodoc,
            d.datadoc                           AS d_datadoc,
            d.codicecf                          AS d_codicecf,
            COALESCE(a.SUPRAGSOC, a.DESCRIZION) AS d_cliente_nome,

            -- campi di riga (prefisso r_)
            r.numeroriga                        AS r_numeroriga,
            r.codicearti                        AS r_codicearti,
            ma.DESCRIZION                       AS r_descrizione_articolo,
            r.descrizion                        AS r_descrizione_riga,
            r.unmisura                          AS r_unmisura,
            r.quantita                          AS r_quantita,
            r.quantitare                        AS r_quantitare,
            COALESCE(us.passo,  ma.U_PASSO)     AS r_pass,
            COALESCE(us.fascia, ma.U_FASCIA)    AS r_fascia,
            CONCAT_WS(' / ',
                NULLIF(r.u_compon1, ''),
                NULLIF(r.u_compon2, ''),
                NULLIF(r.u_compon3, ''),
                NULLIF(r.u_compon4, '')
            )                                   AS r_componenti
        FROM doctes d
        JOIN docrig r
          ON r.tipodoc   = d.tipodoc
         AND r.esanno    = d.esanno
         AND r.numerodoc = d.numerodoc
        LEFT JOIN anagrafe a
               ON a.CODICE = d.codicecf
        LEFT JOIN magart ma
               ON ma.CODICE = r.codicearti
        LEFT JOIN u_scimp us
               ON us.id_rigadoc = r.id
        WHERE
            d.tipodoc IN (";
    Txt tipi_doc;
    Txt ")

            -- filtro per tipo doc opzionale
            AND (";
    Ph ph_tipodoc;
    Txt " IS NULL OR d.tipodoc = ";
    Ph ph_tipodoc;
    Txt ")

            -- filtro per ANNO / ESERCIZIO
            AND (";
    Ph ph_esanno;
    Txt " IS NULL OR d.esanno = ";
    Ph ph_esanno;
    Txt ")

            -- filtro per CODICE CLIENTE / FORNITORE
            AND (";
    Ph ph_codicecf;
    Txt " IS NULL OR d.codicecf = ";
    Ph ph_codicecf;
    Txt ")

            -- filtro per RAGIONE SOCIALE (anagrafe)
            AND (
                ";
    Ph ph_anagrafe;
    Txt " IS NULL
                OR a.DESCRIZION LIKE CONCAT('%%', ";
    Ph ph_anagrafe;
    Txt ", '%%')
                OR a.SUPRAGSOC  LIKE CONCAT('%%', ";
    Ph ph_anagrafe;
    Txt ", '%%')
            )

            -- filtro per ARTICOLO / TESTO RIGA DOCUMENTO
            AND (
                ";
    Ph ph_articolo;
    Txt " IS NULL
                OR (
                    r.codicearti LIKE CONCAT('%%', ";
    Ph ph_articolo;
    Txt ", '%%')
                    OR r.descrizion LIKE CONCAT('%%', ";
    Ph ph_articolo;
    Txt ", '%%')
                    OR ma.DESCRIZION LIKE CONCAT('%%', ";
    Ph ph_articolo;
    Txt ", '%%')
                    OR us.passo  LIKE CONCAT('%%', ";
    Ph ph_articolo;
    Txt ", '%%')
                    OR us.fascia LIKE CONCAT('%%', ";
    Ph ph_articolo;
    Txt ", '%%')
                )
            )

            AND NOT (
                UPPER(r.codicearti) LIKE 'CONAI%%'
                OR UPPER(r.codicearti) LIKE 'BANCALE%%'
                OR UPPER(r.descrizion) LIKE '%CONAI%'
                OR UPPER(r.descrizion) LIKE '%BANCALE%'
                OR UPPER(ma.DESCRIZION) LIKE '%CONAI%'
                OR UPPER(ma.DESCRIZION) LIKE '%BANCALE%'
            )

            -- solo righe con codice articolo valorizzato
            AND r.codicearti IS NOT NULL
            AND r.codicearti <> ''

        ORDER BY d.datadoc DESC, d.numerodoc DESC, r.numeroriga ASC
        LIMIT ";
    Ph ph_limit;
    Txt " OFFSET ";
    Ph ph_offset;
    Txt "
        " ].

Definition search_clienti_options_template : list fragment :=
  [ Txt "
        SELECT
            a.CODICE                               AS codicecf,
            COALESCE(a.SUPRAGSOC, a.DESCRIZION)    AS cliente_nome
        FROM anagrafe a
        WHERE a.CODICE IS NOT NULL AND a.CODICE <> ''
          AND (
            ";
    Ph ph_anagrafe;
    Txt " IS NULL
            OR a.DESCRIZION LIKE CONCAT('%%', ";
    Ph ph_anagrafe;
    Txt ", '%%')
            OR a.SUPRAGSOC  LIKE CONCAT('%%', ";
    Ph ph_anagrafe;
    Txt ", '%%')
            OR a.CODICE     LIKE CONCAT('%%', ";
    Ph ph_anagrafe;
    Txt ", '%%')
          )
        ORDER BY cliente_nome ASC, a.CODICE ASC
        LIMIT ";
    Ph ph_limit;
    Txt " OFFSET ";
    Ph ph_offset;
    Txt "
        " ].

Definition get_scheda_lavoro_template : list fragment :=
  [ Txt "
        SELECT
            -- ============================
            -- CAMPi TESTATA (prefisso d_)
            -- ============================
            d.tipodoc                           AS d_tipodoc,
            d.esanno                            AS d_esanno,
            d.numerodoc                         AS d_numerodoc,
            d.datadoc                           AS d_datadoc,
            d.codicecf                          AS d_codicecf,
            COALESCE(a.SUPRAGSOC, a.DESCRIZION) AS d_cliente_nome,
            a.PARTIVA                           AS d_piva,
            a.CODFISCALE                        AS d_cfisc,
            d.ddragsoc                          AS d_ddragsoc,
            d.ddindir                           AS d_ddindir,
            d.ddcap                             AS d_ddcap,
            d.ddlocal                           AS d_ddlocal,
            d.totdoc                            AS d_totdoc,
            d.totimp                            AS d_totimp,
            d.totmerce                          AS d_totmerce,
            d.totiva                            AS d_totiva,
            d.oggetto                           AS d_oggetto,
            d.note                              AS d_note_testa,
            d.username                          AS d_username,
            d.timestamp_row                     AS d_timestamp_row,

            -- ============================
            -- CAMPi RIGA (prefisso r_)
            -- ============================
            r.numeroriga                        AS r_numeroriga,
            r.codicearti                        AS r_codicearti,
            ma.DESCRIZION                       AS r_descrizione_articolo,
            r.descrizion                        AS r_descrizione_riga,
            r.unmisura                          AS r_unmisura,
            r.quantita                          AS r_quantita,
            r.quantitare                        AS r_quantitare,
            r.sconti                            AS r_sconti,
            r.prezzoun                          AS r_prezzoun,
            r.prezzotot                         AS r_prezzotot,
            r.aliiva                            AS r_aliiva,
            r.magpartenz                        AS r_magpartenz,
            r.magarrivo                         AS r_magarrivo,
            r.lotto                             AS r_lotto,
            r.commessa                          AS r_commessa,
            r.mezzo                             AS r_mezzo,
            r.tipolav                           AS r_tipolav,
            r.codcaumag                         AS r_codcaumag,
            r.note                              AS r_note_riga,
            r.username                          AS r_username,
            r.timestamp_row                     AS r_timestamp_row,

            -- ============================
            -- CAMPi QUALITÀ (prefisso r_)
            -- ============================
            COALESCE(us.passo,  ma.U_PASSO)     AS r_pass,
            COALESCE(us.fascia, ma.U_FASCIA)    AS r_fascia,
            CONCAT_WS(' / ',
                NULLIF(r.u_compon1, ''),
                NULLIF(r.u_compon2, ''),
                NULLIF(r.u_compon3, ''),
                NULLIF(r.u_compon4, '')
            )                                   AS r_componenti
        FROM doctes d
        JOIN docrig r
          ON r.tipodoc   = d.tipodoc
         AND r.esanno    = d.esanno
         AND r.numerodoc = d.numerodoc
        LEFT JOIN anagrafe a
               ON a.CODICE = d.codicecf
        LEFT JOIN magart ma
               ON ma.CODICE = r.codicearti
        LEFT JOIN u_scimp us
               ON us.id_rigadoc = r.id

        WHERE d.tipodoc   = ";
    Ph ph_tipodoc;
    Txt "
          AND d.esanno    = ";
    Ph ph_esanno;
    Txt "
          AND d.numerodoc = ";
    Ph ph_numerodoc;
    Txt "
          AND r.codicearti IS NOT NULL
          AND r.codicearti <> ''

        ORDER BY r.numeroriga ASC
        " ].

Definition search_schede_lavoro_sql : string := render search_schede_lavoro_template.

Definition search_articoli_per_cliente_sql : string :=
  render search_articoli_per_cliente_template.

Definition search_clienti_options_sql : string := render search_clienti_options_template.

Definition get_scheda_lavoro_sql : string := render get_scheda_lavoro_template.

End QuerySqlQualityMYSQL.


(** ** The relational engine, as far as the statements above use it

    Tables are lists of rows; a row maps column names to values and reads
    [NULL] ([VNone]) at a column it does not carry.  Predicates are
    three-valued.  Text is compared byte for byte, and a column is compared
    with parameters of its own type: collations and the implicit numeric
    conversion across types are outside the model. *)

Module Sql.

(** [Some true], [Some false], and [None] for UNKNOWN. *)
Definition tv : Type := option bool.

Definition and3 (a b : tv) : tv :=
  match a, b with
  | Some false, _ | _, Some false => Some false
  | Some true, Some true => Some true
  | _, _ => None
  end.

Definition or3 (a b : tv) : tv :=
  match a, b with
  | Some true, _ | _, Some true => Some true
  | Some false, Some false => Some false
  | _, _ => None
  end.

Definition not3 (a : tv) : tv :=
  match a with
  | Some b => Some (negb b)
  | None => None
  end.

(** A [WHERE] or [ON] clause keeps a row only when it is TRUE. *)
Definition holds (a : tv) : bool :=
  match a with
  | Some true => true
  | _ => false
  end.

Definition is_null (v : value) : tv :=
  match v with
  | VNone => Some true
  | _ => Some false
  end.

Definition is_not_null (v : value) : tv := not3 (is_null v).

(** [a = b]. *)
Definition eq (a b : value) : tv :=
  match a, b with
  | VNone, _ | _, VNone => None
  | VStr x, VStr y => Some (String.eqb x y)
  | VInt x, VInt y => Some (x =? y)
  | _, _ => Some false
  end.

(** [a <> b]. *)
Definition neq (a b : value) : tv := not3 (eq a b).

Fixpoint any3 (l : list tv) : tv :=
  match l with
  | [] => Some false
  | x :: r => or3 x (any3 r)
  end.

Fixpoint all3 (l : list tv) : tv :=
  match l with
  | [] => Some true
  | x :: r => and3 x (all3 r)
  end.

(** [a IN (x1, ..., xn)]. *)
Definition in_list (a : value) (xs : list value) : tv := any3 (map (eq a) xs).

(** The text of a non-NULL value. *)
Definition text (v : value) : option string :=
  match v with
  | VNone => None
  | v => Some (Py.str v)
  end.

(** [UPPER(v)]. *)
Definition upper (v : value) : value :=
  match text v with
  | Some s => VStr (Py.upper s)
  | None => VNone
  end.

(** [CONCAT(v1, ..., vn)]: NULL as soon as one argument is. *)
Fixpoint concat (vs : list value) : value :=
  match vs with
  | [] => VStr ""
  | v :: r =>
      match text v, concat r with
      | Some s, VStr t => VStr (s +:+ t)
      | _, _ => VNone
      end
  end.

(** [COALESCE(a, b)]. *)
Definition coalesce (a b : value) : value :=
  match a with
  | VNone => b
  | _ => a
  end.

(** [NULLIF(a, b)]. *)
Definition nullif (a b : value) : value :=
  match eq a b with
  | Some true => VNone
  | _ => a
  end.

(** [CONCAT_WS(sep, v1, ..., vn)]: NULL arguments are skipped. *)
Definition concat_ws (sep : string) (vs : list value) : value :=
  VStr (join sep (omap text vs)).

(** The matcher of [LIKE]: [%] any run of characters, [_] any one
    character, backslash takes the next pattern character literally. *)
Fixpoint like_match (p s : string) : bool :=
  match p with
  | EmptyString =>
      match s with
      | EmptyString => true
      | _ => false
      end
  | String c p' =>
      if Ascii.eqb c "%" then
        (fix skip (t : string) : bool :=
           (like_match p' t ||
            match t with
            | EmptyString => false
            | String _ t' => skip t'
            end)%bool) s
      else if Ascii.eqb c "_" then
        match s with
        | String _ s' => like_match p' s'
        | EmptyString => false
        end
      else if Ascii.eqb c "\" then
        match p' with
        | String e p'' =>
            match s with
            | String x s' => (Ascii.eqb e x && like_match p'' s')%bool
            | EmptyString => false
            end
        | EmptyString =>
            match s with
            | String x EmptyString => Ascii.eqb c x
            | _ => false
            end
        end
      else
        match s with
        | String x s' => (Ascii.eqb c x && like_match p' s')%bool
        | EmptyString => false
        end
  end.

(** [v LIKE pat]. *)
Definition like (v pat : value) : tv :=
  match text v, text pat with
  | Some s, Some p => Some (like_match p s)
  | _, _ => None
  end.

(** Order of values under [ORDER BY ... ASC]: NULL first. *)
Definition value_cmp (a b : value) : comparison :=
  match a, b with
  | VNone, VNone => Eq
  | VNone, _ => Lt
  | _, VNone => Gt
  | VInt x, VInt y => Z.compare x y
  | VInt _, VStr _ => Lt
  | VStr _, VInt _ => Gt
  | VStr x, VStr y => String.compare x y
  end.

(** Lexicographic comparison by a list of sort keys; [true] marks DESC. *)
Fixpoint keys_cmp {A} (keys : list ((A -> value) * bool)) (x y : A) : comparison :=
  match keys with
  | [] => Eq
  | (k, desc) :: r =>
      match (if desc then value_cmp (k y) (k x) else value_cmp (k x) (k y)) with
      | Eq => keys_cmp r x y
      | c => c
      end
  end.

Definition keys_le {A} (keys : list ((A -> value) * bool)) (x y : A) : Prop :=
  keys_cmp keys x y <> Gt.

#[global] Instance keys_le_dec {A} (keys : list ((A -> value) * bool)) (x y : A) :
  Decision (keys_le keys x y).
Proof. unfold keys_le. solve_decision. Defined.

(** [ORDER BY keys]. *)
Definition order_by {A} (keys : list ((A -> value) * bool)) (rows : list A) : list A :=
  merge_sort (keys_le keys) rows.

Definition syntax_error : exn :=
  mk_exn ProgrammingError "You have an error in your SQL syntax".

(** [LIMIT l OFFSET o]: both must be non-negative integer literals. *)
Definition limit_offset {A} (l o : value) (rows : list A) : outcome (list A) :=
  match l, o with
  | VInt l, VInt o =>
      if ((0 <=? l) && (0 <=? o))%bool
      then Ret (take (Z.to_nat l) (drop (Z.to_nat o) rows))
      else Raise syntax_error
  | _, _ => Raise syntax_error
  end.

(** [FROM ... JOIN t ON on]. *)
Definition inner_join (t : list dict) (on : dict -> tv) : list dict :=
  List.filter (fun x => holds (on x)) t.

(** [FROM ... LEFT JOIN t ON on]: an all-NULL row when nothing matches. *)
Definition left_join (t : list dict) (on : dict -> tv) : list dict :=
  match inner_join t on with
  | [] => [(∅ : dict)]
  | ms => ms
  end.

End Sql.

(** ** The statements of [QuerySqlQualityMYSQL], evaluated on a database

    Each function below is the statement of the same name, clause by
    clause; [param ps i] is the value the driver puts in place of the
    placeholder number [i] (from 0) of the text. *)

Record database : Type := mk_database {
  doctes : list dict;
  docrig : list dict;
  anagrafe : list dict;
  magart : list dict;
  u_scimp : list dict }.

(** One row of [doctes d JOIN docrig r LEFT JOIN anagrafe a LEFT JOIN magart ma
    LEFT JOIN u_scimp us]. *)
Record joined : Type := mk_joined {
  j_d : dict;
  j_r : dict;
  j_a : dict;
  j_ma : dict;
  j_us : dict }.

Module Query.

Import Sql.

Definition col (t : dict) (c : string) : value := Py.get t c.

Definition param (ps : list value) (i : nat) : value := nth i ps VNone.

Definition tipi_doc_values : list value := map VStr QuerySqlQualityMYSQL.TIPI_DOC_LAVORO.

(** [col LIKE CONCAT('%%', p, '%%')]. *)
Definition like_param (c p : value) : tv := like c (concat [VStr "%%"; p; VStr "%%"]).

(** [FROM doctes d LEFT JOIN anagrafe a ON a.CODICE = d.codicecf]. *)
Definition from_doctes (D : database) : list (dict * dict) :=
  flat_map
    (fun d =>
       map (fun a => (d, a))
         (left_join (anagrafe D) (fun a => eq (col a "CODICE") (col d "codicecf"))))
    (doctes D).

(** [FROM doctes d JOIN docrig r ON ... LEFT JOIN anagrafe a ON ...
     LEFT JOIN magart ma ON ... LEFT JOIN u_scimp us ON ...]. *)
Definition from_doctes_docrig (D : database) : list joined :=
  flat_map
    (fun d =>
       flat_map
         (fun r =>
            flat_map
              (fun a =>
                 flat_map
                   (fun ma =>
                      map (fun us => mk_joined d r a ma us)
                        (left_join (u_scimp D)
                           (fun us => eq (col us "id_rigadoc") (col r "id"))))
                   (left_join (magart D)
                      (fun ma => eq (col ma "CODICE") (col r "codicearti"))))
              (left_join (anagrafe D)
                 (fun a => eq (col a "CODICE") (col d "codicecf"))))
         (inner_join (docrig D)
            (fun r =>
               and3 (eq (col r "tipodoc") (col d "tipodoc"))
                 (and3 (eq (col r "esanno") (col d "esanno"))
                    (eq (col r "numerodoc") (col d "numerodoc"))))))
    (doctes D).

(** The header columns the three statements select. *)
Definition select_header_full (d a : dict) : list (string * value) :=
  [ ("d_tipodoc", col d "tipodoc");
    ("d_esanno", col d "esanno");
    ("d_numerodoc", col d "numerodoc");
    ("d_datadoc", col d "datadoc");
    ("d_codicecf", col d "codicecf");
    ("d_cliente_nome", coalesce (col a "SUPRAGSOC") (col a "DESCRIZION"));
    ("d_piva", col a "PARTIVA");
    ("d_cfisc", col a "CODFISCALE");
    ("d_ddragsoc", col d "ddragsoc");
    ("d_ddindir", col d "ddindir");
    ("d_ddcap", col d "ddcap");
    ("d_ddlocal", col d "ddlocal");
    ("d_totdoc", col d "totdoc");
    ("d_totimp", col d "totimp");
    ("d_totmerce", col d "totmerce");
    ("d_totiva", col d "totiva");
    ("d_oggetto", col d "oggetto");
    ("d_note_testa", col d "note");
    ("d_username", col d "username");
    ("d_timestamp_row", col d "timestamp_row") ].

Definition select_header_min (d a : dict) : list (string * value) :=
  [ ("d_tipodoc", col d "tipodoc");
    ("d_esanno", col d "esanno");
    ("d_numerodoc", col d "numerodoc");
    ("d_datadoc", col d "datadoc");
    ("d_codicecf", col d "codicecf");
    ("d_cliente_nome", coalesce (col a "SUPRAGSOC") (col a "DESCRIZION")) ].

(** [CONCAT_WS(' / ', NULLIF(r.u_compon1, ''), ..., NULLIF(r.u_compon4, ''))]. *)
Definition componenti (r : dict) : value :=
  concat_ws " / "
    [ nullif (col r "u_compon1") (VStr "");
      nullif (col r "u_compon2") (VStr "");
      nullif (col r "u_compon3") (VStr "");
      nullif (col r "u_compon4") (VStr "") ].

Definition select_quality (r ma us : dict) : list (string * value) :=
  [ ("r_pass", coalesce (col us "passo") (col ma "U_PASSO"));
    ("r_fascia", coalesce (col us "fascia") (col ma "U_FASCIA"));
    ("r_componenti", componenti r) ].

Definition select_riga_min (r ma : dict) : list (string * value) :=
  [ ("r_numeroriga", col r "numeroriga");
    ("r_codicearti", col r "codicearti");
    ("r_descrizione_articolo", col ma "DESCRIZION");
    ("r_descrizione_riga", col r "descrizion");
    ("r_unmisura", col r "unmisura");
    ("r_quantita", col r "quantita");
    ("r_quantitare", col r "quantitare") ].

Definition select_riga_full (r ma : dict) : list (string * value) :=
  select_riga_min r ma ++
  [ ("r_sconti", col r "sconti");
    ("r_prezzoun", col r "prezzoun");
    ("r_prezzotot", col r "prezzotot");
    ("r_aliiva", col r "aliiva");
    ("r_magpartenz", col r "magpartenz");
    ("r_magarrivo", col r "magarrivo");
    ("r_lotto", col r "lotto");
    ("r_commessa", col r "commessa");
    ("r_mezzo", col r "mezzo");
    ("r_tipolav", col r "tipolav");
    ("r_codcaumag", col r "codcaumag");
    ("r_note_riga", col r "note");
    ("r_username", col r "username");
    ("r_timestamp_row", col r "timestamp_row") ].

(** *** [search_schede_lavoro_sql] *)

Definition search_schede_lavoro_select (t : dict * dict) : dict :=
  list_to_map (select_header_full (fst t) (snd t)).

(** The [EXISTS (SELECT 1 FROM docrig r2 ...)] subquery. *)
Definition exists_riga (D : database) (ps : list value) (d : dict) : bool :=
  existsb
    (fun r2 =>
       existsb
         (fun ma2 =>
            existsb
              (fun us2 =>
                 holds
                   (all3
                      [ eq (col r2 "tipodoc") (col d "tipodoc");
                        eq (col r2 "esanno") (col d "esanno");
                        eq (col r2 "numerodoc") (col d "numerodoc");
                        any3
                          [ like_param (col r2 "codicearti") (param ps 12);
                            like_param (col r2 "descrizion") (param ps 13);
                            like_param (col ma2 "DESCRIZION") (param ps 14);
                            like_param (col us2 "passo") (param ps 15);
                            like_param (col us2 "fascia") (param ps 16) ] ]))
              (left_join (u_scimp D)
                 (fun us2 => eq (col us2 "id_rigadoc") (col r2 "id"))))
         (left_join (magart D)
            (fun ma2 => eq (col ma2 "CODICE") (col r2 "codicearti"))))
    (docrig D).

Definition search_schede_lavoro_where
    (D : database) (ps : list value) (t : dict * dict) : tv :=
  let d := fst t in
  let a := snd t in
  all3
    [ in_list (col d "tipodoc") tipi_doc_values;
      or3 (is_null (param ps 0)) (eq (col d "tipodoc") (param ps 1));
      or3 (is_null (param ps 2)) (like_param (col d "numerodoc") (param ps 3));
      or3 (is_null (param ps 4)) (eq (col d "esanno") (param ps 5));
      or3 (is_null (param ps 6)) (eq (col d "codicecf") (param ps 7));
      any3
        [ is_null (param ps 8);
          like_param (col a "DESCRIZION") (param ps 9);
          like_param (col a "SUPRAGSOC") (param ps 10) ];
      or3 (is_null (param ps 11)) (Some (exists_riga D ps d)) ].

Definition search_schede_lavoro_rows
    (D : database) (ps : list value) : outcome (list dict) :=
  match
    limit_offset (param ps 17) (param ps 18)
      (order_by
         [ (fun t : dict * dict => col (fst t) "datadoc", true);
           (fun t : dict * dict => col (fst t) "numerodoc", true) ]
         (List.filter (fun t => holds (search_schede_lavoro_where D ps t))
            (from_doctes D)))
  with
  | Ret rows => Ret (map search_schede_lavoro_select rows)
  | Raise e => Raise e
  end.

(** *** [search_articoli_per_cliente_sql] *)

Definition search_articoli_per_cliente_select (t : joined) : dict :=
  list_to_map
    (select_header_min (j_d t) (j_a t) ++
     select_riga_min (j_r t) (j_ma t) ++
     select_quality (j_r t) (j_ma t) (j_us t)).

(** The [NOT ( ... )] clause is applied to this disjunction. *)
Definition is_sentinel (t : joined) : tv :=
  any3
    [ like (upper (col (j_r t) "codicearti")) (VStr "CONAI%%");
      like (upper (col (j_r t) "codicearti")) (VStr "BANCALE%%");
      like (upper (col (j_r t) "descrizion")) (VStr "%CONAI%");
      like (upper (col (j_r t) "descrizion")) (VStr "%BANCALE%");
      like (upper (col (j_ma t) "DESCRIZION")) (VStr "%CONAI%");
      like (upper (col (j_ma t) "DESCRIZION")) (VStr "%BANCALE%") ].

Definition search_articoli_per_cliente_where (ps : list value) (t : joined) : tv :=
  let d := j_d t in
  let r := j_r t in
  let a := j_a t in
  let ma := j_ma t in
  let us := j_us t in
  all3
    [ in_list (col d "tipodoc") tipi_doc_values;
      or3 (is_null (param ps 0)) (eq (col d "tipodoc") (param ps 1));
      or3 (is_null (param ps 2)) (eq (col d "esanno") (param ps 3));
      or3 (is_null (param ps 4)) (eq (col d "codicecf") (param ps 5));
      any3
        [ is_null (param ps 6);
          like_param (col a "DESCRIZION") (param ps 7);
          like_param (col a "SUPRAGSOC") (param ps 8) ];
      or3 (is_null (param ps 9))
        (any3
           [ like_param (col r "codicearti") (param ps 10);
             like_param (col r "descrizion") (param ps 11);
             like_param (col ma "DESCRIZION") (param ps 12);
             like_param (col us "passo") (param ps 13);
             like_param (col us "fascia") (param ps 14) ]);
      not3 (is_sentinel t);
      is_not_null (col r "codicearti");
      neq (col r "codicearti") (VStr "") ].

Definition search_articoli_per_cliente_rows
    (D : database) (ps : list value) : outcome (list dict) :=
  match
    limit_offset (param ps 15) (param ps 16)
      (order_by
         [ (fun t => col (j_d t) "datadoc", true);
           (fun t => col (j_d t) "numerodoc", true);
           (fun t => col (j_r t) "numeroriga", false) ]
         (List.filter (fun t => holds (search_articoli_per_cliente_where ps t))
            (from_doctes_docrig D)))
  with
  | Ret rows => Ret (map search_articoli_per_cliente_select rows)
  | Raise e => Raise e
  end.

(** *** [get_scheda_lavoro_sql] *)

Definition get_scheda_lavoro_select (t : joined) : dict :=
  list_to_map
    (select_header_full (j_d t) (j_a t) ++
     select_riga_full (j_r t) (j_ma t) ++
     select_quality (j_r t) (j_ma t) (j_us t)).

Definition get_scheda_lavoro_where (ps : list value) (t : joined) : tv :=
  all3
    [ eq (col (j_d t) "tipodoc") (param ps 0);
      eq (col (j_d t) "esanno") (param ps 1);
      eq (col (j_d t) "numerodoc") (param ps 2);
      is_not_null (col (j_r t) "codicearti");
      neq (col (j_r t) "codicearti") (VStr "") ].

Definition get_scheda_lavoro_order : list ((joined -> value) * bool) :=
  [ (fun t => col (j_r t) "numeroriga", false) ].

Definition get_scheda_lavoro_rows (D : database) (ps : list value) : list dict :=
  map get_scheda_lavoro_select
    (order_by get_scheda_lavoro_order
       (List.filter (fun t => holds (get_scheda_lavoro_where ps t))
          (from_doctes_docrig D))).

End Query.

(** ** A MySQL server holding a database, seen through the driver

    The driver substitutes the parameters for the placeholders and refuses
    a list whose length differs from their number; the server answers the
    statements of [QuerySqlQualityMYSQL] (those evaluated above) and
    nothing else.  The database is only read. *)

Module Server.

Definition not_enough_parameters : exn :=
  mk_exn ProgrammingError "Not enough parameters for the SQL statement".

Definition not_all_parameters_used : exn :=
  mk_exn ProgrammingError "Not all parameters were used in the SQL statement".

Definition unsupported_statement : exn :=
  mk_exn ProgrammingError "statement outside the modelled ones".

Definition no_result_set : exn :=
  mk_exn ProgrammingError "No result set to fetch from".

Definition connection_not_available : exn :=
  mk_exn OperationalError "MySQL Connection not available".

(** Parameter substitution: one parameter per placeholder, or an error. *)
Definition check_params (sql : string) (params : option (list value)) : outcome unit :=
  match params with
  | None | Some [] =>
      if Nat.eqb (count_placeholders sql) 0 then Ret tt else Raise Sql.syntax_error
  | Some ps =>
      if Nat.ltb (length ps) (count_placeholders sql) then Raise not_enough_parameters
      else if Nat.ltb (count_placeholders sql) (length ps)
           then Raise not_all_parameters_used
           else Ret tt
  end.

Definition run_statement
    (D : database) (sql : string) (params : option (list value))
  : outcome (list dict) :=
  match check_params sql params with
  | Raise e => Raise e
  | Ret _ =>
      let ps := default [] params in
      if String.eqb sql QuerySqlQualityMYSQL.search_schede_lavoro_sql
      then Query.search_schede_lavoro_rows D ps
      else if String.eqb sql QuerySqlQualityMYSQL.search_articoli_per_cliente_sql
      then Query.search_articoli_per_cliente_rows D ps
      else if String.eqb sql QuerySqlQualityMYSQL.get_scheda_lavoro_sql
      then Ret (Query.get_scheda_lavoro_rows D ps)
      else Raise unsupported_statement
  end.

Definition count_connects (h : list event) : nat :=
  length (List.filter (fun ev => match ev with EvConnect _ => true | _ => false end) h).

Definition count_cursors (h : list event) : nat :=
  length (List.filter (fun ev => match ev with EvCursor _ => true | _ => false end) h).

Definition was_closed (h : list event) (c : conn) : bool :=
  existsb (fun ev => match ev with EvConnClose c' => Nat.eqb c c' | _ => false end) h.

Definition is_open (h : list event) (c : conn) : bool :=
  (Nat.ltb c (count_connects h) && negb (was_closed h c))%bool.

(** The statement last executed on cursor [k]. *)
Fixpoint last_execute (h : list event) (k : cursor)
  : option (string * option (list value)) :=
  match h with
  | [] => None
  | ev :: r =>
      match last_execute r k with
      | Some x => Some x
      | None =>
          match ev with
          | EvExecute k' sql params _ =>
              if Nat.eqb k k' then Some (sql, params) else None
          | _ => None
          end
      end
  end.

Definition mysql (D : database) : driver :=
  {| drv_connect := fun h _ => Ret (count_connects h);
     drv_is_connected := is_open;
     drv_cursor :=
       fun h c => if is_open h c then Ret (count_cursors h)
                  else Raise connection_not_available;
     drv_execute :=
       fun h k sql params _ =>
         match run_statement D sql params with
         | Ret _ => Ret tt
         | Raise e => Raise e
         end;
     drv_fetchall :=
       fun h k =>
         match last_execute h k with
         | Some (sql, params) => run_statement D sql params
         | None => Raise no_result_set
         end;
     drv_commit := fun _ _ => Ret tt;
     drv_rollback := fun _ _ => Ret tt;
     drv_cursor_close := fun _ _ => Ret tt |}.

End Server.

(** ** [app/quality/repo/QualityRepository.py] *)

(** [x or ""] for an [Optional[str]]. *)
Definition or_empty (o : option string) : string :=
  Py.str (Py.or_ (Py.of_opt o) (VStr "")).

(** [s or None] for a [str]. *)
Definition or_None (s : string) : value := Py.or_ (VStr s) VNone.

(** [int(year) if year is not None else None]. *)
Definition int_or_None (year : option Z) : value :=
  match year with
  | Some y => VInt y
  | None => VNone
  end.

(** [rows or []]. *)
Definition rows_or_empty (rows : list dict) : list dict :=
  match rows with
  | [] => []
  | _ => rows
  end.

Definition tipodoc_required : exn :=
  mk_exn ValueError "tipodoc è obbligatorio per get_scheda_lavoro".

Definition numerodoc_required : exn :=
  mk_exn ValueError "numerodoc è obbligatorio per get_scheda_lavoro".

Definition rows_unbound : exn :=
  mk_exn UnboundLocalError "cannot access local variable 'rows'".

(** The methods of a repository, as [QualityService] calls them. *)
Record QualityRepository : Type := mk_QualityRepository {
  repo_search_schede_lavoro :
    option string -> option string -> option Z -> option string ->
    option string -> option string -> Z -> Z -> M (list dict);
  repo_search_articoli_per_cliente :
    option string -> option Z -> option string ->
    option string -> option string -> Z -> Z -> M (list dict);
  repo_get_scheda_lavoro : option string -> Z -> option string -> M (list dict) }.

Module QualityRepositoryMYSQL.

(** The value [search_schede_lavoro] binds to a placeholder of each kind. *)
Definition bound_value (p : placeholder)
    (tipodoc numerodoc : option string) (year : option Z)
    (codicecf anagrafe_search articolo_search : option string) (limit offset : Z)
  : value :=
  match p with
  | ph_tipodoc => or_None (Py.upper (Py.strip (or_empty tipodoc)))
  | ph_numerodoc => or_None (Py.strip (or_empty numerodoc))
  | ph_esanno => int_or_None year
  | ph_codicecf => or_None (Py.strip (or_empty codicecf))
  | ph_anagrafe => or_None (Py.strip (or_empty anagrafe_search))
  | ph_articolo => or_None (Py.strip (or_empty articolo_search))
  | ph_limit => VInt limit
  | ph_offset => VInt offset
  end.

(** The [params] list of [search_schede_lavoro]. *)
Definition search_schede_lavoro_params
    (tipodoc numerodoc : option string) (year : option Z)
    (codicecf fornitore_search articolo_search : option string) (limit offset : Z)
  : list value :=
  let tipodoc_val := or_None (Py.upper (Py.strip (or_empty tipodoc))) in
  let numerodoc_val := or_None (Py.strip (or_empty numerodoc)) in
  let year_val := int_or_None year in
  let codicecf_val := or_None (Py.strip (or_empty codicecf)) in
  let fornitore_val := or_None (Py.strip (or_empty fornitore_search)) in
  let articolo_val := or_None (Py.strip (or_empty articolo_search)) in
  [ tipodoc_val; tipodoc_val;
    numerodoc_val; numerodoc_val;
    year_val; year_val;
    codicecf_val; codicecf_val;
    fornitore_val; fornitore_val; fornitore_val;
    articolo_val; articolo_val; articolo_val;
    articolo_val; articolo_val; articolo_val;
    VInt limit; VInt offset ].

(** The [params] list of [search_articoli_per_cliente]. *)
Definition search_articoli_per_cliente_params
    (tipodoc : option string) (year : option Z)
    (codicecf cliente_search articolo_search : option string) (limit offset : Z)
  : list value :=
  let tipodoc_val := or_None (Py.upper (Py.strip (or_empty tipodoc))) in
  let year_val := int_or_None year in
  let codicecf_val := or_None (Py.strip (or_empty codicecf)) in
  let cliente_val := or_None (Py.strip (or_empty cliente_search)) in
  let articolo_val := or_None (Py.strip (or_empty articolo_search)) in
  [ tipodoc_val; tipodoc_val;
    year_val; year_val;
    codicecf_val; codicecf_val;
    cliente_val; cliente_val; cliente_val;
    articolo_val; articolo_val; articolo_val;
    articolo_val; articolo_val; articolo_val;
    VInt limit; VInt offset ].

(** The [params] list of [get_scheda_lavoro], past its validation. *)
Definition get_scheda_lavoro_params
    (tipodoc : option string) (esanno : Z) (numerodoc : option string) : list value :=
  [ Py.of_opt tipodoc; VInt esanno; VStr (Py.str (Py.of_opt numerodoc)) ].

Section Methods.

Variable drv : driver.
Variable settings : Settings.

(** [with (self._db_manager or self._new_db_manager()) as db:
        rows = db.execute_query(sql, params, query_type=QueryType.GET)
     return rows or []]
    The world's [MySQLDb] is the one wrapped by the manager used. *)
Definition fetch (sql : string) (params : list value) : M (list dict) :=
  r <- with_DbManager drv settings (execute_query drv sql (Some params) true GET) ;;
  match r with
  | Some rows => ret (rows_or_empty rows)
  | None => raise rows_unbound
  end.

Definition search_schede_lavoro
    (tipodoc numerodoc : option string) (year : option Z)
    (codicecf fornitore_search articolo_search : option string) (limit offset : Z)
  : M (list dict) :=
  fetch QuerySqlQualityMYSQL.search_schede_lavoro_sql
    (search_schede_lavoro_params tipodoc numerodoc year codicecf
       fornitore_search articolo_search limit offset).

Definition search_articoli_per_cliente
    (tipodoc : option string) (year : option Z)
    (codicecf cliente_search articolo_search : option string) (limit offset : Z)
  : M (list dict) :=
  fetch QuerySqlQualityMYSQL.search_articoli_per_cliente_sql
    (search_articoli_per_cliente_params tipodoc year codicecf
       cliente_search articolo_search limit offset).

Definition get_scheda_lavoro
    (tipodoc : option string) (esanno : Z) (numerodoc : option string)
  : M (list dict) :=
  if negb (Py.truthy (Py.of_opt tipodoc)) then raise tipodoc_required
  else if negb (Py.truthy (Py.of_opt numerodoc)) then raise numerodoc_required
  else
    fetch QuerySqlQualityMYSQL.get_scheda_lavoro_sql
      (get_scheda_lavoro_params tipodoc esanno numerodoc).

Definition repository : QualityRepository :=
  {| repo_search_schede_lavoro := search_schede_lavoro;
     repo_search_articoli_per_cliente := search_articoli_per_cliente;
     repo_get_scheda_lavoro := get_scheda_lavoro |}.

End Methods.

End QualityRepositoryMYSQL.

(** ** [app/quality/service/QualityService.py] *)

(** The result of [QualityService.get_scheda_lavoro]:
    [{"header": ..., "righe": [...]}]. *)
Record scheda : Type := mk_scheda {
  header : option dict;
  righe : list dict }.

Module QualityService.

Definition DEFAULT_TIPI_DOC : list string := ["OC"; "ON"; "BA"; "CB"; "BC"; "BO"].

(** The loop shared by [_extract_header] and [_extract_row]:
    [for key, value in row.items(): if key.startswith(prefix): out[key[2:]] = value]. *)
Definition extract (prefix : string) (row : dict) : dict :=
  map_fold
    (fun key value out =>
       if Py.startswith key prefix then <[Py.slice_from 2 key := value]> out else out)
    (∅ : dict) row.

Definition _extract_header (row : dict) : dict := extract "d_" row.

Definition _extract_row (row : dict) : dict := extract "r_" row.

(** [str(header.get("tipodoc") or "").upper()]. *)
Definition tip_of (h : dict) : string :=
  Py.upper (Py.str (Py.or_ (Py.get h "tipodoc") (VStr ""))).

(** [tip and tip not in DEFAULT_TIPI_DOC]: the row is skipped. *)
Definition skipped (tip : string) : bool :=
  (Py.truthy (VStr tip) && negb (Py.str_in tip DEFAULT_TIPI_DOC))%bool.

(** The loop of [search_schede_lavoro] over the raw rows. *)
Definition headers_of (raw_rows : list dict) : list dict :=
  fold_left
    (fun out row =>
       let header := _extract_header row in
       let tip := tip_of header in
       if skipped tip then out else out ++ [header])
    raw_rows [].

(** The item [search_articoli_per_cliente] composes from a row. *)
Definition item_of (header r : dict) : dict :=
  list_to_map
    [ ("tipodoc", Py.get header "tipodoc");
      ("esanno", Py.get header "esanno");
      ("numerodoc", Py.get header "numerodoc");
      ("datadoc", Py.get header "datadoc");
      ("codicecf", Py.get header "codicecf");
      ("cliente_nome", Py.get header "cliente_nome");
      ("numeroriga", Py.get r "numeroriga");
      ("codicearti", Py.get r "codicearti");
      ("descrizione_articolo", Py.get r "descrizione_articolo");
      ("descrizione_riga", Py.get r "descrizione_riga");
      ("unmisura", Py.get r "unmisura");
      ("quantita", Py.get r "quantita");
      ("quantitare", Py.get r "quantitare");
      ("pass", Py.get r "pass");
      ("fascia", Py.get r "fascia");
      ("componenti", Py.get r "componenti") ].

(** The loop of [search_articoli_per_cliente] over the raw rows. *)
Definition items_of (raw_rows : list dict) : list dict :=
  fold_left
    (fun out row =>
       let header := _extract_header row in
       let tip := tip_of header in
       if skipped tip then out
       else out ++ [item_of header (_extract_row row)])
    raw_rows [].

(** What [get_scheda_lavoro] builds from the rows of the repository. *)
Definition scheda_of (rows : list dict) : scheda :=
  match rows with
  | [] => {| header := None; righe := [] |}
  | row0 :: _ =>
      {| header := Some (_extract_header row0);
         righe := map _extract_row rows |}
  end.

Section Methods.

Variable _repo : QualityRepository.

Definition search_schede_lavoro
    (tipodoc numerodoc : option string) (year : option Z)
    (codicecf fornitore_search articolo_search : option string) (limit offset : Z)
  : M (list dict) :=
  raw_rows <- repo_search_schede_lavoro _repo tipodoc numerodoc year codicecf
                fornitore_search articolo_search limit offset ;;
  ret (headers_of raw_rows).

Definition search_articoli_per_cliente
    (tipodoc : option string) (year : option Z)
    (codicecf cliente_search articolo_search : option string) (limit offset : Z)
  : M (list dict) :=
  raw_rows <- repo_search_articoli_per_cliente _repo tipodoc year codicecf
                cliente_search articolo_search limit offset ;;
  ret (items_of raw_rows).

Definition list_schede_lavoro
    (year : option Z) (codicecf cliente_search text_search : option string)
    (tipi_doc : option (list string)) (limit offset : Z)
  : M (list dict) :=
  let fornitore_search := cliente_search in
  let articolo_search := text_search in
  search_schede_lavoro None None year codicecf fornitore_search articolo_search
    limit offset.

Definition get_scheda_lavoro
    (tipodoc : option string) (esanno : Z) (numerodoc : option string) : M scheda :=
  rows <- repo_get_scheda_lavoro _repo tipodoc esanno numerodoc ;;
  ret (scheda_of rows).

End Methods.

End QualityService.

(** ** Predicates the statements below are phrased with *)

(** The rows the list operations keep. *)
Definition kept (row : dict) : bool :=
  negb (QualityService.skipped
          (QualityService.tip_of (QualityService._extract_header row))).

(** The recognized type codes OC, ON, BA, CB, BC and BO of the
    specification, written in every letter case: the texts whose
    upper-cased value is one of the six. *)
Definition recognized_spellings : list string :=
  [ "OC"; "Oc"; "oC"; "oc"; "ON"; "On"; "oN"; "on";
    "BA"; "Ba"; "bA"; "ba"; "CB"; "Cb"; "cB"; "cb";
    "BC"; "Bc"; "bC"; "bc"; "BO"; "Bo"; "bO"; "bo" ].

(** The type code of a mapping, as read under its key, is acceptable in
    the words of the specification: it is absent or empty (no key,
    [None], the empty text, or [0], which Python takes for empty), or it
    is a recognized code in some letter case.  Any other text and any
    other number is not. *)
Definition recognized_code (code : option value) : bool :=
  match code with
  | None | Some VNone => true
  | Some (VStr s) => String.eqb s "" || existsb (String.eqb s) recognized_spellings
  | Some (VInt z) => z =? 0
  end.


(** A computation that makes no other driver calls than those allowed by
    [P]: whatever the world, it only appends events satisfying [P]. *)
Definition logs_only {A} (P : event -> Prop) (m : M A) : Prop :=
  forall w, exists evs, w_log (snd (m w)) = w_log w ++ evs /\ Forall P evs.

(** The statement and parameter list carried by the [execute] calls. *)
Definition executes
    (sql : string) (params : option (list value)) (multi : bool) (ev : event) : Prop :=
  match ev with
  | EvExecute _ s p m => s = sql /\ p = params /\ m = multi
  | _ => True
  end.

(** The liveness probe, as opposed to the calls that operate on the
    database. *)
Definition is_probe (ev : event) : Prop :=
  match ev with
  | EvIsConnected _ => True
  | _ => False
  end.


(** The packaging sentinels of [search_articoli_per_cliente_sql]. *)
Definition sentinels : list string := ["CONAI"; "BANCALE"].

(** A value whose text, upper-cased, starts with a sentinel. *)
Definition starts_with_sentinel (v : value) : Prop :=
  exists s p, Sql.text v = Some s /\ In p sentinels /\
              Py.startswith (Py.upper s) p = true.

(** A value whose text, upper-cased, contains a sentinel. *)
Definition mentions_sentinel (v : value) : Prop :=
  exists s p, Sql.text v = Some s /\ In p sentinels /\
              Py.contains (Py.upper s) p = true.

(** A line that is a product: it has an item code, and neither the code
    nor the two descriptions name a sentinel.  [code], [riga] and
    [articolo] are the keys of the item code, of the line description and
    of the item-master description. *)
Definition product_line (code riga articolo : string) (row : dict) : Prop :=
  Py.get row code <> VNone /\
  Py.get row code <> VStr "" /\
  ~ starts_with_sentinel (Py.get row code) /\
  ~ mentions_sentinel (Py.get row riga) /\
  ~ mentions_sentinel (Py.get row articolo).

(** A [MySQLDb(db_name)] just created, before any driver call. *)
Definition new_world (db_name : option string) : world :=
  {| w_db := {| _db_name := db_name; _conn := None |}; w_log := [] |}.

(** The joined rows of the document with the given key that carry an item
    code. *)
Definition detail_line (tipodoc : string) (esanno : Z) (numerodoc : string)
    (t : joined) : bool :=
  (bool_decide (Query.col (j_d t) "tipodoc" = VStr tipodoc) &&
   bool_decide (Query.col (j_d t) "esanno" = VInt esanno) &&
   bool_decide (Query.col (j_d t) "numerodoc" = VStr numerodoc) &&
   negb (bool_decide (Query.col (j_r t) "codicearti" = VNone)) &&
   negb (bool_decide (Query.col (j_r t) "codicearti" = VStr "")))%bool.

(** Ascending order of the line numbers of two result rows. *)
Definition by_numeroriga (a b : dict) : Prop :=
  Sql.value_cmp (Py.get a "r_numeroriga") (Py.get b "r_numeroriga") <> Gt.

(** The first pair with key [k] of an association list. *)
Fixpoint assoc (k : string) (l : list (string * value)) : option value :=
  match l with
  | [] => None
  | (k', v) :: r => if String.eqb k' k then Some v else assoc k r
  end.

(** A pattern text without wildcard or escape characters. *)
Fixpoint plain (s : string) : bool :=
  match s with
  | EmptyString => true
  | String c r =>
      (negb (Ascii.eqb c "%") && negb (Ascii.eqb c "_") && negb (Ascii.eqb c "\")
       && plain r)%bool
  end.

(** ** A sample installation, used to run the code on concrete inputs *)

Module Sample.

Definition settings : Settings :=
  {| API_MYSQL_HOSTNAME := "db.local";
     API_MYSQL_PORT := 3306;
     API_MYSQL_USERNAME := "api";
     API_MYSQL_PASSWORD := "secret";
     API_MYSQL_DB := "plax";
     QUALITY_MYSQL_DB := "fox_staging";
     QUALITY_MYSQL_HOSTNAME := None;
     QUALITY_MYSQL_PORT := None;
     QUALITY_MYSQL_USERNAME := None;
     QUALITY_MYSQL_PASSWORD := None |}.

(** Document OC/2024/A-1 of customer C001 has four lines: a product, a
    line of free text without item code, a CONAI surcharge and a
    pallet. *)
Definition D : database :=
  {| doctes :=
       [ list_to_map
           [ ("tipodoc", VStr "OC"); ("esanno", VInt 2024);
             ("numerodoc", VStr "A-1"); ("datadoc", VStr "2024-03-01");
             ("codicecf", VStr "C001"); ("oggetto", VStr "ordine") ];
         list_to_map
           [ ("tipodoc", VStr "BA"); ("esanno", VInt 2024);
             ("numerodoc", VStr "B-7"); ("datadoc", VStr "2024-04-02");
             ("codicecf", VStr "C001") ] ];
     docrig :=
       [ list_to_map
           [ ("id", VInt 2); ("tipodoc", VStr "OC"); ("esanno", VInt 2024);
             ("numerodoc", VStr "A-1"); ("numeroriga", VInt 2);
             ("codicearti", VStr ""); ("descrizion", VStr "consegna al piano") ];
         list_to_map
           [ ("id", VInt 1); ("tipodoc", VStr "OC"); ("esanno", VInt 2024);
             ("numerodoc", VStr "A-1"); ("numeroriga", VInt 1);
             ("codicearti", VStr "ART1"); ("descrizion", VStr "busta 20x30");
             ("u_compon1", VStr "PE"); ("u_compon2", VStr "");
             ("u_compon3", VStr "PP") ];
         list_to_map
           [ ("id", VInt 3); ("tipodoc", VStr "OC"); ("esanno", VInt 2024);
             ("numerodoc", VStr "A-1"); ("numeroriga", VInt 3);
             ("codicearti", VStr "conai01"); ("descrizion", VStr "contributo") ];
         list_to_map
           [ ("id", VInt 4); ("tipodoc", VStr "OC"); ("esanno", VInt 2024);
             ("numerodoc", VStr "A-1"); ("numeroriga", VInt 4);
             ("codicearti", VStr "PAL"); ("descrizion", VStr "Bancale EPAL") ];
         list_to_map
           [ ("id", VInt 5); ("tipodoc", VStr "BA"); ("esanno", VInt 2024);
             ("numerodoc", VStr "B-7"); ("numeroriga", VInt 1);
             ("codicearti", VStr "ART1"); ("descrizion", VStr "busta 20x30") ] ];
     anagrafe :=
       [ list_to_map
           [ ("CODICE", VStr "C001"); ("DESCRIZION", VStr "Rossi srl");
             ("PARTIVA", VStr "01234567890") ] ];
     magart :=
       [ list_to_map
           [ ("CODICE", VStr "ART1"); ("DESCRIZION", VStr "Busta PE");
             ("U_PASSO", VStr "30") ];
         list_to_map [ ("CODICE", VStr "conai01"); ("DESCRIZION", VStr "Contributo") ];
         list_to_map [ ("CODICE", VStr "PAL"); ("DESCRIZION", VStr "Pallet") ] ];
     u_scimp := [ list_to_map [ ("id_rigadoc", VInt 1); ("fascia", VStr "F2") ] ] |}.

(** A [MySQLDb(settings.QUALITY_MYSQL_DB)] just created, nothing logged. *)
Definition fresh : world :=
  {| w_db := {| _db_name := Some "fox_staging"; _conn := None |}; w_log := [] |}.

Definition repo : QualityRepository :=
  QualityRepositoryMYSQL.repository (Server.mysql D) settings.

End Sample.

Module Unfiltered.

(** Rows as a repository whose statement did not restrict the type would
    yield them: a recognized code in lower case, an invoice, a document
    without a type and one whose type is [NULL]. *)
Definition rows : list dict :=
  [ list_to_map [ ("d_tipodoc", VStr "oc"); ("d_numerodoc", VStr "A-1");
                  ("r_codicearti", VStr "ART1") ];
    list_to_map [ ("d_tipodoc", VStr "FT"); ("d_numerodoc", VStr "F-9");
                  ("r_codicearti", VStr "ART2") ];
    list_to_map [ ("d_numerodoc", VStr "X-3"); ("r_codicearti", VStr "ART3") ];
    list_to_map [ ("d_tipodoc", VNone); ("d_numerodoc", VStr "N-4");
                  ("r_codicearti", VStr "ART4") ] ].

Definition repo : QualityRepository :=
  {| repo_search_schede_lavoro := fun _ _ _ _ _ _ _ _ => ret rows;
     repo_search_articoli_per_cliente := fun _ _ _ _ _ _ _ => ret rows;
     repo_get_scheda_lavoro := fun _ _ _ => ret rows |}.

End Unfiltered.


(** A computation that reaches the driver: whatever the world, it makes
    at least one driver call. *)
Definition calls_driver {A} (m : M A) : Prop :=
  forall w, exists ev evs, w_log (snd (m w)) = w_log w ++ ev :: evs.

(** The driver calls [MySQLDb.close] makes in world [w]. *)
Definition close_events (drv : driver) (w : world) : list event :=
  match _conn (w_db w) with
  | None => []
  | Some c =>
      EvIsConnected c ::
      (if drv_is_connected drv (w_log w) c then [EvConnClose c] else [])
  end.

(** An [Optional[str]] argument that is absent or empty. *)
Definition missing (o : option string) : Prop := o = None \/ o = Some "".

(** An optional filter in the words of the specification: absence is no
    restriction.  When nothing is bound to the filter every row passes
    it; otherwise a row passes when the test on the bound value does. *)
Definition unless_absent (bound : value) (test : value -> bool) : bool :=
  match bound with
  | VNone => true
  | p => test p
  end.

(** The test of an exact filter: the column holds the bound value. *)
Definition equals (field bound : value) : bool := bool_decide (field = bound).

(** The test of a text filter: one of the columns is
    [LIKE CONCAT('%%', bound, '%%')]. *)
Definition like_one_of (fields : list value) (bound : value) : bool :=
  existsb (fun field => Sql.holds (Query.like_param field bound)) fields.

(** What the sample repository yields for the detail of OC/2024/A-1 and
    for the two list operations without filters. *)
Definition detail_run : outcome (list dict) * world :=
  repo_get_scheda_lavoro Sample.repo (Some "OC") 2024 (Some "A-1") Sample.fresh.

Definition search_run : outcome (list dict) * world :=
  repo_search_schede_lavoro Sample.repo None None None None None None 50 0 Sample.fresh.

Definition articoli_run : outcome (list dict) * world :=
  repo_search_articoli_per_cliente Sample.repo None None None None None 50 0
    Sample.fresh.

(** The rows of a run that returned. *)
Definition rows_of (run : outcome (list dict) * world) : list dict :=
  match fst run with
  | Ret rows => rows
  | Raise _ => []
  end.

(** ** Drivers that fail, used to run [MySQLDb.execute] on failures *)

Module Faulty.


Definition lost : exn :=
  mk_exn OperationalError "Lost connection to MySQL server during query".



(** A [MySQLDb] right after a successful [connect()]. *)
Definition connected : world :=
  snd (connect (Server.mysql Sample.D) Sample.settings Sample.fresh).

End Faulty.

(** ** Further predicates on worlds and driver calls *)

(** [self._conn is not None and self._conn.is_connected()], as the driver
    would answer in world [w]. *)
Definition holds_live (drv : driver) (w : world) : bool :=
  match _conn (w_db w) with
  | Some c => drv_is_connected drv (w_log w) c
  | None => false
  end.

(** The liveness probe of world [w]: made only when a connection object
    is held. *)
Definition probe_events (w : world) : list event :=
  match _conn (w_db w) with
  | Some c => [EvIsConnected c]
  | None => []
  end.

(** The driver calls of one statement of kind [query_type]: it neither
    opens nor closes a connection; rows are fetched for reads only and a
    commit is made for the other kinds only. *)
Definition statement_call (query_type : QueryType) (ev : event) : Prop :=
  match ev with
  | EvConnect _ | EvConnClose _ => False
  | EvFetchall _ => is_read query_type = true
  | EvCommit _ => is_read query_type = false
  | _ => True
  end.

(** A driver call other than [commit()]. *)
Definition not_commit (ev : event) : Prop :=
  match ev with
  | EvCommit _ => False
  | _ => True
  end.

(** A driver call other than [mysql.connector.connect]. *)
Definition not_connect (ev : event) : Prop :=
  match ev with
  | EvConnect _ => False
  | _ => True
  end.

(** ** [search_clienti_options]: statement, repository and service

    The customer options of the drop-down: the statement of
    [QuerySqlQualityMYSQL.search_clienti_options_sql] evaluated on a
    database, [QualityRepositoryMYSQL.search_clienti_options] and
    [QualityService.search_clienti_options]. *)

Module Clienti.

Import Sql.

(** [SELECT a.CODICE AS codicecf,
            COALESCE(a.SUPRAGSOC, a.DESCRIZION) AS cliente_nome]. *)
Definition cliente_nome (a : dict) : value :=
  coalesce (Query.col a "SUPRAGSOC") (Query.col a "DESCRIZION").

Definition search_clienti_options_select (a : dict) : dict :=
  list_to_map [ ("codicecf", Query.col a "CODICE"); ("cliente_nome", cliente_nome a) ].

Definition search_clienti_options_where (ps : list value) (a : dict) : tv :=
  all3
    [ is_not_null (Query.col a "CODICE");
      neq (Query.col a "CODICE") (VStr "");
      any3
        [ is_null (Query.param ps 0);
          Query.like_param (Query.col a "DESCRIZION") (Query.param ps 1);
          Query.like_param (Query.col a "SUPRAGSOC") (Query.param ps 2);
          Query.like_param (Query.col a "CODICE") (Query.param ps 3) ] ].

(** [ORDER BY cliente_nome ASC, a.CODICE ASC]. *)
Definition search_clienti_options_order : list ((dict -> value) * bool) :=
  [ (cliente_nome, false); (fun a => Query.col a "CODICE", false) ].

Definition search_clienti_options_rows
    (D : database) (ps : list value) : outcome (list dict) :=
  match
    limit_offset (Query.param ps 4) (Query.param ps 5)
      (order_by search_clienti_options_order
         (List.filter (fun a => holds (search_clienti_options_where ps a))
            (anagrafe D)))
  with
  | Ret rows => Ret (map search_clienti_options_select rows)
  | Raise e => Raise e
  end.

(** The server of [Server], answering this statement as well. *)
Definition run_statement
    (D : database) (sql : string) (params : option (list value))
  : outcome (list dict) :=
  if String.eqb sql QuerySqlQualityMYSQL.search_clienti_options_sql then
    match Server.check_params sql params with
    | Raise e => Raise e
    | Ret _ => search_clienti_options_rows D (default [] params)
    end
  else Server.run_statement D sql params.

Definition mysql (D : database) : driver :=
  {| drv_connect := drv_connect (Server.mysql D);
     drv_is_connected := drv_is_connected (Server.mysql D);
     drv_cursor := drv_cursor (Server.mysql D);
     drv_execute :=
       fun h k sql params _ =>
         match run_statement D sql params with
         | Ret _ => Ret tt
         | Raise e => Raise e
         end;
     drv_fetchall :=
       fun h k =>
         match Server.last_execute h k with
         | Some (sql, params) => run_statement D sql params
         | None => Raise Server.no_result_set
         end;
     drv_commit := drv_commit (Server.mysql D);
     drv_rollback := drv_rollback (Server.mysql D);
     drv_cursor_close := drv_cursor_close (Server.mysql D) |}.

(** The [params] list of [QualityRepositoryMYSQL.search_clienti_options]. *)
Definition search_clienti_options_params
    (cliente_search : option string) (limit offset : Z) : list value :=
  let q := or_None (Py.strip (or_empty cliente_search)) in
  [ q; q; q; q; VInt limit; VInt offset ].

(** [QualityRepositoryMYSQL.search_clienti_options]. *)
Definition repo_search_clienti_options
    (drv : driver) (settings : Settings)
    (cliente_search : option string) (limit offset : Z) : M (list dict) :=
  QualityRepositoryMYSQL.fetch drv settings
    QuerySqlQualityMYSQL.search_clienti_options_sql
    (search_clienti_options_params cliente_search limit offset).

(** The option [QualityService.search_clienti_options] builds from a row. *)
Definition option_of (r : dict) : dict :=
  list_to_map
    [ ("codicecf", Py.get r "codicecf"); ("cliente_nome", Py.get r "cliente_nome") ].

(** [QualityService.search_clienti_options], over the repository method. *)
Definition search_clienti_options
    (repo : option string -> Z -> Z -> M (list dict))
    (cliente_search : option string) (limit offset : Z) : M (list dict) :=
  rows <- repo cliente_search limit offset ;;
  ret (fold_left (fun out r => out ++ [option_of r]) rows []).

End Clienti.

(** A customer that can be offered: its code is neither NULL nor empty. *)
Definition coded (a : dict) : bool :=
  (negb (bool_decide (Query.col a "CODICE" = VNone)) &&
   negb (bool_decide (Query.col a "CODICE" = VStr "")))%bool.

(** Ascending order of two options: by name, then by code. *)
Definition by_name_then_code (x y : dict) : Prop :=
  match Sql.value_cmp (Py.get x "cliente_nome") (Py.get y "cliente_nome") with
  | Lt => True
  | Eq => Sql.value_cmp (Py.get x "codicecf") (Py.get y "codicecf") <> Gt
  | Gt => False
  end.

(** The driver calls of a block that opens one connection, with the given
    target, before anything else, and never commits. *)
Definition one_connect (args : conn_args) (calls : list event) : Prop :=
  exists rest, calls = EvConnect args :: rest /\
               Forall not_connect rest /\ Forall not_commit rest.

(** A field passes an exact filter when no value is bound to the filter
    or the field equals the bound value. *)
Definition passes (bound field : value) : Prop := bound = VNone \/ field = bound.

(** Fields pass a text filter bound to plain text (no wildcard or escape
    character) when the text of one of them contains it. *)
Definition mentions (bound : value) (fields : list value) : Prop :=
  match bound with
  | VStr lit =>
      plain lit = true ->
      List.Exists
        (fun field => exists s, Sql.text field = Some s /\ Py.contains s lit = true)
        fields
  | _ => True
  end.

(** The type of a mapping of the output is one of the recognized ones. *)
Definition of_recognized_type (m : dict) : Prop :=
  exists t, Py.get m "tipodoc" = VStr t /\ In t QuerySqlQualityMYSQL.TIPI_DOC_LAVORO.

(** A header or item that satisfies the exact filters of a search, as the
    repository binds them. *)
Definition matches_filters
    (tipodoc : option string) (year : option Z) (codicecf : option string)
    (m : dict) : Prop :=
  of_recognized_type m /\
  passes (or_None (Py.upper (Py.strip (or_empty tipodoc)))) (Py.get m "tipodoc") /\
  passes (int_or_None year) (Py.get m "esanno") /\
  passes (or_None (Py.strip (or_empty codicecf))) (Py.get m "codicecf").

(** The order of the document lists: latest date first, then highest
    number first; within a document, lines in ascending order. *)
Definition latest_first : list ((dict -> value) * bool) :=
  [ (fun m => Py.get m "datadoc", true); (fun m => Py.get m "numerodoc", true) ].

Definition latest_first_by_line : list ((dict -> value) * bool) :=
  [ (fun m => Py.get m "datadoc", true);
    (fun m => Py.get m "numerodoc", true);
    (fun m => Py.get m "numeroriga", false) ].

(** The order of the lines of a document: ascending line number. *)
Definition by_line : list ((dict -> value) * bool) :=
  [ (fun m => Py.get m "numeroriga", false) ].

(** ** [app/quality/router]: the request handlers

    A handler runs in the world of the [MySQLDb] that its one repository
    call creates.  It gives FastAPI a response, raises an
    [HTTPException], or lets through an exception that no [except]
    clause catches.  The [request] and [user] entries of a template
    context are handed on untouched and are left out, as is the text the
    API handlers print to the standard output.  [int] is the built-in
    conversion of a string, a parameter of the handlers. *)

(** What a response carries: [{"items": rows}]; the detail [data]; the
    context of a list template ([items], [filters]); the context of the
    detail template ([header], [lines]). *)
Inductive content : Type :=
| Items (rows : list dict)
| Document (data : scheda)
| ListPage (template : string) (items : list dict) (filters : list (string * value))
| DetailPage (template : string) (header : option dict) (lines : list dict).

Inductive reply : Type :=
| Respond (status_code : Z) (body : content)
| HTTPException (status_code : Z) (detail : string)
| Uncaught (e : exn).

Definition handler : Type := world -> reply * world.

(** [except Exception as e:
       raise HTTPException(status_code=500, detail=f"<prefix>{e}")]. *)
Definition internal_error (prefix : string) (e : exn) : reply :=
  if is_Exception e then HTTPException 500 (prefix +:+ exn_msg e) else Uncaught e.

Definition not_found : reply := HTTPException 404 "Document qualità non trovato".

Definition year_not_integer : reply :=
  HTTPException 400 "Parametro 'year' deve essere un intero (es. 2025).".

(** [not data or not data.get("header")]: [data] has two keys, so it is
    the header that decides; [None] and the empty mapping are false. *)
Definition no_header (data : scheda) : bool :=
  match header data with
  | None => true
  | Some h => bool_decide (h = ∅)
  end.

(** [x.strip() if x else None]. *)
Definition strip_if (o : option string) : option string :=
  match o with
  | Some s => if Py.truthy (VStr s) then Some (Py.strip s) else None
  | None => None
  end.

(** [x.strip().upper() if x else None]. *)
Definition strip_upper_if (o : option string) : option string :=
  match o with
  | Some s => if Py.truthy (VStr s) then Some (Py.upper (Py.strip s)) else None
  | None => None
  end.

(** The truth value of [x and x.strip()]. *)
Definition and_strip (o : option string) : bool :=
  match o with
  | Some s => if Py.truthy (VStr s) then Py.truthy (VStr (Py.strip s)) else false
  | None => false
  end.

(** [tuple(tipi_doc) if tipi_doc else None]. *)
Definition tuple_if (tipi_doc : option (list string)) : option (list string) :=
  match tipi_doc with
  | Some (x :: l) => Some (x :: l)
  | _ => None
  end.

Module ApiRouter.

Section Handlers.

Variable int : string -> outcome Z.
Variable _repo : QualityRepository.
Variable search_clienti_options : option string -> Z -> Z -> M (list dict).

(** [JSONResponse(status_code=..., content=...)] encodes its content
    when it is built, and raises when a value of the content has no
    JSON encoding (a date, a timestamp or a decimal total of a row).
    The encoder belongs to the framework: [json_dumps body] is the
    exception it raises on [body], if any. *)
Variable json_dumps : content -> option exn.

Definition JSONResponse (status_code : Z) (body : content) : outcome reply :=
  match json_dumps body with
  | None => Ret (Respond status_code body)
  | Some e => Raise e
  end.

(** [api_list_documents]; the service is called with its default
    [limit=50] and [offset=0].  The response is built inside the [try]
    block, so a failure of the encoder ends in the handler's 500 too. *)
Definition api_list_documents
    (year : option Z) (codicecf cliente_search text_search : option string)
    (tipi_doc : option (list string)) : handler :=
  fun w =>
    match
      QualityService.list_schede_lavoro _repo year codicecf cliente_search
        text_search (tuple_if tipi_doc) 50 0 w
    with
    | (Ret rows, w') =>
        match JSONResponse 200 (Items rows) with
        | Ret response => (response, w')
        | Raise e => (internal_error "Errore nel caricamento documents: " e, w')
        end
    | (Raise e, w') => (internal_error "Errore nel caricamento documents: " e, w')
    end.

(** [api_get_document]; the [HTTPException] raised in the [try] block
    is re-raised by [except HTTPException: raise].  The response is
    built inside the [try] block after the 404 test, so a failure of
    the encoder ends in the handler's 500. *)
Definition api_get_document (tipodoc esanno numerodoc : string) : handler :=
  fun w =>
    match int esanno with
    | Raise e => (internal_error "Errore nel caricamento document qualità: " e, w)
    | Ret y =>
        match
          QualityService.get_scheda_lavoro _repo (Some tipodoc) y (Some numerodoc) w
        with
        | (Ret data, w') =>
            if no_header data then (not_found, w')
            else
              match JSONResponse 200 (Document data) with
              | Ret response => (response, w')
              | Raise e =>
                  (internal_error "Errore nel caricamento document qualità: " e, w')
              end
        | (Raise e, w') =>
            (internal_error "Errore nel caricamento document qualità: " e, w')
        end
    end.

(** [api_list_customers]; the content holds the two text fields of each
    option, built by the service, which the encoder always accepts. *)
Definition api_list_customers (search : option string) (limit offset : option Z)
  : handler :=
  fun w =>
    match
      Clienti.search_clienti_options search_clienti_options search
        (opt_int_or limit 200) (opt_int_or offset 0) w
    with
    | (Ret rows, w') => (Respond 200 (Items rows), w')
    | (Raise e, w') => (internal_error "Errore nel caricamento clienti: " e, w')
    end.

End Handlers.

End ApiRouter.

Module ViewRouter.

Section Handlers.

Variable int : string -> outcome Z.
Variable _repo : QualityRepository.

(** The normalisation of [year]: [inr] is [year_int], [inl] what the
    handler raises instead. *)
Definition year_int (year : option string) : reply + option Z :=
  match year with
  | None => inr None
  | Some y =>
      if String.eqb (Py.strip y) "" then inr None
      else
        match int y with
        | Ret z => inr (Some z)
        | Raise e =>
            match exn_cls e with
            | ValueError => inl year_not_integer
            | _ => inl (Uncaught e)
            end
        end
  end.

(** [view_quality_documents]. *)
Definition view_quality_documents
    (tipodoc numerodoc year codicecf fornitore_search articolo_search : option string)
  : handler :=
  fun w =>
    match year_int year with
    | inl r => (r, w)
    | inr y =>
        match
          QualityService.search_schede_lavoro _repo
            (strip_upper_if tipodoc) (strip_if numerodoc) y (strip_if codicecf)
            (strip_if fornitore_search) (strip_if articolo_search) 50 0 w
        with
        | (Ret rows, w') =>
            (Respond 200
               (ListPage "quality/documenti_list.html" rows
                  [ ("tipodoc", Py.of_opt tipodoc);
                    ("numerodoc", Py.of_opt numerodoc);
                    ("year", Py.of_opt year);
                    ("codicecf", Py.of_opt codicecf);
                    ("fornitore_search", Py.of_opt fornitore_search);
                    ("articolo_search", Py.of_opt articolo_search) ]),
             w')
        | (Raise e, w') =>
            (internal_error "Errore nel caricamento documents qualità: " e, w')
        end
    end.

(** [view_quality_document_detail]. *)
Definition view_quality_document_detail (tipodoc esanno numerodoc : string)
  : handler :=
  fun w =>
    match int esanno with
    | Raise e => (internal_error "Errore nel caricamento document qualità: " e, w)
    | Ret y =>
        match
          QualityService.get_scheda_lavoro _repo (Some tipodoc) y (Some numerodoc) w
        with
        | (Ret data, w') =>
            if no_header data then (not_found, w')
            else
              (Respond 200
                 (DetailPage "quality/documenti_detail.html" (header data)
                    (righe data)),
               w')
        | (Raise e, w') =>
            (internal_error "Errore nel caricamento document qualità: " e, w')
        end
    end.

(** The [try] block of [view_quality_articoli_cliente]. *)
Definition articoli_cliente_rows
    (tipodoc : option string) (year_int : option Z)
    (codicecf cliente_search articolo_search : option string)
    (offset limit : option Z) : M (list dict) :=
  if negb
       (and_strip tipodoc
        || match year_int with Some _ => true | None => false end
        || and_strip codicecf
        || and_strip cliente_search
        || and_strip articolo_search)
  then ret []
  else
    let eff_limit := if and_strip codicecf then 100000 else opt_int_or limit 50 in
    let eff_offset := if and_strip codicecf then 0 else opt_int_or offset 0 in
    QualityService.search_articoli_per_cliente _repo
      (strip_upper_if tipodoc) year_int (strip_if codicecf)
      (strip_if cliente_search) (strip_if articolo_search) eff_limit eff_offset.

(** [view_quality_articoli_cliente]. *)
Definition view_quality_articoli_cliente
    (tipodoc year codicecf cliente_search articolo_search : option string)
    (offset limit : option Z) : handler :=
  fun w =>
    match year_int year with
    | inl r => (r, w)
    | inr y =>
        match
          articoli_cliente_rows tipodoc y codicecf cliente_search articolo_search
            offset limit w
        with
        | (Ret rows, w') =>
            (Respond 200
               (ListPage "quality/articoli_per_cliente.html" rows
                  [ ("tipodoc", Py.of_opt tipodoc);
                    ("year", Py.of_opt year);
                    ("codicecf", Py.of_opt codicecf);
                    ("cliente_search", Py.of_opt cliente_search);
                    ("articolo_search", Py.of_opt articolo_search);
                    ("limit", int_or_None limit);
                    ("offset", int_or_None offset) ]),
             w')
        | (Raise e, w') =>
            (internal_error "Errore nel caricamento articoli per cliente: " e, w')
        end
    end.

End Handlers.

End ViewRouter.

(** ** [app/main.py]: the handler of [HTTPException] *)

Inductive http_response : Type :=
| RedirectResponse (url : string)
| PlainTextResponse (text : string) (status_code : Z).

(** [custom_http_exception_handler]. *)
Definition custom_http_exception_handler (status_code : Z) (detail : string)
  : http_response :=
  if status_code =? 401 then RedirectResponse "/login"
  else if status_code =? 403 then RedirectResponse "/"
  else PlainTextResponse detail status_code.

(** An argument that holds no text: absent, empty or blank. *)
Definition blank (o : option string) : Prop :=
  match o with
  | None => True
  | Some s => Py.strip s = ""
  end.

(** A reply that, when it is an [HTTPException], has one of the statuses
    400, 404 and 500 and is answered by the application with its detail
    as plain text and the same status. *)
Definition plain_text_error (r : reply) : Prop :=
  match r with
  | HTTPException status_code detail =>
      In status_code [400; 404; 500] /\
      custom_http_exception_handler status_code detail
      = PlainTextResponse detail status_code
  | _ => True
  end.

(** ** [app/auth]: the lookup of the user who logs in *)

Module SqlUserAuth.

(** [SqlUserAuth.get_user_info_auth()]. *)
Definition get_user_info_auth : string :=
  "
            SELECT
                o.id                  AS employee_id,
                o.email               AS email,
                o.first_name          AS first_name,
                o.last_name           AS last_name,
                NULL                  AS hire_date,
                NULL                  AS end_date,
                o.user_password       AS user_password,
                COALESCE(o.role,'HR') AS role
            FROM operators o
            WHERE o.email = %s
            LIMIT 1
        ".

End SqlUserAuth.

Module PersonRepository.

Section Methods.

Variable drv : driver.
Variable settings : Settings.

(** [app.auth.Person] is defined outside the files at hand: [Person] is
    the construction of a person from the keys of a row, which may
    raise. *)
Variable person : Type.
Variable Person : dict -> outcome person.

(** [PersonRepository.get_user_info_auth]; the world's [MySQLDb] is the
    [MySQLDb()] that [self.db] wraps. *)
Definition get_user_info_auth (username : string) : M (option person) :=
  r <- with_DbManager drv settings
         (execute_query drv SqlUserAuth.get_user_info_auth (Some [VStr username])
            true GET) ;;
  match r with
  | Some (row :: _) =>
      fun w =>
        (match Person row with
         | Ret p => Ret (Some p)
         | Raise e => Raise e
         end, w)
  | Some [] => ret None
  | None => raise (mk_exn UnboundLocalError "cannot access local variable 'result'")
  end.

End Methods.

End PersonRepository.

(** * Properties *)

(** ** Strings *)

Lemma prefix2_split (a b : ascii) (key : string) :
  String.prefix (String a (String b "")) key = true ->
  key = String a (String b (Py.slice_from 2 key)).
Proof.
  destruct key as [|x [|y r]]; simpl; try discriminate.
  - destruct (Ascii.ascii_dec a x); discriminate.
  - destruct (Ascii.ascii_dec a x) as [->|]; [|discriminate].
    destruct (Ascii.ascii_dec b y) as [->|]; [|discriminate].
    reflexivity.
Qed.

Lemma prefix2_append (a b : ascii) (k : string) :
  String.prefix (String a (String b "")) (String a (String b k)) = true.
Proof.
  simpl. destruct (Ascii.ascii_dec a a); [|congruence].
  destruct (Ascii.ascii_dec b b); [|congruence]. destruct k; reflexivity.
Qed.

(** ** The code on concrete inputs *)

Example strip_upper_oc : Py.upper (Py.strip "  oc ") = "OC".
Proof. reflexivity. Qed.

Example blank_filter_is_NULL : or_None (Py.strip (or_empty (Some "   "))) = VNone.
Proof. reflexivity. Qed.

Example like_wildcards :
  Sql.like (VStr "busta 20x30") (Sql.concat [VStr "%%"; VStr "20x"; VStr "%%"])
  = Some true /\
  Sql.like (VStr "busta") (Sql.concat [VStr "%%"; VNone; VStr "%%"]) = None.
Proof. split; reflexivity. Qed.

(** Without filters the line search returns the two product lines of the
    sample database, latest document first; the line without item code,
    the CONAI surcharge and the pallet are left out. *)
Example sample_search_articoli_per_cliente :
  match fst articoli_run with
  | Ret rows =>
      map (fun row => (Py.get row "d_numerodoc", Py.get row "r_codicearti")) rows
  | Raise _ => []
  end
  = [ (VStr "B-7", VStr "ART1"); (VStr "A-1", VStr "ART1") ].
Proof.
  vm_cast_no_check
    (@eq_refl (list (value * value))
       [ (VStr "B-7", VStr "ART1"); (VStr "A-1", VStr "ART1") ]).
Qed.

(** The driver calls of one repository call on a new [MySQLDb]. *)
Example sample_detail_calls :
  map (fun ev =>
         match ev with
         | EvConnect _ => "connect"
         | EvIsConnected _ => "is_connected"
         | EvConnClose _ => "close"
         | EvCursor _ => "cursor"
         | EvExecute _ _ _ _ => "execute"
         | EvFetchall _ => "fetchall"
         | EvCommit _ => "commit"
         | EvRollback _ => "rollback"
         | EvCursorClose _ => "cursor.close"
         end)
    (w_log (snd detail_run))
  = [ "connect"; "is_connected"; "cursor"; "execute"; "fetchall"; "cursor.close";
      "is_connected"; "close" ].
Proof.
  vm_cast_no_check
    (@eq_refl (list string)
       [ "connect"; "is_connected"; "cursor"; "execute"; "fetchall"; "cursor.close";
         "is_connected"; "close" ]).
Qed.

(** ** The projections of [QualityService] *)

Section Projection.

Import QualityService.

(** A key [k] of the projection reads the field [prefix ++ k] of the row. *)
Lemma extract_lookup (a b : ascii) (row : dict) (k : string) :
  extract (String a (String b "")) row !! k = row !! String a (String b k).
Proof.
  unfold extract.
  apply (map_fold_weak_ind
           (fun (out : dict) (m : dict) => out !! k = m !! String a (String b k))).
  - rewrite !lookup_empty. reflexivity.
  - intros key v m out Hfresh IH.
    unfold Py.startswith.
    destruct (String.prefix (String a (String b "")) key) eqn:Hp.
    + apply prefix2_split in Hp.
      destruct (decide (Py.slice_from 2 key = k)) as [Hk|Hk].
      * rewrite Hk in *. rewrite <- Hp. rewrite !lookup_insert_eq. reflexivity.
      * rewrite lookup_insert_ne by exact Hk.
        rewrite lookup_insert_ne; [exact IH|].
        intros Heq. apply Hk. rewrite Heq. reflexivity.
    + rewrite lookup_insert_ne; [exact IH|].
      intros Heq. rewrite Heq in Hp. rewrite prefix2_append in Hp. discriminate.
Qed.

Lemma _extract_header_lookup (row : dict) (k : string) :
  _extract_header row !! k = row !! ("d_" +:+ k).
Proof. apply (extract_lookup "d" "_"). Qed.

Lemma _extract_row_lookup (row : dict) (k : string) :
  _extract_row row !! k = row !! ("r_" +:+ k).
Proof. apply (extract_lookup "r" "_"). Qed.

Lemma headers_of_acc (rows acc : list dict) :
  fold_left
    (fun out row =>
       let header := _extract_header row in
       let tip := tip_of header in
       if skipped tip then out else out ++ [header])
    rows acc
  = acc ++ map _extract_header (List.filter kept rows).
Proof.
  revert acc. induction rows as [|row rows IH]; intros acc; simpl.
  - rewrite app_nil_r. reflexivity.
  - rewrite IH. unfold kept at 2.
    destruct (skipped (tip_of (_extract_header row))); simpl.
    + reflexivity.
    + rewrite <- app_assoc. reflexivity.
Qed.

Lemma headers_of_filter (rows : list dict) :
  headers_of rows = map _extract_header (List.filter kept rows).
Proof. unfold headers_of. rewrite headers_of_acc. reflexivity. Qed.

Lemma items_of_acc (rows acc : list dict) :
  fold_left
    (fun out row =>
       let header := _extract_header row in
       let tip := tip_of header in
       if skipped tip then out
       else out ++ [item_of header (_extract_row row)])
    rows acc
  = acc ++ map (fun row => item_of (_extract_header row) (_extract_row row))
             (List.filter kept rows).
Proof.
  revert acc. induction rows as [|row rows IH]; intros acc; simpl.
  - rewrite app_nil_r. reflexivity.
  - rewrite IH. unfold kept at 2.
    destruct (skipped (tip_of (_extract_header row))); simpl.
    + reflexivity.
    + rewrite <- app_assoc. reflexivity.
Qed.

Lemma items_of_filter (rows : list dict) :
  items_of rows
  = map (fun row => item_of (_extract_header row) (_extract_row row))
      (List.filter kept rows).
Proof. unfold items_of. rewrite items_of_acc. reflexivity. Qed.

End Projection.

(** ** The header-search template and its parameter list *)


Lemma search_schede_lavoro_sql_slots :
  count_placeholders QuerySqlQualityMYSQL.search_schede_lavoro_sql = 19%nat.
Proof. vm_compute. reflexivity. Qed.

Lemma search_articoli_per_cliente_sql_slots :
  count_placeholders QuerySqlQualityMYSQL.search_articoli_per_cliente_sql = 17%nat.
Proof. vm_compute. reflexivity. Qed.

Lemma get_scheda_lavoro_sql_slots :
  count_placeholders QuerySqlQualityMYSQL.get_scheda_lavoro_sql = 3%nat.
Proof. vm_compute. reflexivity. Qed.

(** ** The driver calls a computation makes *)

Section Logs.

Context {P : event -> Prop}.

Lemma logs_only_ret {A} (a : A) : logs_only P (ret a).
Proof. intros w. exists []. rewrite app_nil_r. split; [reflexivity|constructor]. Qed.

Lemma logs_only_raise {A} (e : exn) : logs_only P (@raise A e).
Proof. intros w. exists []. rewrite app_nil_r. split; [reflexivity|constructor]. Qed.

Lemma logs_only_bind {A B} (m : M A) (f : A -> M B) :
  logs_only P m -> (forall a, logs_only P (f a)) -> logs_only P (bind m f).
Proof.
  intros Hm Hf w. unfold bind.
  destruct (Hm w) as (evs1 & E1 & F1).
  destruct (m w) as [[a|e] w1]; simpl in *.
  - destruct (Hf a w1) as (evs2 & E2 & F2).
    exists (evs1 ++ evs2). rewrite E2, E1, app_assoc.
    split; [reflexivity|]. apply Forall_app; split; assumption.
  - exists evs1. split; assumption.
Qed.

Lemma logs_only_try_except {A} (body : M A) (handler : exn -> M A) :
  logs_only P body -> (forall e, logs_only P (handler e)) ->
  logs_only P (try_except_Exception body handler).
Proof.
  intros Hb Hh w. unfold try_except_Exception.
  destruct (Hb w) as (evs1 & E1 & F1).
  destruct (body w) as [[a|e] w1]; simpl in *.
  - exists evs1. split; assumption.
  - destruct (is_Exception e).
    + destruct (Hh e w1) as (evs2 & E2 & F2).
      exists (evs1 ++ evs2). rewrite E2, E1, app_assoc.
      split; [reflexivity|]. apply Forall_app; split; assumption.
    + exists evs1. split; assumption.
Qed.

Lemma logs_only_try_finally {A} (body : M A) (fin : M unit) :
  logs_only P body -> logs_only P fin -> logs_only P (try_finally body fin).
Proof.
  intros Hb Hf w. unfold try_finally.
  destruct (Hb w) as (evs1 & E1 & F1).
  destruct (body w) as [o w1]; simpl in *.
  destruct (Hf w1) as (evs2 & E2 & F2).
  exists (evs1 ++ evs2).
  destruct (fin w1) as [[u|e] w2]; simpl in *;
    (rewrite E2, E1, app_assoc; split; [reflexivity|];
     apply Forall_app; split; assumption).
Qed.

Lemma logs_only_with_stmt {X A}
    (enter : M X) (exit_ : option exn -> M bool) (body : X -> M A) :
  logs_only P enter -> (forall o, logs_only P (exit_ o)) ->
  (forall x, logs_only P (body x)) ->
  logs_only P (with_stmt enter exit_ body).
Proof.
  intros He Hx Hb. unfold with_stmt. apply logs_only_bind; [exact He|].
  intros x w.
  destruct (Hb x w) as (evs1 & E1 & F1).
  destruct (body x w) as [[a|e] w1]; simpl in *.
  - destruct (Hx None w1) as (evs2 & E2 & F2).
    exists (evs1 ++ evs2).
    destruct (exit_ None w1) as [[u|e] w2]; simpl in *;
      (rewrite E2, E1, app_assoc; split; [reflexivity|];
       apply Forall_app; split; assumption).
  - destruct (Hx (Some e) w1) as (evs2 & E2 & F2).
    exists (evs1 ++ evs2).
    destruct (exit_ (Some e) w1) as [[[|]|e'] w2]; simpl in *;
      (rewrite E2, E1, app_assoc; split; [reflexivity|];
       apply Forall_app; split; assumption).
Qed.

Lemma logs_only_get_conn : logs_only P get_conn.
Proof. intros w. exists []. rewrite app_nil_r. split; [reflexivity|constructor]. Qed.

Lemma logs_only_get_db_name : logs_only P get_db_name.
Proof. intros w. exists []. rewrite app_nil_r. split; [reflexivity|constructor]. Qed.

Lemma logs_only_set_conn (c : option conn) : logs_only P (set_conn c).
Proof. intros w. exists []. simpl. rewrite app_nil_r. split; [reflexivity|constructor]. Qed.

End Logs.

(** ** [MySQLDb] and [DbManager]: which driver calls they make *)

Section DbLogs.

Variable drv : driver.
Variable settings : Settings.
Variables (sql : string) (params : option (list value)) (multi : bool).

Local Abbreviation P := (executes sql params multi).

Local Ltac call :=
  let w := fresh "w" in
  intros w; eexists [_]; split; [reflexivity|repeat constructor].

Lemma logs_only_conn_is_live : logs_only P (conn_is_live drv).
Proof.
  unfold conn_is_live. apply logs_only_bind; [apply logs_only_get_conn|].
  intros [c|]; [|apply logs_only_ret].
  unfold conn_is_connected. call.
Qed.

Lemma logs_only_connect : logs_only P (connect drv settings).
Proof.
  unfold connect. apply logs_only_bind; [apply logs_only_conn_is_live|].
  intros [|]; [apply logs_only_ret|].
  apply logs_only_bind; [apply logs_only_get_db_name|]. intros n.
  apply logs_only_bind; [unfold mysql_connector_connect; call|].
  intros c. apply logs_only_set_conn.
Qed.

Lemma logs_only_close : logs_only P (close drv).
Proof.
  unfold close. apply logs_only_bind; [apply logs_only_get_conn|].
  intros c. apply logs_only_bind; [|intros _; apply logs_only_set_conn].
  destruct c as [c|]; [|apply logs_only_ret].
  apply logs_only_bind; [unfold conn_is_connected; call|].
  intros [|]; [unfold conn_close; call|apply logs_only_ret].
Qed.

Lemma logs_only_with_DbManager {A} (body : M A) :
  logs_only P body -> logs_only P (with_DbManager drv settings body).
Proof.
  intros Hb. unfold with_DbManager. apply logs_only_with_stmt.
  - apply logs_only_connect.
  - intros o. unfold DbManager_exit.
    apply logs_only_bind; [apply logs_only_close|]. intros _. apply logs_only_ret.
  - intros _. exact Hb.
Qed.

End DbLogs.

Section ExecuteLogs.

Variable drv : driver.
Variables (query_type : QueryType) (sql : string) (params : option (list value)).

Local Abbreviation P := (executes sql (params_or_None params) (is_script query_type)).

Local Ltac call :=
  let w := fresh "w" in
  intros w; eexists [_]; split; [reflexivity|repeat constructor].

Lemma logs_only_execute_body (c : conn) (k : cursor) :
  logs_only P (execute_body drv c k query_type sql params).
Proof.
  unfold execute_body. destruct (is_script query_type) eqn:Hs.
  - apply logs_only_bind.
    { unfold cursor_execute. call. }
    intros _. apply logs_only_bind; [unfold conn_commit; call|].
    intros _. apply logs_only_ret.
  - apply logs_only_bind.
    { unfold cursor_execute. call. }
    intros _. destruct (is_read query_type).
    + apply logs_only_bind; [unfold cursor_fetchall; call|].
      intros rows. apply logs_only_ret.
    + apply logs_only_bind; [unfold conn_commit; call|].
      intros _. apply logs_only_ret.
Qed.

Lemma logs_only_execute : logs_only P (execute drv query_type sql params).
Proof.
  unfold execute. apply logs_only_bind; [apply logs_only_get_conn|].
  intros [c|]; [|apply logs_only_raise].
  apply logs_only_bind; [unfold conn_is_connected; call|].
  intros [|]; simpl; [|apply logs_only_raise].
  apply logs_only_bind; [unfold conn_cursor; call|]. intros k.
  apply logs_only_try_finally; [|unfold cursor_close; call].
  apply logs_only_try_except; [apply logs_only_execute_body|].
  intros e. apply logs_only_bind; [unfold conn_rollback; call|].
  intros _. apply logs_only_raise.
Qed.

Lemma logs_only_execute_query (fetchall : bool) :
  logs_only P (execute_query drv sql params fetchall query_type).
Proof.
  unfold execute_query. destruct (is_read query_type).
  - apply logs_only_bind; [apply logs_only_execute|].
    intros rows. destruct fetchall, rows; apply logs_only_ret.
  - apply logs_only_bind; [apply logs_only_execute|].
    intros _. apply logs_only_ret.
Qed.

End ExecuteLogs.

(** Every repository call hands its statement and its parameter list,
    unchanged, to [cursor.execute]. *)
Lemma logs_only_fetch (drv : driver) (settings : Settings)
    (sql : string) (params : list value) :
  logs_only (executes sql (params_or_None (Some params)) false)
    (QualityRepositoryMYSQL.fetch drv settings sql params).
Proof.
  unfold QualityRepositoryMYSQL.fetch. apply logs_only_bind.
  - apply logs_only_with_DbManager.
    apply (logs_only_execute_query drv GET sql (Some params) true).
  - intros [rows|]; [apply logs_only_ret|apply logs_only_raise].
Qed.

(** Every repository call reaches the driver: at least one call is made. *)
Lemma connect_calls_driver (drv : driver) (settings : Settings) (w : world) :
  exists ev evs, w_log (snd (connect drv settings w)) = w_log w ++ ev :: evs.
Proof.
  unfold connect, conn_is_live, bind, get_conn, conn_is_connected,
    get_db_name, mysql_connector_connect, set_conn, ret.
  destruct (_conn (w_db w)) as [c|]; simpl.
  - destruct (drv_is_connected drv (w_log w) c); simpl.
    + eexists _, []. reflexivity.
    + destruct (drv_connect drv _ _); simpl;
        eexists _, [_]; rewrite <- app_assoc; reflexivity.
  - destruct (drv_connect drv _ _); simpl; eexists _, []; reflexivity.
Qed.

Lemma calls_driver_bind {P : event -> Prop} {A B} (m : M A) (f : A -> M B) :
  calls_driver m -> (forall a, logs_only P (f a)) -> calls_driver (bind m f).
Proof.
  intros Hm Hf w. unfold bind.
  destruct (Hm w) as (ev & evs & E).
  destruct (m w) as [[a|e] w1]; simpl in *.
  - destruct (Hf a w1) as (evs2 & E2 & _).
    exists ev, (evs ++ evs2). rewrite E2, E, <- app_assoc. reflexivity.
  - exists ev, evs. exact E.
Qed.

Lemma fetch_calls_driver (drv : driver) (settings : Settings)
    (sql : string) (params : list value) :
  calls_driver (QualityRepositoryMYSQL.fetch drv settings sql params).
Proof.
  unfold QualityRepositoryMYSQL.fetch.
  apply (calls_driver_bind (P := executes sql (params_or_None (Some params)) false)).
  - unfold with_DbManager.
    change (calls_driver
              (bind (DbManager_enter drv settings)
                 (fun x => with_stmt (ret x) (DbManager_exit drv)
                             (fun _ => execute_query drv sql (Some params) true GET)))).
    apply (calls_driver_bind (P := executes sql (params_or_None (Some params)) false)).
    + intros w. apply connect_calls_driver.
    + intros x. apply logs_only_with_stmt.
      * apply logs_only_ret.
      * intros o. unfold DbManager_exit.
        apply logs_only_bind; [apply logs_only_close|]. intros _. apply logs_only_ret.
      * intros _. apply (logs_only_execute_query drv GET sql (Some params) true).
  - intros [rows|]; [apply logs_only_ret|apply logs_only_raise].
Qed.

(** [MySQLDb.close] returns, drops the connection, and makes exactly the
    driver calls [close_events]. *)
Lemma close_spec (drv : driver) (w : world) :
  close drv w
  = (Ret tt,
     {| w_db := {| _db_name := _db_name (w_db w); _conn := None |};
        w_log := w_log w ++ close_events drv w |}).
Proof.
  unfold close, close_events, bind, get_conn, conn_is_connected, conn_close,
    set_conn, ret, log_event.
  destruct (_conn (w_db w)) as [c|]; simpl.
  - destruct (drv_is_connected drv (w_log w) c); simpl;
      rewrite <- ?app_assoc; reflexivity.
  - rewrite app_nil_r. reflexivity.
Qed.

(** ** [MySQLDb.execute] *)

(** C8. On a [MySQLDb] whose connection is absent or not live, [execute]
    fails with the not-connected [RuntimeError] for every operation kind,
    statement and parameter list; the instance is left as it was and the
    only driver call, if any, is the liveness probe: no cursor is opened
    and nothing is executed, committed or rolled back. *)
Theorem execute_requires_live_connection
    (drv : driver) (query_type : QueryType) (sql : string)
    (params : option (list value)) (w : world) :
  (_conn (w_db w) = None \/
   exists c, _conn (w_db w) = Some c /\ drv_is_connected drv (w_log w) c = false) ->
  let result := execute drv query_type sql params w in
  fst result = Raise not_connected_error /\
  exn_cls not_connected_error = RuntimeError /\
  w_db (snd result) = w_db w /\
  exists probes, w_log (snd result) = w_log w ++ probes /\ Forall is_probe probes.
Proof.
  intros H. cbv zeta.
  unfold execute, bind, get_conn, conn_is_connected, raise.
  destruct H as [Hnone|(c & Hc & Hdead)].
  - rewrite Hnone. simpl. repeat split.
    exists []. rewrite app_nil_r. split; [reflexivity|constructor].
  - rewrite Hc. simpl. rewrite Hdead. simpl. repeat split.
    exists [EvIsConnected c]. split; [reflexivity|].
    constructor; [exact I|constructor].
Qed.

Lemma execute_requires_live_connection_witness :
  let result := execute (Server.mysql Sample.D) GET "SELECT 1" None Sample.fresh in
  fst result = Raise not_connected_error /\
  exn_cls not_connected_error = RuntimeError /\
  w_db (snd result) = w_db Sample.fresh /\
  exists probes,
    w_log (snd result) = w_log Sample.fresh ++ probes /\ Forall is_probe probes.
Proof.
  apply (execute_requires_live_connection
           (Server.mysql Sample.D) GET "SELECT 1" None Sample.fresh).
  left. reflexivity.
Defined.




(** ** [DbManager] *)

(** C9. [with DbManager(db) as db: body] first runs [connect()]; when that
    returns, [body] runs and then [close()] runs, whatever the outcome of
    [body] (a value, which covers completion and early return, or an
    exception); the outcome of [body] is the outcome of the statement, so
    an exception is not suppressed.  [close()] always returns, leaves the
    instance without a connection, and makes no driver call when there is
    no connection. *)
Theorem DbManager_scopes_the_connection
    (drv : driver) (settings : Settings) {A : Type} (body : M A) (w : world) :
  (let entered := connect drv settings w in
   match fst entered with
   | Raise e => with_DbManager drv settings body w = (Raise e, snd entered)
   | Ret _ =>
       let ran := body (snd entered) in
       let closed := close drv (snd ran) in
       snd (with_DbManager drv settings body w) = snd closed /\
       fst (with_DbManager drv settings body w)
       = match fst ran with
         | Ret a => Ret (Some a)
         | Raise e => Raise e
         end
   end) /\
  (let closed := close drv w in
   fst closed = Ret tt /\
   _conn (w_db (snd closed)) = None /\
   _db_name (w_db (snd closed)) = _db_name (w_db w) /\
   w_log (snd closed) = w_log w ++ close_events drv w /\
   match _conn (w_db w) with
   | None => w_log (snd closed) = w_log w
   | Some c =>
       In (EvConnClose c) (close_events drv w)
       <-> drv_is_connected drv (w_log w) c = true
   end).
Proof.
  split.
  - cbv zeta. unfold with_DbManager, with_stmt, DbManager_enter, DbManager_exit, bind.
    destruct (connect drv settings w) as [[[]|e] w1]; simpl; [|reflexivity].
    destruct (body w1) as [[a|e] w2]; simpl;
      rewrite close_spec; simpl; split; reflexivity.
  - cbv zeta. rewrite close_spec. simpl. repeat split.
    unfold close_events. destruct (_conn (w_db w)) as [c|].
    + destruct (drv_is_connected drv (w_log w) c); simpl; split.
      * reflexivity.
      * intros _. right. left. reflexivity.
      * intros [H|[]]. discriminate H.
      * discriminate.
    + rewrite app_nil_r. reflexivity.
Qed.

(** ** [QualityRepositoryMYSQL]: validation *)

Lemma truthy_of_opt (o : option string) :
  Py.truthy (Py.of_opt o) = false <-> missing o.
Proof.
  unfold missing. destruct o as [s|]; simpl.
  - destruct s; simpl; split; intros H.
    + right. reflexivity.
    + reflexivity.
    + discriminate H.
    + destruct H as [H|H]; discriminate H.
  - split; [intros _; left; reflexivity|reflexivity].
Qed.

(** ** Optional filters: three-valued guards against their reading *)

Lemma holds_and3 (a b : Sql.tv) :
  Sql.holds (Sql.and3 a b) = Sql.holds a && Sql.holds b.
Proof. destruct a as [[|]|], b as [[|]|]; reflexivity. Qed.

Lemma holds_or3 (a b : Sql.tv) :
  Sql.holds (Sql.or3 a b) = Sql.holds a || Sql.holds b.
Proof. destruct a as [[|]|], b as [[|]|]; reflexivity. Qed.

Lemma holds_all3 (l : list Sql.tv) :
  Sql.holds (Sql.all3 l) = forallb Sql.holds l.
Proof.
  induction l as [|x l IH]; [reflexivity|].
  cbn [Sql.all3 forallb]. rewrite holds_and3, IH. reflexivity.
Qed.

Lemma holds_any3 (l : list Sql.tv) :
  Sql.holds (Sql.any3 l) = existsb Sql.holds l.
Proof.
  induction l as [|x l IH]; [reflexivity|].
  cbn [Sql.any3 existsb]. rewrite holds_or3, IH. reflexivity.
Qed.

Lemma holds_eq_bound (c p : value) :
  p <> VNone -> Sql.holds (Sql.eq c p) = equals c p.
Proof.
  intros Hp. unfold equals.
  destruct c as [|x|x], p as [|y|y]; try congruence; cbn [Sql.eq Sql.holds];
    try (symmetry; apply bool_decide_eq_false; congruence).
  - destruct (String.eqb x y) eqn:E.
    + apply String.eqb_eq in E. subst. symmetry. apply bool_decide_eq_true.
      reflexivity.
    + apply String.eqb_neq in E. symmetry. apply bool_decide_eq_false. congruence.
  - destruct (x =? y) eqn:E.
    + apply Z.eqb_eq in E. subst. symmetry. apply bool_decide_eq_true. reflexivity.
    + apply Z.eqb_neq in E. symmetry. apply bool_decide_eq_false. congruence.
Qed.

(** [(p IS NULL OR test)]. *)
Lemma holds_guard (p : value) (test : Sql.tv) :
  Sql.holds (Sql.or3 (Sql.is_null p) test)
  = unless_absent p (fun _ => Sql.holds test).
Proof. destruct p; rewrite holds_or3; reflexivity. Qed.

Lemma holds_exact_guard (p c : value) :
  Sql.holds (Sql.or3 (Sql.is_null p) (Sql.eq c p)) = unless_absent p (equals c).
Proof.
  rewrite holds_guard. destruct p; cbn [unless_absent]; try reflexivity;
    apply holds_eq_bound; discriminate.
Qed.

Lemma holds_text_guard (p : value) (fields : list value) :
  Sql.holds
    (Sql.any3 (Sql.is_null p :: map (fun c => Query.like_param c p) fields))
  = unless_absent p (like_one_of fields).
Proof.
  cbn [Sql.any3]. rewrite holds_guard, holds_any3. unfold like_one_of.
  assert (E : existsb Sql.holds (map (fun c => Query.like_param c p) fields)
              = existsb (fun field => Sql.holds (Query.like_param field p)) fields).
  { induction fields as [|c fields IH]; [reflexivity|].
    cbn [map existsb]. rewrite IH. reflexivity. }
  rewrite E. destruct p; reflexivity.
Qed.

Lemma blank_bound (o : option string) :
  blank o ->
  or_None (Py.strip (or_empty o)) = VNone /\
  or_None (Py.upper (Py.strip (or_empty o))) = VNone.
Proof.
  intros H.
  assert (E : Py.strip (or_empty o) = ""%string).
  { destruct o as [s|]; [|reflexivity]. cbn [blank] in H. unfold or_empty, Py.or_.
    cbn [Py.of_opt Py.truthy]. destruct (String.eqb s "") eqn:Es; cbn [negb Py.str].
    - reflexivity.
    - exact H. }
  rewrite E. split; reflexivity.
Qed.

Lemma holds_like_guard (p c : value) :
  Sql.holds (Sql.or3 (Sql.is_null p) (Query.like_param c p))
  = unless_absent p (like_one_of [c]).
Proof.
  rewrite holds_guard. unfold like_one_of. cbn [existsb].
  destruct p; cbn [unless_absent]; rewrite ?orb_false_r; reflexivity.
Qed.

Lemma holds_text_guard_or (p : value) (fields : list value) :
  Sql.holds
    (Sql.or3 (Sql.is_null p)
       (Sql.any3 (map (fun c => Query.like_param c p) fields)))
  = unless_absent p (like_one_of fields).
Proof. exact (holds_text_guard p fields). Qed.

Lemma search_schede_lavoro_absent_unrestricted
    (D : database) (tipodoc numerodoc : option string) (year : option Z)
    (codicecf anagrafe_search articolo_search : option string) (limit offset : Z)
    (d a : dict) :
  let bound p :=
    QualityRepositoryMYSQL.bound_value p tipodoc numerodoc year codicecf
      anagrafe_search articolo_search limit offset in
  let ps :=
    QualityRepositoryMYSQL.search_schede_lavoro_params tipodoc numerodoc year
      codicecf anagrafe_search articolo_search limit offset in
  Sql.holds (Query.search_schede_lavoro_where D ps (d, a))
  = Sql.holds (Sql.in_list (Query.col d "tipodoc") Query.tipi_doc_values)
    && unless_absent (bound ph_tipodoc) (equals (Query.col d "tipodoc"))
    && unless_absent (bound ph_numerodoc) (like_one_of [Query.col d "numerodoc"])
    && unless_absent (bound ph_esanno) (equals (Query.col d "esanno"))
    && unless_absent (bound ph_codicecf) (equals (Query.col d "codicecf"))
    && unless_absent (bound ph_anagrafe)
         (like_one_of [Query.col a "DESCRIZION"; Query.col a "SUPRAGSOC"])
    && unless_absent (bound ph_articolo) (fun _ => Query.exists_riga D ps d).
Proof.
  cbv zeta. unfold Query.search_schede_lavoro_where.
  rewrite holds_all3. cbn [fst snd].
  generalize (Query.exists_riga D
                (QualityRepositoryMYSQL.search_schede_lavoro_params tipodoc
                   numerodoc year codicecf anagrafe_search articolo_search limit
                   offset) d).
  intros sub.
  unfold QualityRepositoryMYSQL.search_schede_lavoro_params.
  cbn [Query.param nth fst snd forallb QualityRepositoryMYSQL.bound_value].
  rewrite !holds_exact_guard, holds_like_guard, holds_guard.
  pose proof (holds_text_guard (or_None (Py.strip (or_empty anagrafe_search)))
                [Query.col a "DESCRIZION"; Query.col a "SUPRAGSOC"]) as Ha.
  cbn [map] in Ha. rewrite Ha.
  rewrite andb_true_r, !andb_assoc. destruct sub; reflexivity.
Qed.

Lemma search_articoli_per_cliente_absent_unrestricted
    (tipodoc : option string) (year : option Z)
    (codicecf cliente_search articolo_search : option string) (limit offset : Z)
    (t : joined) :
  let bound p :=
    QualityRepositoryMYSQL.bound_value p tipodoc None year codicecf
      cliente_search articolo_search limit offset in
  let ps :=
    QualityRepositoryMYSQL.search_articoli_per_cliente_params tipodoc year
      codicecf cliente_search articolo_search limit offset in
  Sql.holds (Query.search_articoli_per_cliente_where ps t)
  = Sql.holds (Sql.in_list (Query.col (j_d t) "tipodoc") Query.tipi_doc_values)
    && unless_absent (bound ph_tipodoc) (equals (Query.col (j_d t) "tipodoc"))
    && unless_absent (bound ph_esanno) (equals (Query.col (j_d t) "esanno"))
    && unless_absent (bound ph_codicecf) (equals (Query.col (j_d t) "codicecf"))
    && unless_absent (bound ph_anagrafe)
         (like_one_of
            [Query.col (j_a t) "DESCRIZION"; Query.col (j_a t) "SUPRAGSOC"])
    && unless_absent (bound ph_articolo)
         (like_one_of
            [ Query.col (j_r t) "codicearti"; Query.col (j_r t) "descrizion";
              Query.col (j_ma t) "DESCRIZION"; Query.col (j_us t) "passo";
              Query.col (j_us t) "fascia" ])
    && Sql.holds (Sql.not3 (Query.is_sentinel t))
    && Sql.holds (Sql.is_not_null (Query.col (j_r t) "codicearti"))
    && Sql.holds (Sql.neq (Query.col (j_r t) "codicearti") (VStr "")).
Proof.
  cbv zeta. unfold Query.search_articoli_per_cliente_where.
  rewrite holds_all3.
  unfold QualityRepositoryMYSQL.search_articoli_per_cliente_params.
  cbn [Query.param nth forallb QualityRepositoryMYSQL.bound_value].
  rewrite !holds_exact_guard.
  pose proof (holds_text_guard (or_None (Py.strip (or_empty cliente_search)))
                [Query.col (j_a t) "DESCRIZION"; Query.col (j_a t) "SUPRAGSOC"])
    as Ha.
  cbn [map] in Ha. rewrite Ha.
  pose proof (holds_text_guard_or (or_None (Py.strip (or_empty articolo_search)))
                [ Query.col (j_r t) "codicearti"; Query.col (j_r t) "descrizion";
                  Query.col (j_ma t) "DESCRIZION"; Query.col (j_us t) "passo";
                  Query.col (j_us t) "fascia" ]) as Hb.
  cbn [map] in Hb. rewrite Hb.
  rewrite andb_true_r, !andb_assoc. reflexivity.
Qed.

Lemma search_clienti_options_absent_unrestricted
    (cliente_search : option string) (limit offset : Z) (a : dict) :
  Sql.holds
    (Clienti.search_clienti_options_where
       (Clienti.search_clienti_options_params cliente_search limit offset) a)
  = Sql.holds (Sql.is_not_null (Query.col a "CODICE"))
    && Sql.holds (Sql.neq (Query.col a "CODICE") (VStr ""))
    && unless_absent (or_None (Py.strip (or_empty cliente_search)))
         (like_one_of
            [ Query.col a "DESCRIZION"; Query.col a "SUPRAGSOC";
              Query.col a "CODICE" ]).
Proof.
  unfold Clienti.search_clienti_options_where. rewrite holds_all3.
  unfold Clienti.search_clienti_options_params.
  cbn [Query.param nth forallb].
  pose proof (holds_text_guard (or_None (Py.strip (or_empty cliente_search)))
                [ Query.col a "DESCRIZION"; Query.col a "SUPRAGSOC";
                  Query.col a "CODICE" ]) as Ha.
  cbn [map] in Ha. rewrite Ha.
  rewrite andb_true_r, !andb_assoc. reflexivity.
Qed.

(** ** [QualityRepositoryMYSQL]: what is validated and what is not *)

(** C6. [get_scheda_lavoro] raises a [ValueError] when the document type
    or the document number is absent or empty, and then leaves the world
    untouched: no driver call is made.  With both present it goes to the
    database whatever the year.  No other parameter is validated this
    way: the three search methods go to the database for all values of
    their filters, and there absence is no restriction.  An absent, empty
    or blank filter binds NULL, and for every row the WHERE clause of each
    search is the conjunction of its fixed conditions and of its filters,
    where a filter bound to NULL lets every row pass and a filter bound
    to a value applies its test to that value. *)
Theorem get_scheda_lavoro_requires_type_and_number
    (drv : driver) (settings : Settings)
    (tipodoc : option string) (esanno : Z) (numerodoc : option string) (w : world) :
  let result :=
    QualityRepositoryMYSQL.get_scheda_lavoro drv settings tipodoc esanno numerodoc w in
  (missing tipodoc \/ missing numerodoc ->
   (exists e, fst result = Raise e /\ exn_cls e = ValueError) /\ snd result = w) /\
  (~ missing tipodoc -> ~ missing numerodoc ->
   result
   = QualityRepositoryMYSQL.fetch drv settings
       QuerySqlQualityMYSQL.get_scheda_lavoro_sql
       (QualityRepositoryMYSQL.get_scheda_lavoro_params tipodoc esanno numerodoc) w /\
   exists ev evs, w_log (snd result) = w_log w ++ ev :: evs) /\
  (forall limit offset,
     calls_driver
       (QualityRepositoryMYSQL.search_schede_lavoro drv settings
          None None None None None None limit offset) /\
     QualityRepositoryMYSQL.search_schede_lavoro_params
       None None None None None None limit offset
     = repeat VNone 17 ++ [VInt limit; VInt offset]) /\
  (forall limit offset,
     calls_driver
       (QualityRepositoryMYSQL.search_articoli_per_cliente drv settings
          None None None None None limit offset) /\
     QualityRepositoryMYSQL.search_articoli_per_cliente_params
       None None None None None limit offset
     = repeat VNone 15 ++ [VInt limit; VInt offset]) /\
  (forall (tipo numero : option string) (year : option Z)
          (codicecf anagrafe_search articolo_search : option string)
          (limit offset : Z),
     calls_driver
       (QualityRepositoryMYSQL.search_schede_lavoro drv settings tipo numero year
          codicecf anagrafe_search articolo_search limit offset) /\
     calls_driver
       (QualityRepositoryMYSQL.search_articoli_per_cliente drv settings tipo year
          codicecf anagrafe_search articolo_search limit offset) /\
     calls_driver
       (Clienti.repo_search_clienti_options drv settings anagrafe_search limit
          offset)) /\
  (forall o : option string,
     blank o ->
     or_None (Py.strip (or_empty o)) = VNone /\
     or_None (Py.upper (Py.strip (or_empty o))) = VNone) /\
  int_or_None None = VNone /\
  (forall (D : database) (tipo numero : option string) (year : option Z)
          (codicecf anagrafe_search articolo_search : option string)
          (limit offset : Z) (d a : dict),
     let bound p :=
       QualityRepositoryMYSQL.bound_value p tipo numero year codicecf
         anagrafe_search articolo_search limit offset in
     let ps :=
       QualityRepositoryMYSQL.search_schede_lavoro_params tipo numero year
         codicecf anagrafe_search articolo_search limit offset in
     Sql.holds (Query.search_schede_lavoro_where D ps (d, a))
     = Sql.holds (Sql.in_list (Query.col d "tipodoc") Query.tipi_doc_values)
       && unless_absent (bound ph_tipodoc) (equals (Query.col d "tipodoc"))
       && unless_absent (bound ph_numerodoc) (like_one_of [Query.col d "numerodoc"])
       && unless_absent (bound ph_esanno) (equals (Query.col d "esanno"))
       && unless_absent (bound ph_codicecf) (equals (Query.col d "codicecf"))
       && unless_absent (bound ph_anagrafe)
            (like_one_of [Query.col a "DESCRIZION"; Query.col a "SUPRAGSOC"])
       && unless_absent (bound ph_articolo) (fun _ => Query.exists_riga D ps d)) /\
  (forall (tipo : option string) (year : option Z)
          (codicecf anagrafe_search articolo_search : option string)
          (limit offset : Z) (t : joined),
     let bound p :=
       QualityRepositoryMYSQL.bound_value p tipo None year codicecf
         anagrafe_search articolo_search limit offset in
     let ps :=
       QualityRepositoryMYSQL.search_articoli_per_cliente_params tipo year
         codicecf anagrafe_search articolo_search limit offset in
     Sql.holds (Query.search_articoli_per_cliente_where ps t)
     = Sql.holds (Sql.in_list (Query.col (j_d t) "tipodoc") Query.tipi_doc_values)
       && unless_absent (bound ph_tipodoc) (equals (Query.col (j_d t) "tipodoc"))
       && unless_absent (bound ph_esanno) (equals (Query.col (j_d t) "esanno"))
       && unless_absent (bound ph_codicecf) (equals (Query.col (j_d t) "codicecf"))
       && unless_absent (bound ph_anagrafe)
            (like_one_of
               [Query.col (j_a t) "DESCRIZION"; Query.col (j_a t) "SUPRAGSOC"])
       && unless_absent (bound ph_articolo)
            (like_one_of
               [ Query.col (j_r t) "codicearti"; Query.col (j_r t) "descrizion";
                 Query.col (j_ma t) "DESCRIZION"; Query.col (j_us t) "passo";
                 Query.col (j_us t) "fascia" ])
       && Sql.holds (Sql.not3 (Query.is_sentinel t))
       && Sql.holds (Sql.is_not_null (Query.col (j_r t) "codicearti"))
       && Sql.holds (Sql.neq (Query.col (j_r t) "codicearti") (VStr ""))) /\
  (forall (anagrafe_search : option string) (limit offset : Z) (a : dict),
     Sql.holds
       (Clienti.search_clienti_options_where
          (Clienti.search_clienti_options_params anagrafe_search limit offset) a)
     = Sql.holds (Sql.is_not_null (Query.col a "CODICE"))
       && Sql.holds (Sql.neq (Query.col a "CODICE") (VStr ""))
       && unless_absent (or_None (Py.strip (or_empty anagrafe_search)))
            (like_one_of
               [ Query.col a "DESCRIZION"; Query.col a "SUPRAGSOC";
                 Query.col a "CODICE" ])).
Proof.
  cbv zeta. unfold QualityRepositoryMYSQL.get_scheda_lavoro.
  split; [|split; [|split; [|split; [|split; [|split; [|split; [|split;
    [|split]]]]]]]].
  - intros H. split.
    + destruct (Py.truthy (Py.of_opt tipodoc)) eqn:Ht; simpl.
      * destruct H as [H|H].
        -- apply truthy_of_opt in H. congruence.
        -- apply truthy_of_opt in H. rewrite H. simpl.
           exists numerodoc_required. split; reflexivity.
      * exists tipodoc_required. split; reflexivity.
    + destruct (Py.truthy (Py.of_opt tipodoc)) eqn:Ht; simpl.
      * destruct H as [H|H].
        -- apply truthy_of_opt in H. congruence.
        -- apply truthy_of_opt in H. rewrite H. reflexivity.
      * reflexivity.
  - intros Ht Hn.
    destruct (Py.truthy (Py.of_opt tipodoc)) eqn:Et;
      [|apply truthy_of_opt in Et; contradiction].
    destruct (Py.truthy (Py.of_opt numerodoc)) eqn:En;
      [|apply truthy_of_opt in En; contradiction].
    split; [reflexivity|]. simpl. apply fetch_calls_driver.
  - intros limit offset. split; [apply fetch_calls_driver|reflexivity].
  - intros limit offset. split; [apply fetch_calls_driver|reflexivity].
  - intros tipo numero year codicecf anagrafe_search articolo_search limit offset.
    split; [|split]; apply fetch_calls_driver.
  - exact blank_bound.
  - reflexivity.
  - intros D tipo numero year codicecf anagrafe_search articolo_search limit
      offset d a.
    exact (search_schede_lavoro_absent_unrestricted D tipo numero year codicecf
             anagrafe_search articolo_search limit offset d a).
  - intros tipo year codicecf anagrafe_search articolo_search limit offset t.
    exact (search_articoli_per_cliente_absent_unrestricted tipo year codicecf
             anagrafe_search articolo_search limit offset t).
  - exact search_clienti_options_absent_unrestricted.
Qed.

Lemma get_scheda_lavoro_requires_type_and_number_witness :
  let result :=
    QualityRepositoryMYSQL.get_scheda_lavoro (Server.mysql Sample.D) Sample.settings
      (Some "") 2024 (Some "A-1") Sample.fresh in
  (exists e, fst result = Raise e /\ exn_cls e = ValueError) /\
  snd result = Sample.fresh.
Proof.
  apply (get_scheda_lavoro_requires_type_and_number
           (Server.mysql Sample.D) Sample.settings (Some "") 2024 (Some "A-1")
           Sample.fresh).
  left. right. reflexivity.
Defined.

(** ** [QualityService] *)

Lemma str_in_In (x : string) (l : list string) : Py.str_in x l = true <-> In x l.
Proof.
  unfold Py.str_in. rewrite existsb_exists. split.
  - intros (y & Hy & E). apply String.eqb_eq in E. subst y. exact Hy.
  - intros H. exists x. split; [exact H|apply String.eqb_refl].
Qed.

Lemma upper_ascii_pre (c : ascii) :
  c = Py.upper_ascii c \/
  c = ascii_of_nat (nat_of_ascii (Py.upper_ascii c) + 32).
Proof.
  destruct c as [[] [] [] [] [] [] [] []];
    first [left; reflexivity | right; reflexivity].
Qed.

Lemma upper_two (s : string) (x y : ascii) :
  Py.upper s = String x (String y "") ->
  exists a b, s = String a (String b "") /\
    (a = x \/ a = ascii_of_nat (nat_of_ascii x + 32)) /\
    (b = y \/ b = ascii_of_nat (nat_of_ascii y + 32)).
Proof.
  destruct s as [|a [|b [|c r]]]; cbn [Py.upper]; intros H; try discriminate H.
  injection H as Ha Hb. exists a, b. split; [reflexivity|].
  rewrite <- Ha, <- Hb. split; apply upper_ascii_pre.
Qed.

Lemma recognized_spellings_upper (s : string) :
  existsb (String.eqb s) recognized_spellings
  = Py.str_in (Py.upper s) QualityService.DEFAULT_TIPI_DOC.
Proof.
  apply eq_true_iff_eq. split.
  - intros H. apply existsb_exists in H. destruct H as (t & Hin & E).
    apply String.eqb_eq in E. subst t. unfold recognized_spellings in Hin.
    cbn [In] in Hin.
    repeat (destruct Hin as [<-|Hin]; [reflexivity|]). contradiction.
  - intros H. apply str_in_In in H. unfold QualityService.DEFAULT_TIPI_DOC in H.
    cbn [In] in H.
    repeat (destruct H as [H|H];
            [symmetry in H; apply upper_two in H;
             destruct H as (a & b & -> & [->| ->] & [->| ->]); reflexivity|]).
    contradiction.
Qed.

Lemma upper_nonempty (s : string) : s <> ""%string -> Py.upper s <> ""%string.
Proof. destruct s; [congruence|discriminate]. Qed.

(** The decimal text of a non-zero integer starts with a digit or the sign. *)
Lemma str_int_skipped (z : Z) :
  z <> 0 ->
  QualityService.skipped (Py.upper (Py.str (VInt z))) = true.
Proof.
  intros Hz. unfold Py.str.
  assert (Hd : forall d, d <> Decimal.Nil ->
            QualityService.skipped (Py.upper (NilEmpty.string_of_uint d)) = true).
  { intros d Hd. destruct d; [congruence| | | | | | | | | |]; reflexivity. }
  destruct z as [|p|p]; [congruence| |].
  - apply Hd. apply Unsigned.to_uint_nonnil.
  - reflexivity.
Qed.

Lemma kept_recognized_code (row : dict) :
  kept row = recognized_code (row !! "d_tipodoc").
Proof.
  unfold kept, QualityService.tip_of, Py.get.
  rewrite _extract_header_lookup.
  change ("d_" +:+ "tipodoc")%string with "d_tipodoc"%string.
  destruct (row !! "d_tipodoc") as [[|s|z]|]; cbn [default recognized_code];
    unfold id; try reflexivity.
  - unfold Py.or_. cbn [Py.truthy].
    destruct (String.eqb s "") eqn:E; cbn [negb orb]; [reflexivity|].
    cbn [Py.str]. unfold QualityService.skipped. cbn [Py.truthy].
    apply String.eqb_neq in E. apply upper_nonempty in E.
    apply String.eqb_neq in E. rewrite E. cbn [negb andb].
    rewrite negb_involutive. symmetry. apply recognized_spellings_upper.
  - unfold Py.or_. cbn [Py.truthy].
    destruct (z =? 0) eqn:E; cbn [negb]; [reflexivity|].
    apply Z.eqb_neq in E. rewrite str_int_skipped by exact E. reflexivity.
Qed.

Lemma item_of_tipodoc (h r : dict) :
  QualityService.item_of h r !! "tipodoc" = Some (Py.get h "tipodoc").
Proof.
  unfold QualityService.item_of. rewrite list_to_map_cons, lookup_insert_eq.
  reflexivity.
Qed.

Lemma recognized_code_get (c : option value) :
  recognized_code (Some (default VNone c)) = recognized_code c.
Proof. destruct c as [[|s|z]|]; reflexivity. Qed.

(** C4. When the repository yields zero rows, [get_scheda_lavoro] returns
    [{header: None, righe: []}] and raises nothing; when it yields [n >= 1]
    rows, the header is the [d_] projection of the first row and [righe]
    has [n] entries, the [i]-th being the [r_] projection of the [i]-th
    row. *)
Theorem get_scheda_lavoro_projects_rows
    (repo : QualityRepository)
    (tipodoc : option string) (esanno : Z) (numerodoc : option string)
    (w : world) (rows : list dict) (w' : world) :
  repo_get_scheda_lavoro repo tipodoc esanno numerodoc w = (Ret rows, w') ->
  exists s,
    QualityService.get_scheda_lavoro repo tipodoc esanno numerodoc w = (Ret s, w') /\
    length (righe s) = length rows /\
    (forall i, righe s !! i = QualityService._extract_row <$> rows !! i) /\
    (forall row k, QualityService._extract_row row !! k = row !! ("r_" +:+ k)) /\
    match rows with
    | [] => s = {| header := None; righe := [] |}
    | row0 :: _ =>
        header s = Some (QualityService._extract_header row0) /\
        forall k, QualityService._extract_header row0 !! k = row0 !! ("d_" +:+ k)
    end.
Proof.
  intros H. unfold QualityService.get_scheda_lavoro, bind. rewrite H.
  exists (QualityService.scheda_of rows). split; [reflexivity|].
  assert (Hrighe : righe (QualityService.scheda_of rows)
                   = map QualityService._extract_row rows)
    by (destruct rows; reflexivity).
  rewrite Hrighe, length_map.
  split; [reflexivity|].
  split; [intros i; apply list_lookup_fmap|].
  split; [intros row k; apply _extract_row_lookup|].
  destruct rows as [|row0 rest]; [reflexivity|].
  split; [reflexivity|intros k; apply _extract_header_lookup].
Qed.

Lemma get_scheda_lavoro_projects_rows_witness :
  exists s,
    QualityService.get_scheda_lavoro Sample.repo (Some "OC") 2024 (Some "A-1")
      Sample.fresh = (Ret s, snd detail_run) /\
    length (righe s) = length (rows_of detail_run) /\
    length (rows_of detail_run) = 3%nat.
Proof.
  destruct (get_scheda_lavoro_projects_rows Sample.repo (Some "OC") 2024 (Some "A-1")
              Sample.fresh (rows_of detail_run) (snd detail_run))
    as (s & Hrun & Hlen & _).
  - vm_cast_no_check (@eq_refl _ (Ret (rows_of detail_run), snd detail_run)).
  - exists s. split; [exact Hrun|]. split; [exact Hlen|].
    vm_cast_no_check (@eq_refl nat 3%nat).
Defined.

(** C5. Whatever the repository does, [search_schede_lavoro] and
    [search_articoli_per_cliente] raise what it raises and otherwise
    return, in order, the projections of the raw rows whose type code
    [d_tipodoc] is acceptable, and of no other: a row is dropped exactly
    when its type code is a non-empty text whose upper-cased value is
    outside [OC, ON, BA, CB, BC, BO], or a number other than [0].  The
    type code of a returned mapping is the one of its row, so every
    mapping returned has a type code that is absent or empty, or whose
    upper-cased value is one of the six.  The two operations are
    independent of each other. *)
Theorem list_operations_drop_unrecognized_types
    (repo : QualityRepository)
    (tipodoc numerodoc : option string) (year : option Z)
    (codicecf anagrafe_search articolo_search : option string) (limit offset : Z)
    (w : world) :
  match
    repo_search_schede_lavoro repo tipodoc numerodoc year codicecf anagrafe_search
      articolo_search limit offset w
  with
  | (Ret raw_rows, w') =>
      let out :=
        map QualityService._extract_header
          (List.filter (fun row => recognized_code (row !! "d_tipodoc")) raw_rows) in
      QualityService.search_schede_lavoro repo tipodoc numerodoc year codicecf
        anagrafe_search articolo_search limit offset w = (Ret out, w') /\
      List.Forall (fun m => recognized_code (m !! "tipodoc") = true) out
  | (Raise e, w') =>
      QualityService.search_schede_lavoro repo tipodoc numerodoc year codicecf
        anagrafe_search articolo_search limit offset w = (Raise e, w')
  end /\
  match
    repo_search_articoli_per_cliente repo tipodoc year codicecf anagrafe_search
      articolo_search limit offset w
  with
  | (Ret raw_rows, w') =>
      let out :=
        map (fun row =>
               QualityService.item_of (QualityService._extract_header row)
                 (QualityService._extract_row row))
          (List.filter (fun row => recognized_code (row !! "d_tipodoc")) raw_rows) in
      QualityService.search_articoli_per_cliente repo tipodoc year codicecf
        anagrafe_search articolo_search limit offset w = (Ret out, w') /\
      List.Forall (fun m => recognized_code (m !! "tipodoc") = true) out
  | (Raise e, w') =>
      QualityService.search_articoli_per_cliente repo tipodoc year codicecf
        anagrafe_search articolo_search limit offset w = (Raise e, w')
  end /\
  (forall row,
     QualityService._extract_header row !! "tipodoc" = row !! "d_tipodoc" /\
     QualityService.item_of (QualityService._extract_header row)
       (QualityService._extract_row row) !! "tipodoc"
     = Some (default VNone (row !! "d_tipodoc"))) /\
  (forall code,
     recognized_code code = true <->
     code = None \/ code = Some VNone \/ code = Some (VStr "") \/
     code = Some (VInt 0) \/
     exists s, code = Some (VStr s) /\
               In (Py.upper s) ["OC"; "ON"; "BA"; "CB"; "BC"; "BO"]%string).
Proof.
  assert (Hfilter : forall rows : list dict,
            List.filter kept rows
            = List.filter (fun row => recognized_code (row !! "d_tipodoc")) rows).
  { intros rows. apply filter_ext. intros row. apply kept_recognized_code. }
  split; [|split; [|split]].
  - unfold QualityService.search_schede_lavoro, bind.
    destruct (repo_search_schede_lavoro repo tipodoc numerodoc year codicecf
                anagrafe_search articolo_search limit offset w) as [[raw|e] w'];
      [|reflexivity].
    cbv zeta. unfold ret. rewrite headers_of_filter, Hfilter.
    split; [reflexivity|].
    apply List.Forall_forall. intros h Hin. apply in_map_iff in Hin.
    destruct Hin as (row & <- & Hrow). apply filter_In in Hrow.
    rewrite _extract_header_lookup. apply Hrow.
  - unfold QualityService.search_articoli_per_cliente, bind.
    destruct (repo_search_articoli_per_cliente repo tipodoc year codicecf
                anagrafe_search articolo_search limit offset w) as [[raw|e] w'];
      [|reflexivity].
    cbv zeta. unfold ret. rewrite items_of_filter, Hfilter.
    split; [reflexivity|].
    apply List.Forall_forall. intros h Hin. apply in_map_iff in Hin.
    destruct Hin as (row & <- & Hrow). apply filter_In in Hrow.
    rewrite item_of_tipodoc. unfold Py.get. rewrite _extract_header_lookup.
    rewrite recognized_code_get. apply Hrow.
  - intros row. split; [apply _extract_header_lookup|].
    rewrite item_of_tipodoc. unfold Py.get. rewrite _extract_header_lookup.
    reflexivity.
  - intros code. split.
    + destruct code as [[|s|z]|]; cbn [recognized_code]; intros H.
      * right. left. reflexivity.
      * apply orb_true_iff in H. destruct H as [H|H].
        -- apply String.eqb_eq in H. subst s. right. right. left. reflexivity.
        -- rewrite recognized_spellings_upper in H. apply str_in_In in H.
           right. right. right. right. exists s. split; [reflexivity|exact H].
      * apply Z.eqb_eq in H. subst z. right. right. right. left. reflexivity.
      * left. reflexivity.
    + intros [->|[->|[->|[->|(s & -> & H)]]]]; try reflexivity.
      cbn [recognized_code]. apply orb_true_iff. right.
      rewrite recognized_spellings_upper. apply str_in_In. exact H.
Qed.

Lemma list_operations_drop_unrecognized_types_witness :
  exists kept_oc no_type null_type,
    QualityService.search_schede_lavoro Unfiltered.repo None None None None None
      None 50 0 Sample.fresh
    = (Ret [kept_oc; no_type; null_type], Sample.fresh) /\
    kept_oc !! "tipodoc" = Some (VStr "oc") /\
    no_type !! "tipodoc" = None /\
    null_type !! "tipodoc" = Some VNone /\
    length Unfiltered.rows = 4%nat.
Proof.
  destruct (list_operations_drop_unrecognized_types Unfiltered.repo
              None None None None None None 50 0 Sample.fresh) as ((H & _) & _).
  cbv zeta in H. do 3 eexists. split; [exact H|].
  repeat split.
Defined.

(** C10. [list_schede_lavoro] returns what [search_schede_lavoro] returns
    for [tipodoc=None], [numerodoc=None] and the same year, counterparty
    code, name filter, text filter, limit and offset; [tipi_doc] has no
    effect. *)
Theorem list_schede_lavoro_is_search_schede_lavoro
    (repo : QualityRepository)
    (year : option Z) (codicecf cliente_search text_search : option string)
    (tipi_doc : option (list string)) (limit offset : Z) (w : world) :
  QualityService.list_schede_lavoro repo year codicecf cliente_search text_search
    tipi_doc limit offset w
  = QualityService.search_schede_lavoro repo None None year codicecf
      cliente_search text_search limit offset w
  /\ forall tipi_doc',
       QualityService.list_schede_lavoro repo year codicecf cliente_search
         text_search tipi_doc' limit offset w
       = QualityService.list_schede_lavoro repo year codicecf cliente_search
           text_search tipi_doc limit offset w.
Proof. split; [reflexivity|intros tipi_doc'; reflexivity]. Qed.

(** ** Three-valued logic, association lists and [LIKE] *)

Lemma all3_true (l : list Sql.tv) :
  Sql.all3 l = Some true <-> List.Forall (fun x => x = Some true) l.
Proof.
  induction l as [|x l IH]; simpl.
  - split; [constructor|reflexivity].
  - split.
    + intros H. destruct x as [[|]|], (Sql.all3 l) as [[|]|]; try discriminate H.
      constructor; [reflexivity|apply IH; reflexivity].
    + intros H. inversion H as [|? ? Hx Hl]; subst.
      apply IH in Hl. rewrite Hl. reflexivity.
Qed.

Lemma any3_false (l : list Sql.tv) :
  Sql.any3 l = Some false <-> List.Forall (fun x => x = Some false) l.
Proof.
  induction l as [|x l IH]; simpl.
  - split; [constructor|reflexivity].
  - split.
    + intros H. destruct x as [[|]|], (Sql.any3 l) as [[|]|]; try discriminate H.
      constructor; [reflexivity|apply IH; reflexivity].
    + intros H. inversion H as [|? ? Hx Hl]; subst.
      apply IH in Hl. rewrite Hl. reflexivity.
Qed.

Lemma eq_true (a b : value) : Sql.eq a b = Some true <-> a = b /\ a <> VNone.
Proof.
  destruct a as [|x|x], b as [|y|y]; simpl; split;
    try (intros H; discriminate H);
    try (intros [H1 H2]; first [discriminate H1 | contradiction]).
  - intros H. injection H as H. apply String.eqb_eq in H. subst. split; [reflexivity|discriminate].
  - intros [H _]. injection H as ->. rewrite String.eqb_refl. reflexivity.
  - intros H. injection H as H. apply Z.eqb_eq in H. subst. split; [reflexivity|discriminate].
  - intros [H _]. injection H as ->. rewrite Z.eqb_refl. reflexivity.
Qed.

Lemma neq_true (a b : value) :
  Sql.neq a b = Some true <-> a <> b /\ a <> VNone /\ b <> VNone.
Proof.
  unfold Sql.neq.
  destruct a as [|x|x], b as [|y|y]; simpl; split;
    try (intros H; discriminate H);
    try (intros (H1 & H2 & H3); contradiction);
    try (intros _; repeat split; discriminate).
  - intros H. injection H as H. apply negb_true_iff, String.eqb_neq in H.
    repeat split; [congruence|discriminate|discriminate].
  - intros (H & _). f_equal. apply negb_true_iff, String.eqb_neq. congruence.
  - intros H. injection H as H. apply negb_true_iff, Z.eqb_neq in H.
    repeat split; [congruence|discriminate|discriminate].
  - intros (H & _). f_equal. apply negb_true_iff, Z.eqb_neq. congruence.
Qed.

Lemma is_not_null_true (a : value) : Sql.is_not_null a = Some true <-> a <> VNone.
Proof.
  destruct a; simpl; split; intros H; try reflexivity; try discriminate; congruence.
Qed.

(** A result row reads, at a key, the first expression selected under it. *)
Lemma get_list_to_map (l : list (string * value)) (k : string) :
  Py.get (list_to_map l) k = default VNone (assoc k l).
Proof.
  unfold Py.get. f_equal. induction l as [|[k' v] l IH]; simpl.
  - apply lookup_empty.
  - destruct (String.eqb k' k) eqn:E.
    + apply String.eqb_eq in E. subst. apply lookup_insert_eq.
    + apply String.eqb_neq in E. rewrite lookup_insert_ne by exact E. exact IH.
Qed.

Lemma like_match_any (s : string) : Sql.like_match "%" s = true.
Proof.
  simpl. induction s as [|c s IH]; [reflexivity|].
  simpl in *. exact IH.
Qed.

Lemma like_match_any2 (s : string) : Sql.like_match "%%" s = true.
Proof.
  destruct s as [|c s]; [reflexivity|].
  change (Sql.like_match "%%" (String c s))
    with ((Sql.like_match "%" (String c s)
           || (fix skip (t : string) : bool :=
                 (Sql.like_match "%" t
                  || match t with
                     | EmptyString => false
                     | String _ t' => skip t'
                     end)%bool) s)%bool).
  rewrite like_match_any. reflexivity.
Qed.

(** A plain prefix of the pattern matches itself. *)
Lemma like_match_plain (lit p s : string) :
  plain lit = true ->
  Sql.like_match (lit +:+ p) s
  = if String.prefix lit s
    then Sql.like_match p (Py.slice_from (String.length lit) s)
    else false.
Proof.
  revert s. induction lit as [|c lit IH]; intros s Hp.
  - simpl. destruct s; reflexivity.
  - simpl in Hp. apply andb_true_iff in Hp. destruct Hp as [Hp Hlit].
    apply andb_true_iff in Hp. destruct Hp as [Hp H3].
    apply andb_true_iff in Hp. destruct Hp as [H1 H2].
    apply negb_true_iff in H1, H2, H3.
    change (String c lit +:+ p) with (String c (lit +:+ p)).
    cbn [Sql.like_match]. rewrite H1, H2, H3.
    destruct s as [|x s]; [reflexivity|].
    cbn [String.prefix String.length Py.slice_from].
    destruct (Ascii.ascii_dec c x) as [->|Hne].
    + rewrite Ascii.eqb_refl. simpl. apply IH. exact Hlit.
    + apply Ascii.eqb_neq in Hne. rewrite Hne. reflexivity.
Qed.

(** [x LIKE 'lit%%'] tests a prefix. *)
Lemma like_match_prefix (lit s : string) :
  plain lit = true -> Sql.like_match (lit +:+ "%%") s = Py.startswith s lit.
Proof.
  intros Hp. rewrite like_match_plain by exact Hp. unfold Py.startswith.
  destruct (String.prefix lit s); [apply like_match_any2|reflexivity].
Qed.

(** [x LIKE '%lit%'] tests a substring. *)
Lemma like_match_contains (lit s : string) :
  plain lit = true -> Sql.like_match ("%" +:+ lit +:+ "%") s = Py.contains s lit.
Proof.
  intros Hp.
  assert (H : forall t, Sql.like_match (lit +:+ "%") t = String.prefix lit t).
  { intros t. rewrite like_match_plain by exact Hp.
    destruct (String.prefix lit t); [apply like_match_any|reflexivity]. }
  change ("%" +:+ lit +:+ "%") with (String "%" (lit +:+ "%")).
  cbn [Sql.like_match]. rewrite Ascii.eqb_refl.
  induction s as [|c s IH].
  - cbn [Py.contains]. rewrite <- H. reflexivity.
  - cbn [Py.contains]. rewrite <- IH, <- H. reflexivity.
Qed.

(** ** The repository on a server holding a database *)

(** On a new [MySQLDb], a repository call returns what the server answers
    to its statement. *)
Lemma fetch_on_new_world (D : database) (settings : Settings)
    (db_name : option string) (sql : string) (params : list value) :
  fst (QualityRepositoryMYSQL.fetch (Server.mysql D) settings sql params
         (new_world db_name))
  = match Server.run_statement D sql (params_or_None (Some params)) with
    | Ret rows => Ret (rows_or_empty rows)
    | Raise e => Raise e
    end.
Proof.
  unfold QualityRepositoryMYSQL.fetch, with_DbManager, with_stmt, DbManager_enter,
    DbManager_exit, connect, conn_is_live, execute_query, execute, execute_body,
    try_finally, try_except_Exception, bind, get_conn, get_db_name, set_conn,
    mysql_connector_connect, conn_is_connected, conn_cursor, cursor_execute,
    cursor_fetchall, conn_rollback, cursor_close, ret, raise, new_world.
  cbn -[Server.run_statement params_or_None close].
  destruct (Server.run_statement D sql (params_or_None (Some params)))
    as [rows|e] eqn:Hrun.
  - cbn -[Server.run_statement params_or_None close].
    rewrite close_spec. reflexivity.
  - destruct (is_Exception e);
      cbn -[Server.run_statement params_or_None close];
      rewrite close_spec; reflexivity.
Qed.

Lemma statements_distinct :
  String.eqb QuerySqlQualityMYSQL.get_scheda_lavoro_sql
    QuerySqlQualityMYSQL.search_schede_lavoro_sql = false /\
  String.eqb QuerySqlQualityMYSQL.get_scheda_lavoro_sql
    QuerySqlQualityMYSQL.search_articoli_per_cliente_sql = false /\
  String.eqb QuerySqlQualityMYSQL.search_articoli_per_cliente_sql
    QuerySqlQualityMYSQL.search_schede_lavoro_sql = false.
Proof. vm_compute. repeat split. Qed.

Lemma run_get_scheda_lavoro (D : database) (params : list value) :
  length params = 3%nat ->
  Server.run_statement D QuerySqlQualityMYSQL.get_scheda_lavoro_sql
    (params_or_None (Some params))
  = Ret (Query.get_scheda_lavoro_rows D params).
Proof.
  intros Hlen. destruct params as [|a [|b [|c [|x r]]]]; try discriminate Hlen.
  destruct statements_distinct as (H1 & H2 & _).
  unfold Server.run_statement, Server.check_params, params_or_None.
  rewrite get_scheda_lavoro_sql_slots. cbn [length Nat.ltb Nat.leb default].
  rewrite H1, H2, String.eqb_refl. reflexivity.
Qed.

Lemma run_search_articoli_per_cliente (D : database) (params : list value) :
  length params = 17%nat ->
  Server.run_statement D QuerySqlQualityMYSQL.search_articoli_per_cliente_sql
    (params_or_None (Some params))
  = Query.search_articoli_per_cliente_rows D params.
Proof.
  intros Hlen. destruct params as [|a r]; [discriminate Hlen|].
  destruct statements_distinct as (_ & _ & H3).
  unfold Server.run_statement, Server.check_params, params_or_None.
  rewrite search_articoli_per_cliente_sql_slots, Hlen.
  cbn [Nat.ltb Nat.leb default].
  rewrite H3, String.eqb_refl. reflexivity.
Qed.

Lemma run_search_schede_lavoro (D : database) (params : list value) :
  length params = 19%nat ->
  Server.run_statement D QuerySqlQualityMYSQL.search_schede_lavoro_sql
    (params_or_None (Some params))
  = Query.search_schede_lavoro_rows D params.
Proof.
  intros Hlen. destruct params as [|a r]; [discriminate Hlen|].
  unfold Server.run_statement, Server.check_params, params_or_None.
  rewrite search_schede_lavoro_sql_slots, Hlen.
  cbn [Nat.ltb Nat.leb default].
  rewrite String.eqb_refl. reflexivity.
Qed.

(** ** The counterparty-line search *)

Lemma rows_or_empty_id (rows : list dict) : rows_or_empty rows = rows.
Proof. destruct rows; reflexivity. Qed.

Lemma holds_true (x : Sql.tv) : Sql.holds x = true <-> x = Some true.
Proof. destruct x as [[|]|]; simpl; split; intros H; congruence. Qed.

Lemma like_upper_false (v : value) (pat s : string) :
  Sql.like (Sql.upper v) (VStr pat) = Some false ->
  Sql.text v = Some s ->
  Sql.like_match pat (Py.upper s) = false.
Proof.
  unfold Sql.upper. intros H Hs. rewrite Hs in H.
  unfold Sql.like in H. cbn [Sql.text Py.str] in H. congruence.
Qed.

Lemma in_sentinels (p : string) : In p sentinels -> p = "CONAI" \/ p = "BANCALE".
Proof. intros [H|[H|[]]]; auto. Qed.

Lemma not_starts_with_sentinel (v : value) :
  Sql.like (Sql.upper v) (VStr "CONAI%%") = Some false ->
  Sql.like (Sql.upper v) (VStr "BANCALE%%") = Some false ->
  ~ starts_with_sentinel v.
Proof.
  intros H1 H2 (s & p & Hs & Hp & Hstart).
  apply (like_upper_false _ _ s) in H1; [|exact Hs].
  apply (like_upper_false _ _ s) in H2; [|exact Hs].
  apply in_sentinels in Hp. destruct Hp as [-> | ->].
  - change "CONAI%%" with ("CONAI" +:+ "%%") in H1.
    rewrite like_match_prefix in H1 by reflexivity. congruence.
  - change "BANCALE%%" with ("BANCALE" +:+ "%%") in H2.
    rewrite like_match_prefix in H2 by reflexivity. congruence.
Qed.

Lemma not_mentions_sentinel (v : value) :
  Sql.like (Sql.upper v) (VStr "%CONAI%") = Some false ->
  Sql.like (Sql.upper v) (VStr "%BANCALE%") = Some false ->
  ~ mentions_sentinel v.
Proof.
  intros H1 H2 (s & p & Hs & Hp & Hin).
  apply (like_upper_false _ _ s) in H1; [|exact Hs].
  apply (like_upper_false _ _ s) in H2; [|exact Hs].
  apply in_sentinels in Hp. destruct Hp as [-> | ->].
  - change "%CONAI%" with ("%" +:+ "CONAI" +:+ "%") in H1.
    rewrite like_match_contains in H1 by reflexivity. congruence.
  - change "%BANCALE%" with ("%" +:+ "BANCALE" +:+ "%") in H2.
    rewrite like_match_contains in H2 by reflexivity. congruence.
Qed.

(** A joined row that passes the [WHERE] clause is a product line. *)
Lemma search_articoli_per_cliente_where_product (ps : list value) (t : joined) :
  Sql.holds (Query.search_articoli_per_cliente_where ps t) = true ->
  product_line "r_codicearti" "r_descrizione_riga" "r_descrizione_articolo"
    (Query.search_articoli_per_cliente_select t).
Proof.
  intros H. apply holds_true in H.
  unfold Query.search_articoli_per_cliente_where in H. cbv zeta in H.
  apply all3_true in H. rewrite !List.Forall_cons_iff in H.
  destruct H as (_ & _ & _ & _ & _ & _ & Hs & Hn & He & _).
  assert (Hsent : Query.is_sentinel t = Some false)
    by (destruct (Query.is_sentinel t) as [[|]|]; simpl in Hs; congruence).
  unfold Query.is_sentinel in Hsent. apply any3_false in Hsent.
  rewrite !List.Forall_cons_iff in Hsent.
  destruct Hsent as (S1 & S2 & S3 & S4 & S5 & S6 & _).
  apply is_not_null_true in Hn. apply neq_true in He. destruct He as (He & _).
  unfold product_line, Query.search_articoli_per_cliente_select.
  rewrite !get_list_to_map. cbn [assoc app Query.select_header_min
    Query.select_riga_min Query.select_quality String.eqb Ascii.eqb Bool.eqb default].
  split; [exact Hn|]. split; [exact He|].
  split; [exact (not_starts_with_sentinel _ S1 S2)|].
  split; [exact (not_mentions_sentinel _ S3 S4)|exact (not_mentions_sentinel _ S5 S6)].
Qed.

Lemma order_by_In {A} (keys : list ((A -> value) * bool)) (rows : list A) (x : A) :
  In x (Sql.order_by keys rows) <-> In x rows.
Proof.
  unfold Sql.order_by. rewrite <- !list_elem_of_In.
  rewrite (merge_sort_Permutation (Sql.keys_le keys) rows). reflexivity.
Qed.

Lemma limit_offset_In {A} (l o : value) (rows out : list A) (x : A) :
  Sql.limit_offset l o rows = Ret out -> In x out -> In x rows.
Proof.
  unfold Sql.limit_offset. destruct l as [| |l]; try discriminate.
  destruct o as [| |o]; try discriminate.
  destruct ((0 <=? l) && (0 <=? o))%bool; [|discriminate].
  intros H Hx. injection H as <-. apply list_elem_of_In in Hx.
  apply list_elem_of_In.
  apply (subseteq_drop (Z.to_nat o)), (subseteq_take (Z.to_nat l)). exact Hx.
Qed.

Lemma limit_offset_Raise {A} (l o : Z) (rows : list A) (e : exn) :
  Sql.limit_offset (VInt l) (VInt o) rows = Raise e -> l < 0 \/ o < 0.
Proof.
  unfold Sql.limit_offset.
  destruct (0 <=? l) eqn:Hl; [|intros _; left; apply Z.leb_gt; exact Hl].
  destruct (0 <=? o) eqn:Ho; [discriminate|intros _; right; apply Z.leb_gt; exact Ho].
Qed.

(** The rows the statement returns are product lines. *)
Lemma search_articoli_per_cliente_rows_products (D : database) (ps : list value) :
  match Query.search_articoli_per_cliente_rows D ps with
  | Ret rows =>
      List.Forall
        (product_line "r_codicearti" "r_descrizione_riga" "r_descrizione_articolo")
        rows
  | Raise _ => True
  end.
Proof.
  unfold Query.search_articoli_per_cliente_rows.
  destruct (Sql.limit_offset _ _ _) as [ts|e] eqn:Hlim; [|exact I].
  apply List.Forall_forall. intros row Hrow.
  apply in_map_iff in Hrow. destruct Hrow as (t & <- & Ht).
  apply (limit_offset_In _ _ _ _ _ Hlim) in Ht.
  apply order_by_In in Ht. apply filter_In in Ht. destruct Ht as [_ Ht].
  apply (search_articoli_per_cliente_where_product ps t Ht).
Qed.

(** The item built from a product row is a product item. *)
Lemma item_of_product (row : dict) :
  product_line "r_codicearti" "r_descrizione_riga" "r_descrizione_articolo" row ->
  product_line "codicearti" "descrizione_riga" "descrizione_articolo"
    (QualityService.item_of (QualityService._extract_header row)
       (QualityService._extract_row row)).
Proof.
  unfold product_line, QualityService.item_of.
  rewrite !get_list_to_map. cbn [assoc String.eqb Ascii.eqb Bool.eqb default].
  unfold Py.get. rewrite !_extract_row_lookup. intros H. exact H.
Qed.

(** C3. On a server holding any database, for all filter values, limit
    and offset, [search_articoli_per_cliente] returns what the statement
    selects, and no row returned has an absent or empty item code, an item
    code that starts with CONAI or BANCALE in any letter case, or a line or
    item-master description that contains one of them; the same holds of
    the items the service builds from the rows.  The call fails only on a
    negative limit or offset. *)
Theorem search_articoli_per_cliente_excludes_sentinels
    (D : database) (settings : Settings) (db_name : option string)
    (tipodoc : option string) (year : option Z)
    (codicecf cliente_search articolo_search : option string) (limit offset : Z) :
  let params :=
    QualityRepositoryMYSQL.search_articoli_per_cliente_params tipodoc year codicecf
      cliente_search articolo_search limit offset in
  let rows :=
    fst (QualityRepositoryMYSQL.search_articoli_per_cliente (Server.mysql D) settings
           tipodoc year codicecf cliente_search articolo_search limit offset
           (new_world db_name)) in
  let items :=
    fst (QualityService.search_articoli_per_cliente
           (QualityRepositoryMYSQL.repository (Server.mysql D) settings)
           tipodoc year codicecf cliente_search articolo_search limit offset
           (new_world db_name)) in
  rows = Query.search_articoli_per_cliente_rows D params /\
  match rows with
  | Ret rows =>
      List.Forall
        (product_line "r_codicearti" "r_descrizione_riga" "r_descrizione_articolo")
        rows
  | Raise _ => limit < 0 \/ offset < 0
  end /\
  match items with
  | Ret items =>
      List.Forall
        (product_line "codicearti" "descrizione_riga" "descrizione_articolo") items
  | Raise _ => limit < 0 \/ offset < 0
  end.
Proof.
  cbv zeta.
  assert (Hrun :
    fst (QualityRepositoryMYSQL.search_articoli_per_cliente (Server.mysql D) settings
           tipodoc year codicecf cliente_search articolo_search limit offset
           (new_world db_name))
    = Query.search_articoli_per_cliente_rows D
        (QualityRepositoryMYSQL.search_articoli_per_cliente_params tipodoc year
           codicecf cliente_search articolo_search limit offset)).
  { unfold QualityRepositoryMYSQL.search_articoli_per_cliente.
    rewrite fetch_on_new_world, run_search_articoli_per_cliente by reflexivity.
    destruct (Query.search_articoli_per_cliente_rows D _); [|reflexivity].
    rewrite rows_or_empty_id. reflexivity. }
  assert (Hrows :
    match Query.search_articoli_per_cliente_rows D
            (QualityRepositoryMYSQL.search_articoli_per_cliente_params tipodoc year
               codicecf cliente_search articolo_search limit offset) with
    | Ret rows =>
        List.Forall
          (product_line "r_codicearti" "r_descrizione_riga" "r_descrizione_articolo")
          rows
    | Raise _ => limit < 0 \/ offset < 0
    end).
  { pose proof (search_articoli_per_cliente_rows_products D
                  (QualityRepositoryMYSQL.search_articoli_per_cliente_params tipodoc
                     year codicecf cliente_search articolo_search limit offset)) as H.
    destruct (Query.search_articoli_per_cliente_rows D _) as [rows|e] eqn:E;
      [exact H|].
    unfold Query.search_articoli_per_cliente_rows in E.
    destruct (Sql.limit_offset _ _ _) as [ts|e'] eqn:Hlim; [discriminate E|].
    exact (limit_offset_Raise limit offset _ e' Hlim). }
  split; [exact Hrun|]. split; [rewrite Hrun; exact Hrows|].
  unfold QualityService.search_articoli_per_cliente, bind.
  change (repo_search_articoli_per_cliente
            (QualityRepositoryMYSQL.repository (Server.mysql D) settings))
    with (QualityRepositoryMYSQL.search_articoli_per_cliente (Server.mysql D) settings).
  destruct (QualityRepositoryMYSQL.search_articoli_per_cliente (Server.mysql D)
              settings tipodoc year codicecf cliente_search articolo_search limit
              offset (new_world db_name)) as [[rows|e] w'] eqn:E;
    simpl in Hrun; rewrite <- Hrun in Hrows; simpl; [|exact Hrows].
  rewrite items_of_filter. apply List.Forall_forall. intros item Hitem.
  apply in_map_iff in Hitem. destruct Hitem as (row & <- & Hrow).
  apply filter_In in Hrow. destruct Hrow as [Hrow _].
  apply item_of_product.
  apply (proj1 (List.Forall_forall _ _) Hrows row Hrow).
Qed.

(** ** The document detail *)

Lemma value_cmp_antisym (a b : value) :
  Sql.value_cmp a b = CompOpp (Sql.value_cmp b a).
Proof.
  destruct a as [|x|x], b as [|y|y]; simpl; try reflexivity.
  - apply String.compare_antisym.
  - apply Z.compare_antisym.
Qed.

#[local] Instance get_scheda_lavoro_order_total :
  Total (Sql.keys_le Query.get_scheda_lavoro_order).
Proof.
  intros x y. unfold Sql.keys_le, Query.get_scheda_lavoro_order. simpl.
  rewrite (value_cmp_antisym (Query.col (j_r y) "numeroriga")).
  destruct (Sql.value_cmp (Query.col (j_r x) "numeroriga")
              (Query.col (j_r y) "numeroriga")); simpl.
  - left. discriminate.
  - left. discriminate.
  - right. discriminate.
Qed.

(** The [WHERE] clause of the detail, in plain terms. *)
Lemma get_scheda_lavoro_where_detail_line
    (tipodoc : string) (esanno : Z) (numerodoc : string) (t : joined) :
  Sql.holds
    (Query.get_scheda_lavoro_where [VStr tipodoc; VInt esanno; VStr numerodoc] t)
  = detail_line tipodoc esanno numerodoc t.
Proof.
  apply eq_true_iff_eq. rewrite holds_true.
  unfold Query.get_scheda_lavoro_where, detail_line.
  rewrite all3_true, !List.Forall_cons_iff.
  cbn [Query.param nth].
  rewrite !eq_true, is_not_null_true, neq_true.
  rewrite !andb_true_iff, !negb_true_iff, !bool_decide_eq_true, !bool_decide_eq_false.
  split.
  - intros ((H1 & _) & (H2 & _) & (H3 & _) & H4 & (H5 & _) & _). auto.
  - intros ((((H1 & H2) & H3) & H4) & H5).
    repeat split; try assumption; try (rewrite ?H1, ?H2, ?H3; discriminate).
    constructor.
Qed.

Lemma left_join_inhabited (t : list dict) (on : dict -> Sql.tv) :
  exists x, In x (Sql.left_join t on).
Proof.
  unfold Sql.left_join. destruct (Sql.inner_join t on) as [|x l].
  - exists ∅. left. reflexivity.
  - exists x. left. reflexivity.
Qed.

(** Every line of a document is joined to it at least once. *)
Lemma from_doctes_docrig_complete (D : database) (d r : dict) :
  In d (doctes D) -> In r (docrig D) ->
  Query.col r "tipodoc" = Query.col d "tipodoc" ->
  Query.col r "esanno" = Query.col d "esanno" ->
  Query.col r "numerodoc" = Query.col d "numerodoc" ->
  Query.col d "tipodoc" <> VNone ->
  Query.col d "esanno" <> VNone ->
  Query.col d "numerodoc" <> VNone ->
  exists a ma us, In (mk_joined d r a ma us) (Query.from_doctes_docrig D).
Proof.
  intros Hd Hr E1 E2 E3 N1 N2 N3.
  destruct (left_join_inhabited (anagrafe D)
              (fun a => Sql.eq (Query.col a "CODICE") (Query.col d "codicecf")))
    as (a & Ha).
  destruct (left_join_inhabited (magart D)
              (fun ma => Sql.eq (Query.col ma "CODICE") (Query.col r "codicearti")))
    as (ma & Hma).
  destruct (left_join_inhabited (u_scimp D)
              (fun us => Sql.eq (Query.col us "id_rigadoc") (Query.col r "id")))
    as (us & Hus).
  exists a, ma, us. unfold Query.from_doctes_docrig.
  apply in_flat_map. exists d. split; [exact Hd|].
  apply in_flat_map. exists r. split.
  - unfold Sql.inner_join. apply filter_In. split; [exact Hr|].
    apply holds_true.
    assert (H1 : Sql.eq (Query.col r "tipodoc") (Query.col d "tipodoc") = Some true)
      by (apply eq_true; split; congruence).
    assert (H2 : Sql.eq (Query.col r "esanno") (Query.col d "esanno") = Some true)
      by (apply eq_true; split; congruence).
    assert (H3 : Sql.eq (Query.col r "numerodoc") (Query.col d "numerodoc") = Some true)
      by (apply eq_true; split; congruence).
    rewrite H1, H2, H3. reflexivity.
  - apply in_flat_map. exists a. split; [exact Ha|].
    apply in_flat_map. exists ma. split; [exact Hma|].
    apply in_map_iff. exists us. split; [reflexivity|exact Hus].
Qed.

(** C2, as the code has it.  For a key whose type and number are not
    empty, [get_scheda_lavoro] on a server holding any database returns:
    one row for every joined line of the document with that key whose item
    code is neither NULL nor empty, and no other row; every such line of
    the document appears; every row carries the key in its header fields;
    the rows are in ascending order of line number; nothing is paginated
    and no other filter applies.  Lines without item code are left out. *)
Theorem get_scheda_lavoro_returns_lines_with_item_code
    (D : database) (settings : Settings) (db_name : option string)
    (tipodoc : string) (esanno : Z) (numerodoc : string) :
  tipodoc <> "" -> numerodoc <> "" ->
  exists rows,
    fst (QualityRepositoryMYSQL.get_scheda_lavoro (Server.mysql D) settings
           (Some tipodoc) esanno (Some numerodoc) (new_world db_name)) = Ret rows /\
    rows ≡ₚ map Query.get_scheda_lavoro_select
              (List.filter (detail_line tipodoc esanno numerodoc)
                 (Query.from_doctes_docrig D)) /\
    Sorted by_numeroriga rows /\
    List.Forall
      (fun row =>
         Py.get row "d_tipodoc" = VStr tipodoc /\
         Py.get row "d_esanno" = VInt esanno /\
         Py.get row "d_numerodoc" = VStr numerodoc /\
         Py.get row "r_codicearti" <> VNone /\
         Py.get row "r_codicearti" <> VStr "")
      rows /\
    (forall d r,
       In d (doctes D) -> In r (docrig D) ->
       Query.col d "tipodoc" = VStr tipodoc ->
       Query.col d "esanno" = VInt esanno ->
       Query.col d "numerodoc" = VStr numerodoc ->
       Query.col r "tipodoc" = VStr tipodoc ->
       Query.col r "esanno" = VInt esanno ->
       Query.col r "numerodoc" = VStr numerodoc ->
       Query.col r "codicearti" <> VNone ->
       Query.col r "codicearti" <> VStr "" ->
       exists a ma us,
         In (Query.get_scheda_lavoro_select (mk_joined d r a ma us)) rows).
Proof.
  intros Ht Hn.
  exists (Query.get_scheda_lavoro_rows D [VStr tipodoc; VInt esanno; VStr numerodoc]).
  assert (Hfilter :
    List.filter
      (fun t => Sql.holds
                  (Query.get_scheda_lavoro_where
                     [VStr tipodoc; VInt esanno; VStr numerodoc] t))
      (Query.from_doctes_docrig D)
    = List.filter (detail_line tipodoc esanno numerodoc) (Query.from_doctes_docrig D)).
  { apply filter_ext. intros t. apply get_scheda_lavoro_where_detail_line. }
  assert (Hperm :
    Query.get_scheda_lavoro_rows D [VStr tipodoc; VInt esanno; VStr numerodoc]
    ≡ₚ map Query.get_scheda_lavoro_select
         (List.filter (detail_line tipodoc esanno numerodoc)
            (Query.from_doctes_docrig D))).
  { unfold Query.get_scheda_lavoro_rows, Sql.order_by. rewrite Hfilter.
    apply fmap_Permutation, merge_sort_Permutation. }
  split; [|split; [exact Hperm|split; [|split]]].
  - unfold QualityRepositoryMYSQL.get_scheda_lavoro.
    assert (T1 : Py.truthy (Py.of_opt (Some tipodoc)) = true).
    { simpl. apply negb_true_iff, String.eqb_neq. exact Ht. }
    assert (T2 : Py.truthy (Py.of_opt (Some numerodoc)) = true).
    { simpl. apply negb_true_iff, String.eqb_neq. exact Hn. }
    rewrite T1, T2. cbn [negb].
    rewrite fetch_on_new_world, run_get_scheda_lavoro by reflexivity.
    rewrite rows_or_empty_id. reflexivity.
  - unfold Query.get_scheda_lavoro_rows, Sql.order_by.
    apply Sorted_fmap with (R1 := Sql.keys_le Query.get_scheda_lavoro_order).
    + intros x y Hxy. unfold by_numeroriga, Query.get_scheda_lavoro_select.
      rewrite !get_list_to_map.
      cbn [assoc app Query.select_header_full Query.select_riga_full
             Query.select_riga_min Query.select_quality
             String.eqb Ascii.eqb Bool.eqb default].
      unfold Sql.keys_le, Query.get_scheda_lavoro_order in Hxy.
      cbn [Sql.keys_cmp] in Hxy. cbv beta in Hxy. unfold id.
      intros E. apply Hxy. rewrite E. reflexivity.
    + apply Sorted_merge_sort. apply get_scheda_lavoro_order_total.
  - apply List.Forall_forall. intros row Hrow.
    apply list_elem_of_In in Hrow. rewrite Hperm in Hrow.
    apply list_elem_of_In, in_map_iff in Hrow. destruct Hrow as (t & <- & Hin).
    apply filter_In in Hin. destruct Hin as [_ Hline].
    unfold detail_line in Hline.
    rewrite !andb_true_iff, !negb_true_iff, !bool_decide_eq_true,
      !bool_decide_eq_false in Hline.
    destruct Hline as ((((H1 & H2) & H3) & H4) & H5).
    unfold Query.get_scheda_lavoro_select. rewrite !get_list_to_map.
    cbn [assoc app Query.select_header_full Query.select_riga_full
           Query.select_riga_min Query.select_quality
           String.eqb Ascii.eqb Bool.eqb default].
    auto.
  - intros d r Hd Hr D1 D2 D3 R1 R2 R3 C1 C2.
    destruct (from_doctes_docrig_complete D d r Hd Hr) as (a & ma & us & Hin);
      try congruence.
    exists a, ma, us. apply list_elem_of_In. rewrite Hperm. apply list_elem_of_In.
    apply in_map. apply filter_In. split; [exact Hin|].
    unfold detail_line. cbn [j_d j_r].
    rewrite !andb_true_iff, !negb_true_iff, !bool_decide_eq_true,
      !bool_decide_eq_false. auto.
Qed.

Lemma get_scheda_lavoro_returns_lines_with_item_code_witness :
  exists rows,
    fst (QualityRepositoryMYSQL.get_scheda_lavoro (Server.mysql Sample.D)
           Sample.settings (Some "OC") 2024 (Some "A-1")
           (new_world (Some "fox_staging"))) = Ret rows /\
    Sorted by_numeroriga rows.
Proof.
  destruct (get_scheda_lavoro_returns_lines_with_item_code Sample.D Sample.settings
              (Some "fox_staging") "OC" 2024 "A-1")
    as (rows & Hrun & _ & Hsorted & _).
  - discriminate.
  - discriminate.
  - exists rows. split; [exact Hrun|exact Hsorted].
Defined.

(** C2 as stated fails: line 2 of the sample document OC/2024/A-1 has an
    empty item code; it is one of the four lines of the document and it is
    not among the rows returned. *)
Lemma get_scheda_lavoro_omits_lines_without_item_code :
  map (fun r => Query.col r "numeroriga")
    (List.filter
       (fun r =>
          (bool_decide (Query.col r "tipodoc" = VStr "OC") &&
           bool_decide (Query.col r "esanno" = VInt 2024) &&
           bool_decide (Query.col r "numerodoc" = VStr "A-1"))%bool)
       (docrig Sample.D))
  = [VInt 2; VInt 1; VInt 3; VInt 4] /\
  exists rows,
    fst (QualityRepositoryMYSQL.get_scheda_lavoro (Server.mysql Sample.D)
           Sample.settings (Some "OC") 2024 (Some "A-1")
           (new_world (Some "fox_staging"))) = Ret rows /\
    map (fun row => Py.get row "r_numeroriga") rows = [VInt 1; VInt 3; VInt 4].
Proof.
  split.
  - vm_cast_no_check (@eq_refl (list value) [VInt 2; VInt 1; VInt 3; VInt 4]).
  - exists (Query.get_scheda_lavoro_rows Sample.D [VStr "OC"; VInt 2024; VStr "A-1"]).
    split.
    + vm_cast_no_check
        (@eq_refl (outcome (list dict))
           (Ret (Query.get_scheda_lavoro_rows Sample.D
                   [VStr "OC"; VInt 2024; VStr "A-1"]))).
    + vm_cast_no_check (@eq_refl (list value) [VInt 1; VInt 3; VInt 4]).
Qed.

(** ** The header search: template and parameter list *)


(** * Further properties of the code *)

(** ** [MySQLDb.connect] *)

(** X1. [connect] is idempotent on a live connection: the only driver call
    is the liveness probe and the instance is untouched.  Otherwise it
    calls [mysql.connector.connect] exactly once, with the target selected
    from the instance's database name; when the driver returns a
    connection the instance holds it, and when the driver raises the
    exception propagates and the instance is left as it was (a stale
    connection object included). *)
Theorem connect_opens_when_not_live
    (drv : driver) (settings : Settings) (w : world) :
  let result := connect drv settings w in
  let args := connect_args settings (_db_name (w_db w)) in
  if holds_live drv w then
    result = (Ret tt, {| w_db := w_db w; w_log := w_log w ++ probe_events w |})
  else
    w_log (snd result) = w_log w ++ probe_events w ++ [EvConnect args] /\
    match drv_connect drv (w_log w ++ probe_events w) args with
    | Ret c =>
        fst result = Ret tt /\
        w_db (snd result) = {| _db_name := _db_name (w_db w); _conn := Some c |}
    | Raise e => fst result = Raise e /\ w_db (snd result) = w_db w
    end.
Proof.
  cbv zeta.
  unfold holds_live, probe_events, connect, conn_is_live, bind, get_conn,
    conn_is_connected, get_db_name, mysql_connector_connect, set_conn, ret,
    log_event.
  destruct w as [[n oc] h]. cbn [w_db w_log _conn _db_name].
  destruct oc as [c|]; cbn [fst snd w_db w_log _conn _db_name].
  - destruct (drv_is_connected drv h c); cbn [fst snd w_db w_log _conn _db_name].
    + reflexivity.
    + destruct (drv_connect drv (h ++ [EvIsConnected c]) (connect_args settings n));
        cbn [fst snd w_db w_log _conn _db_name];
        rewrite <- ?app_assoc; repeat split.
  - rewrite app_nil_r.
    destruct (drv_connect drv h (connect_args settings n));
      cbn [fst snd w_db w_log _conn _db_name]; repeat split.
Qed.



(** ** [MySQLDb.execute] and [MySQLDb.execute_query] *)

Section StatementCalls.

Variable drv : driver.
Variables (query_type : QueryType) (sql : string) (params : option (list value)).

Local Abbreviation P := (statement_call query_type).

Local Ltac call :=
  let w := fresh "w" in
  intros w; eexists [_]; split; [reflexivity|repeat constructor].

Lemma statement_call_execute_body (c : conn) (k : cursor) :
  logs_only P (execute_body drv c k query_type sql params).
Proof.
  unfold execute_body. destruct (is_script query_type) eqn:Hs.
  - apply logs_only_bind.
    { unfold cursor_execute. call. }
    intros _. apply logs_only_bind.
    { intros w. eexists [_]. split; [reflexivity|].
      constructor; [|constructor]. simpl. destruct query_type; try discriminate Hs.
      reflexivity. }
    intros _. apply logs_only_ret.
  - apply logs_only_bind.
    { unfold cursor_execute. call. }
    intros _. destruct (is_read query_type) eqn:Hr.
    + apply logs_only_bind; [|intros rows; apply logs_only_ret].
      intros w. eexists [_]. split; [reflexivity|].
      constructor; [exact Hr|constructor].
    + apply logs_only_bind; [|intros _; apply logs_only_ret].
      intros w. eexists [_]. split; [reflexivity|].
      constructor; [exact Hr|constructor].
Qed.

Lemma statement_call_execute : logs_only P (execute drv query_type sql params).
Proof.
  unfold execute. apply logs_only_bind; [apply logs_only_get_conn|].
  intros [c|]; [|apply logs_only_raise].
  apply logs_only_bind; [unfold conn_is_connected; call|].
  intros [|]; simpl; [|apply logs_only_raise].
  apply logs_only_bind; [unfold conn_cursor; call|]. intros k.
  apply logs_only_try_finally; [|unfold cursor_close; call].
  apply logs_only_try_except; [apply statement_call_execute_body|].
  intros e. apply logs_only_bind; [unfold conn_rollback; call|].
  intros _. apply logs_only_raise.
Qed.

Lemma statement_call_execute_query (fetchall : bool) :
  logs_only P (execute_query drv sql params fetchall query_type).
Proof.
  unfold execute_query. destruct (is_read query_type).
  - apply logs_only_bind; [apply statement_call_execute|].
    intros rows. destruct fetchall, rows; apply logs_only_ret.
  - apply logs_only_bind; [apply statement_call_execute|].
    intros _. apply logs_only_ret.
Qed.

(** [execute] does not touch the instance. *)
Lemma execute_keeps_instance (w : world) :
  w_db (snd (execute drv query_type sql params w)) = w_db w.
Proof.
  unfold execute, execute_body, try_finally, try_except_Exception, bind, get_conn,
    conn_is_connected, conn_cursor, cursor_execute, cursor_fetchall, conn_commit,
    conn_rollback, cursor_close, ret, raise, log_event.
  destruct w as [db h]. cbn [w_db w_log fst snd].
  destruct (_conn db) as [c|]; [|reflexivity]. cbn [w_db w_log fst snd].
  destruct (drv_is_connected drv h c); [|reflexivity]. cbn [negb w_db w_log fst snd].
  destruct (drv_cursor drv _ c) as [k|e]; [|reflexivity]. cbn [w_db w_log fst snd].
  destruct (is_script query_type), (is_read query_type);
    cbn [w_db w_log fst snd];
    repeat
      (match goal with
       | |- context [match ?x with _ => _ end] =>
           match x with
           | drv_execute _ _ _ _ _ _ => destruct x as [[]|?]
           | drv_fetchall _ _ _ => destruct x as [?|?]
           | drv_commit _ _ _ => destruct x as [[]|?]
           | drv_rollback _ _ _ => destruct x as [[]|?]
           | drv_cursor_close _ _ _ => destruct x as [[]|?]
           | is_Exception _ => destruct x
           end
       | |- context [if ?x then _ else _] =>
           match x with
           | is_Exception _ => destruct x
           end
       end; cbn [w_db w_log fst snd]);
    reflexivity.
Qed.

End StatementCalls.

(** X3. What [execute] does and never does with the connection, for
    every driver, world, operation kind, statement and parameters: the
    instance is left as it was; no connection is opened or closed; rows
    are fetched only for SELECT/GET and [commit()] is called only for the
    other kinds, so that a read never commits. *)
Theorem execute_stays_on_its_connection
    (drv : driver) (query_type : QueryType) (sql : string)
    (params : option (list value)) (w : world) :
  let result := execute drv query_type sql params w in
  w_db (snd result) = w_db w /\
  exists calls,
    w_log (snd result) = w_log w ++ calls /\
    Forall (statement_call query_type) calls /\
    (if is_read query_type then Forall not_commit calls
     else Forall (fun ev => forall k, ev <> EvFetchall k) calls).
Proof.
  cbv zeta. split; [apply execute_keeps_instance|].
  destruct (statement_call_execute drv query_type sql params w) as (calls & E & F).
  exists calls. split; [exact E|]. split; [exact F|].
  destruct (is_read query_type) eqn:Hr.
  - eapply List.Forall_impl; [|exact F].
    intros [] H; simpl in *; try exact I. rewrite Hr in H. discriminate H.
  - eapply List.Forall_impl; [|exact F].
    intros [] H k' Hk; simpl in *; try discriminate Hk.
    rewrite Hr in H. discriminate H.
Qed.

(** X4. The success path of [execute] on a live connection, call by
    call: liveness probe, cursor, one [cursor.execute] carrying the
    statement, [params or None] and [multi] set for SCRIPT only, then
    [fetchall()] for a read or one [commit()] for the other kinds, then
    [cursor.close()].  A read returns the fetched rows, the other kinds
    return the empty list. *)
Theorem execute_success_path
    (drv : driver) (query_type : QueryType) (sql : string)
    (params : option (list value)) (w : world) (c : conn) (k : cursor)
    (rows : list dict) :
  let stmt := EvExecute k sql (params_or_None params) (is_script query_type) in
  let last := if is_read query_type then EvFetchall k else EvCommit c in
  let h := w_log w ++ [EvIsConnected c; EvCursor c] in
  _conn (w_db w) = Some c ->
  drv_is_connected drv (w_log w) c = true ->
  drv_cursor drv (w_log w ++ [EvIsConnected c]) c = Ret k ->
  drv_execute drv h k sql (params_or_None params) (is_script query_type) = Ret tt ->
  (if is_read query_type then drv_fetchall drv (h ++ [stmt]) k = Ret rows
   else drv_commit drv (h ++ [stmt]) c = Ret tt /\ rows = []) ->
  drv_cursor_close drv (h ++ [stmt; last]) k = Ret tt ->
  execute drv query_type sql params w
  = (Ret rows, {| w_db := w_db w; w_log := h ++ [stmt; last; EvCursorClose k] |}).
Proof.
  cbv zeta. intros Hc Hlive Hk Hx Hlast Hclose.
  unfold execute, bind, get_conn, conn_is_connected, conn_cursor, log_event.
  rewrite Hc. cbn [fst snd w_db w_log]. rewrite Hlive. cbn [negb].
  cbn [fst snd w_db w_log]. rewrite Hk.
  unfold try_finally, try_except_Exception, execute_body, bind, cursor_execute,
    cursor_fetchall, conn_commit, cursor_close, ret, log_event.
  rewrite <- !app_assoc in *. cbn [app] in *.
  destruct query_type; cbn [is_script is_read] in *;
    cbn [fst snd w_db w_log]; rewrite Hx; cbn [fst snd w_db w_log];
    rewrite <- ?app_assoc; cbn [app];
    first [rewrite Hlast | destruct Hlast as [Hcommit ->]; rewrite Hcommit];
    cbn [fst snd w_db w_log]; rewrite <- ?app_assoc; cbn [app];
    rewrite Hclose; reflexivity.
Qed.

Lemma execute_success_path_witness :
  let drv := Server.mysql Sample.D in
  let sql := QuerySqlQualityMYSQL.get_scheda_lavoro_sql in
  let params := [VStr "BA"; VInt 2024; VStr "B-7"] in
  let stmt := EvExecute 0%nat sql (Some params) false in
  execute drv GET sql (Some params) Faulty.connected
  = (Ret (Query.get_scheda_lavoro_rows Sample.D params),
     {| w_db := w_db Faulty.connected;
        w_log := (w_log Faulty.connected ++ [EvIsConnected 0%nat; EvCursor 0%nat]) ++
                 [stmt; EvFetchall 0%nat; EvCursorClose 0%nat] |}).
Proof.
  apply (execute_success_path (Server.mysql Sample.D) GET
           QuerySqlQualityMYSQL.get_scheda_lavoro_sql
           (Some [VStr "BA"; VInt 2024; VStr "B-7"]) Faulty.connected 0%nat 0%nat
           (Query.get_scheda_lavoro_rows Sample.D [VStr "BA"; VInt 2024; VStr "B-7"])).
  - reflexivity.
  - reflexivity.
  - reflexivity.
  - vm_compute. reflexivity.
  - cbn [is_read].
    vm_cast_no_check
      (@eq_refl (outcome (list dict))
         (Ret (Query.get_scheda_lavoro_rows Sample.D
                 [VStr "BA"; VInt 2024; VStr "B-7"]))).
  - reflexivity.
Defined.

(** X5. The [fetchall] flag of [execute_query].  The flag changes no
    driver call and no state: with either value the statement runs as
    [execute] runs it.  For SELECT/GET, [fetchall=True] returns the rows
    of [execute] and [fetchall=False] their first row as a list of one,
    or the empty list when there is none; for the other kinds the result
    is the empty list with either value. *)
Theorem execute_query_fetchall_flag
    (drv : driver) (query : string) (params : option (list value))
    (query_type : QueryType) (w : world) :
  let all := execute_query drv query params true query_type w in
  let one := execute_query drv query params false query_type w in
  let run := execute drv query_type query params w in
  snd all = snd run /\ snd one = snd run /\
  if is_read query_type then
    fst all = fst run /\
    fst one = match fst run with
              | Ret rows => Ret (take 1 rows)
              | Raise e => Raise e
              end
  else
    fst one = fst all /\
    fst all = match fst run with
              | Ret _ => Ret []
              | Raise e => Raise e
              end.
Proof.
  cbv zeta. unfold execute_query, bind, ret.
  destruct (is_read query_type);
    destruct (execute drv query_type query params w) as [[rows|e] w1];
    cbn [fst snd]; try destruct rows; repeat split.
Qed.

(** ** [QualityRepositoryMYSQL]: one connection per call *)

Lemma read_call_not_connect_commit (ev : event) :
  statement_call GET ev -> not_connect ev /\ not_commit ev.
Proof. destruct ev; simpl; intros H; try (split; exact I); try contradiction; discriminate H. Qed.

Lemma connect_new_world (drv : driver) (settings : Settings) (db_name : option string) :
  connect drv settings (new_world db_name)
  = match drv_connect drv [] (connect_args settings db_name) with
    | Ret c =>
        (Ret tt,
         {| w_db := {| _db_name := db_name; _conn := Some c |};
            w_log := [EvConnect (connect_args settings db_name)] |})
    | Raise e =>
        (Raise e,
         {| w_db := {| _db_name := db_name; _conn := None |};
            w_log := [EvConnect (connect_args settings db_name)] |})
    end.
Proof.
  unfold connect, conn_is_live, bind, get_conn, get_db_name,
    mysql_connector_connect, set_conn, ret, new_world, log_event.
  cbn [fst snd w_db w_log _conn _db_name app].
  destruct (drv_connect drv [] (connect_args settings db_name)); reflexivity.
Qed.

Lemma execute_query_keeps_instance (drv : driver) (query : string)
    (params : option (list value)) (fetchall : bool) (query_type : QueryType)
    (w : world) :
  w_db (snd (execute_query drv query params fetchall query_type w)) = w_db w.
Proof.
  unfold execute_query, bind, ret.
  pose proof (execute_keeps_instance drv query_type query params w) as K.
  destruct (is_read query_type);
    destruct (execute drv query_type query params w) as [[rows|e] w2];
    cbn [fst snd] in *; try exact K.
  destruct fetchall, rows; exact K.
Qed.

Lemma fetch_log (drv : driver) (settings : Settings)
    (db_name : option string) (sql : string) (params : list value) :
  let w := new_world db_name in
  let args := connect_args settings db_name in
  let result := QualityRepositoryMYSQL.fetch drv settings sql params w in
  w_db (snd result) = w_db w /\
  match drv_connect drv [] args with
  | Raise e => result = (Raise e, {| w_db := w_db w; w_log := [EvConnect args] |})
  | Ret c =>
      exists calls,
        Forall (statement_call GET) calls /\
        w_log (snd result)
        = EvConnect args :: calls ++
          EvIsConnected c ::
          (if drv_is_connected drv (EvConnect args :: calls) c
           then [EvConnClose c] else [])
  end.
Proof.
  cbv zeta.
  unfold QualityRepositoryMYSQL.fetch, with_DbManager, with_stmt, DbManager_enter,
    DbManager_exit, bind.
  rewrite connect_new_world.
  destruct (drv_connect drv [] (connect_args settings db_name)) as [c|e].
  2:{ split; reflexivity. }
  set (w1 := {| w_db := {| _db_name := db_name; _conn := Some c |};
                w_log := [EvConnect (connect_args settings db_name)] |}).
  destruct (statement_call_execute_query drv GET sql (Some params) true w1)
    as (calls & E & F).
  pose proof (execute_query_keeps_instance drv sql (Some params) true GET w1) as Hdb.
  destruct (execute_query drv sql (Some params) true GET w1) as [[rows|e] w2];
    cbn [fst snd] in *; rewrite close_spec;
    cbn [fst snd w_db w_log _conn _db_name]; unfold ret, raise;
    cbn [fst snd w_db w_log _conn _db_name];
    (split; [rewrite Hdb; reflexivity|]);
    exists calls; (split; [exact F|]);
    unfold close_events; rewrite Hdb, E; cbn [w1 w_db w_log _conn app]; reflexivity.
Qed.

(** X6. Every repository call on a [MySQLDb] just created opens one
    connection, to the target selected for the instance's database name,
    before any other driver call, and never commits.  When the driver
    refuses the connection the exception propagates and no further driver
    call is made.  Otherwise, whatever the outcome of the query, the last
    calls are the liveness probe of [close] and, when the connection is
    still live, its [close()].  In every case the instance ends as it
    started, holding no connection. *)
Theorem fetch_opens_one_connection
    (drv : driver) (settings : Settings)
    (db_name : option string) (sql : string) (params : list value) :
  let w := new_world db_name in
  let args := connect_args settings db_name in
  let result := QualityRepositoryMYSQL.fetch drv settings sql params w in
  w_db (snd result) = w_db w /\
  one_connect args (w_log (snd result)) /\
  match drv_connect drv [] args with
  | Raise e => result = (Raise e, {| w_db := w_db w; w_log := [EvConnect args] |})
  | Ret c =>
      exists calls,
        w_log (snd result)
        = EvConnect args :: calls ++
          EvIsConnected c ::
          (if drv_is_connected drv (EvConnect args :: calls) c
           then [EvConnClose c] else [])
  end.
Proof.
  cbv zeta.
  destruct (fetch_log drv settings db_name sql params) as (Hdb & Hlog).
  cbv zeta in Hlog. split; [exact Hdb|].
  destruct (drv_connect drv [] (connect_args settings db_name)) as [c|e].
  - destruct Hlog as (calls & F & E). split.
    + eexists. split; [exact E|].
      assert (G : Forall (fun ev => not_connect ev /\ not_commit ev) calls).
      { eapply List.Forall_impl; [|exact F]. exact read_call_not_connect_commit. }
      apply Forall_and in G. destruct G as [G1 G2].
      split; (apply Forall_app; split; [assumption|]);
        destruct (drv_is_connected drv _ c); repeat constructor.
    + exists calls. exact E.
  - rewrite Hlog. split; [|reflexivity].
    exists []. repeat split; constructor.
Qed.

(** ** The parameter lists of the other statements *)

Lemma search_clienti_options_sql_slots :
  count_placeholders QuerySqlQualityMYSQL.search_clienti_options_sql = 6%nat.
Proof. vm_compute. reflexivity. Qed.



(** X9. The detail lookup binds its key verbatim.  With a type and a
    number that are not empty, [get_scheda_lavoro] is the query of
    [get_scheda_lavoro_sql] with the three parameters type, year and
    number, in the order of the placeholders of the text and exactly as
    they were passed: unlike the filters of the searches, the type is not
    upper-cased and neither text is stripped.  The driver's
    parameter-count check accepts the list, and every [cursor.execute] of
    the call receives it with this statement. *)
Theorem get_scheda_lavoro_binds_key_verbatim
    (drv : driver) (settings : Settings) (tipodoc numerodoc : string) (esanno : Z) :
  tipodoc <> "" -> numerodoc <> "" ->
  let params := [ VStr tipodoc; VInt esanno; VStr numerodoc ] in
  QualityRepositoryMYSQL.get_scheda_lavoro drv settings
    (Some tipodoc) esanno (Some numerodoc)
  = QualityRepositoryMYSQL.fetch drv settings
      QuerySqlQualityMYSQL.get_scheda_lavoro_sql params
  /\ placeholders QuerySqlQualityMYSQL.get_scheda_lavoro_template
     = [ ph_tipodoc; ph_esanno; ph_numerodoc ]
  /\ length params = count_placeholders QuerySqlQualityMYSQL.get_scheda_lavoro_sql
  /\ Server.check_params QuerySqlQualityMYSQL.get_scheda_lavoro_sql
       (params_or_None (Some params)) = Ret tt
  /\ logs_only
       (executes QuerySqlQualityMYSQL.get_scheda_lavoro_sql (Some params) false)
       (QualityRepositoryMYSQL.get_scheda_lavoro drv settings
          (Some tipodoc) esanno (Some numerodoc)).
Proof.
  intros Ht Hn. cbv zeta.
  assert (E : QualityRepositoryMYSQL.get_scheda_lavoro drv settings
                (Some tipodoc) esanno (Some numerodoc)
              = QualityRepositoryMYSQL.fetch drv settings
                  QuerySqlQualityMYSQL.get_scheda_lavoro_sql
                  [ VStr tipodoc; VInt esanno; VStr numerodoc ]).
  { unfold QualityRepositoryMYSQL.get_scheda_lavoro,
      QualityRepositoryMYSQL.get_scheda_lavoro_params.
    cbn [Py.of_opt Py.truthy Py.str].
    apply String.eqb_neq in Ht. apply String.eqb_neq in Hn.
    rewrite Ht, Hn. reflexivity. }
  split; [exact E|].
  split; [reflexivity|].
  split; [rewrite get_scheda_lavoro_sql_slots; reflexivity|].
  split.
  - unfold Server.check_params. rewrite get_scheda_lavoro_sql_slots. reflexivity.
  - rewrite E.
    apply (logs_only_fetch drv settings QuerySqlQualityMYSQL.get_scheda_lavoro_sql).
Qed.

Lemma get_scheda_lavoro_binds_key_verbatim_witness :
  QualityRepositoryMYSQL.get_scheda_lavoro (Server.mysql Sample.D) Sample.settings
    (Some " oc ") 2024 (Some "A-1")
  = QualityRepositoryMYSQL.fetch (Server.mysql Sample.D) Sample.settings
      QuerySqlQualityMYSQL.get_scheda_lavoro_sql
      [ VStr " oc "; VInt 2024; VStr "A-1" ].
Proof.
  apply (get_scheda_lavoro_binds_key_verbatim (Server.mysql Sample.D) Sample.settings
           " oc " "A-1" 2024); discriminate.
Defined.

(** ** The searches on a server holding a database *)

Lemma any3_true (l : list Sql.tv) :
  Sql.any3 l = Some true <-> List.Exists (fun x => x = Some true) l.
Proof.
  induction l as [|x l IH]; simpl.
  - split; [discriminate|]. intros H. inversion H.
  - split.
    + intros H. destruct x as [[|]|].
      * left. reflexivity.
      * right. apply IH. destruct (Sql.any3 l) as [[|]|]; try discriminate H.
        reflexivity.
      * right. apply IH. destruct (Sql.any3 l) as [[|]|]; try discriminate H.
        reflexivity.
    + intros H. inversion H as [? ? Hx|? ? Hl]; subst.
      * reflexivity.
      * apply IH in Hl. rewrite Hl. destruct x as [[|]|]; reflexivity.
Qed.

Lemma or3_true (a b : Sql.tv) :
  Sql.or3 a b = Some true <-> a = Some true \/ b = Some true.
Proof.
  destruct a as [[|]|], b as [[|]|]; simpl; split; intros H;
    try reflexivity; try discriminate H; auto;
    destruct H as [H|H]; discriminate H.
Qed.

Lemma is_null_true (a : value) : Sql.is_null a = Some true <-> a = VNone.
Proof. destruct a; simpl; split; intros H; try reflexivity; discriminate H. Qed.

(** [(p IS NULL OR c = p)]. *)
Lemma exact_filter_passes (p c : value) :
  Sql.or3 (Sql.is_null p) (Sql.eq c p) = Some true -> passes p c.
Proof.
  intros H. apply or3_true in H. destruct H as [H|H].
  - left. apply is_null_true. exact H.
  - right. apply eq_true in H. destruct H as [H _]. exact H.
Qed.

(** [c IN ('OC', 'ON', 'BA', 'CB', 'BC', 'BO')]. *)
Lemma in_tipi_doc (c : value) :
  Sql.in_list c Query.tipi_doc_values = Some true ->
  exists t, c = VStr t /\ In t QuerySqlQualityMYSQL.TIPI_DOC_LAVORO.
Proof.
  unfold Sql.in_list. intros H. apply any3_true in H.
  apply List.Exists_exists in H. destruct H as (x & Hx & Hc).
  apply in_map_iff in Hx. destruct Hx as (v & <- & Hv).
  apply eq_true in Hc. destruct Hc as [-> _].
  unfold Query.tipi_doc_values in Hv. apply in_map_iff in Hv.
  destruct Hv as (t & <- & Ht). exists t. split; [reflexivity|exact Ht].
Qed.

(** A row of a recognized type passes the filter of the service. *)
Lemma recognized_kept (row : dict) :
  of_recognized_type (QualityService._extract_header row) -> kept row = true.
Proof.
  intros (t & Hget & Ht). unfold kept, QualityService.tip_of. rewrite Hget.
  simpl in Ht.
  destruct Ht as [<-|[<-|[<-|[<-|[<-|[<-|[]]]]]]]; reflexivity.
Qed.

Lemma filter_all {A} (f : A -> bool) (l : list A) :
  List.Forall (fun x => f x = true) l -> List.filter f l = l.
Proof.
  induction l as [|x l IH]; intros H; [reflexivity|].
  inversion H as [|? ? Hx Hl]; subst. simpl. rewrite Hx, (IH Hl). reflexivity.
Qed.

Lemma limit_offset_length {A} (l o : Z) (rows out : list A) :
  Sql.limit_offset (VInt l) (VInt o) rows = Ret out ->
  Z.of_nat (length out) <= l /\ 0 <= o.
Proof.
  unfold Sql.limit_offset.
  destruct (0 <=? l) eqn:Hl; [|discriminate].
  destruct (0 <=? o) eqn:Ho; [|discriminate].
  cbn [andb]. intros H. injection H as <-.
  apply Z.leb_le in Hl, Ho. split; [|exact Ho].
  rewrite length_take. lia.
Qed.

Lemma get_extract_header (row : dict) (k : string) :
  Py.get (QualityService._extract_header row) k = Py.get row ("d_" +:+ k).
Proof. unfold Py.get. rewrite _extract_header_lookup. reflexivity. Qed.

Lemma get_extract_row (row : dict) (k : string) :
  Py.get (QualityService._extract_row row) k = Py.get row ("r_" +:+ k).
Proof. unfold Py.get. rewrite _extract_row_lookup. reflexivity. Qed.

(** A document that passes the [WHERE] clause of the header search
    satisfies the exact filters. *)
Lemma search_schede_lavoro_where_matches
    (D : database)
    (tipodoc numerodoc : option string) (year : option Z)
    (codicecf fornitore_search articolo_search : option string) (limit offset : Z)
    (t : dict * dict) :
  Sql.holds
    (Query.search_schede_lavoro_where D
       (QualityRepositoryMYSQL.search_schede_lavoro_params tipodoc numerodoc year
          codicecf fornitore_search articolo_search limit offset) t) = true ->
  matches_filters tipodoc year codicecf
    (QualityService._extract_header (Query.search_schede_lavoro_select t)).
Proof.
  intros H. apply holds_true in H.
  unfold Query.search_schede_lavoro_where in H. cbv zeta in H.
  apply all3_true in H. rewrite !List.Forall_cons_iff in H.
  destruct H as (Hin & Ht & _ & Hy & Hc & _).
  unfold QualityRepositoryMYSQL.search_schede_lavoro_params in Ht, Hy, Hc.
  cbv zeta in Ht, Hy, Hc. cbn [Query.param nth] in Ht, Hy, Hc.
  apply in_tipi_doc in Hin.
  apply exact_filter_passes in Ht, Hy, Hc.
  unfold matches_filters, of_recognized_type.
  rewrite !get_extract_header. unfold Query.search_schede_lavoro_select.
  rewrite !get_list_to_map.
  cbn [assoc append Query.select_header_full String.eqb Ascii.eqb Bool.eqb default].
  repeat split; assumption.
Qed.

Lemma search_schede_lavoro_rows_match
    (D : database)
    (tipodoc numerodoc : option string) (year : option Z)
    (codicecf fornitore_search articolo_search : option string) (limit offset : Z) :
  match
    Query.search_schede_lavoro_rows D
      (QualityRepositoryMYSQL.search_schede_lavoro_params tipodoc numerodoc year
         codicecf fornitore_search articolo_search limit offset)
  with
  | Ret rows =>
      Z.of_nat (length rows) <= limit /\ 0 <= offset /\
      List.Forall
        (fun row =>
           matches_filters tipodoc year codicecf (QualityService._extract_header row))
        rows
  | Raise _ => limit < 0 \/ offset < 0
  end.
Proof.
  unfold Query.search_schede_lavoro_rows.
  set (ps := QualityRepositoryMYSQL.search_schede_lavoro_params tipodoc numerodoc
               year codicecf fornitore_search articolo_search limit offset).
  assert (P17 : Query.param ps 17 = VInt limit) by reflexivity.
  assert (P18 : Query.param ps 18 = VInt offset) by reflexivity.
  rewrite P17, P18.
  destruct (Sql.limit_offset (VInt limit) (VInt offset) _) as [ts|e] eqn:Hlim.
  - destruct (limit_offset_length _ _ _ _ Hlim) as [Hlen Hoff].
    rewrite length_map. split; [exact Hlen|]. split; [exact Hoff|].
    apply List.Forall_forall. intros row Hrow.
    apply in_map_iff in Hrow. destruct Hrow as (t & <- & Ht).
    apply (limit_offset_In _ _ _ _ _ Hlim) in Ht.
    apply order_by_In in Ht. apply filter_In in Ht. destruct Ht as [_ Ht].
    exact (search_schede_lavoro_where_matches D tipodoc numerodoc year codicecf
             fornitore_search articolo_search limit offset t Ht).
  - exact (limit_offset_Raise limit offset _ e Hlim).
Qed.

(** X10. The header search on a server holding any database.  When it
    returns, the rows are at most [limit]; every header is of one of the
    six recognized types and satisfies each exact filter that was
    supplied (type, compared after stripping and upper-casing the
    argument; year; counterparty code, compared after stripping); and the
    type check of the service drops none of the rows the statement
    returned: the service returns one header per row, in the same order.
    The call fails only on a negative limit or offset, and then the
    service fails with the same exception. *)
Theorem search_schede_lavoro_on_server
    (D : database) (settings : Settings) (db_name : option string)
    (tipodoc numerodoc : option string) (year : option Z)
    (codicecf fornitore_search articolo_search : option string) (limit offset : Z) :
  let repo := QualityRepositoryMYSQL.repository (Server.mysql D) settings in
  let raw :=
    fst (repo_search_schede_lavoro repo tipodoc numerodoc year codicecf
           fornitore_search articolo_search limit offset (new_world db_name)) in
  let out :=
    fst (QualityService.search_schede_lavoro repo tipodoc numerodoc year codicecf
           fornitore_search articolo_search limit offset (new_world db_name)) in
  match raw with
  | Ret rows =>
      out = Ret (map QualityService._extract_header rows) /\
      Z.of_nat (length rows) <= limit /\ 0 <= offset /\
      List.Forall (matches_filters tipodoc year codicecf)
        (map QualityService._extract_header rows)
  | Raise e => out = Raise e /\ (limit < 0 \/ offset < 0)
  end.
Proof.
  cbv zeta.
  unfold QualityService.search_schede_lavoro, bind.
  change (repo_search_schede_lavoro
            (QualityRepositoryMYSQL.repository (Server.mysql D) settings))
    with (QualityRepositoryMYSQL.search_schede_lavoro (Server.mysql D) settings).
  assert (Hrun :
    fst (QualityRepositoryMYSQL.search_schede_lavoro (Server.mysql D) settings
           tipodoc numerodoc year codicecf fornitore_search articolo_search limit
           offset (new_world db_name))
    = Query.search_schede_lavoro_rows D
        (QualityRepositoryMYSQL.search_schede_lavoro_params tipodoc numerodoc year
           codicecf fornitore_search articolo_search limit offset)).
  { unfold QualityRepositoryMYSQL.search_schede_lavoro.
    rewrite fetch_on_new_world, run_search_schede_lavoro by reflexivity.
    destruct (Query.search_schede_lavoro_rows D _); [|reflexivity].
    rewrite rows_or_empty_id. reflexivity. }
  pose proof (search_schede_lavoro_rows_match D tipodoc numerodoc year codicecf
                fornitore_search articolo_search limit offset) as Hrows.
  rewrite <- Hrun in Hrows.
  destruct (QualityRepositoryMYSQL.search_schede_lavoro (Server.mysql D) settings
              tipodoc numerodoc year codicecf fornitore_search articolo_search limit
              offset (new_world db_name)) as [[rows|e] w'];
    cbn [fst snd] in *; [|split; [reflexivity|exact Hrows]].
  destruct Hrows as (Hlen & Hoff & Hall).
  split.
  - unfold ret. cbn [fst]. f_equal. rewrite headers_of_filter. f_equal.
    apply filter_all. eapply List.Forall_impl; [|exact Hall].
    intros row (Hrec & _). apply recognized_kept. exact Hrec.
  - split; [exact Hlen|]. split; [exact Hoff|].
    apply Forall_map. exact Hall.
Qed.

(** A joined line that passes the [WHERE] clause of the line search
    satisfies the exact filters. *)
Lemma search_articoli_per_cliente_where_matches
    (tipodoc : option string) (year : option Z)
    (codicecf cliente_search articolo_search : option string) (limit offset : Z)
    (t : joined) :
  Sql.holds
    (Query.search_articoli_per_cliente_where
       (QualityRepositoryMYSQL.search_articoli_per_cliente_params tipodoc year
          codicecf cliente_search articolo_search limit offset) t) = true ->
  matches_filters tipodoc year codicecf
    (QualityService._extract_header (Query.search_articoli_per_cliente_select t)).
Proof.
  intros H. apply holds_true in H.
  unfold Query.search_articoli_per_cliente_where in H. cbv zeta in H.
  apply all3_true in H. rewrite !List.Forall_cons_iff in H.
  destruct H as (Hin & Ht & Hy & Hc & _).
  unfold QualityRepositoryMYSQL.search_articoli_per_cliente_params in Ht, Hy, Hc.
  cbv zeta in Ht, Hy, Hc. cbn [Query.param nth] in Ht, Hy, Hc.
  apply in_tipi_doc in Hin.
  apply exact_filter_passes in Ht, Hy, Hc.
  unfold matches_filters, of_recognized_type.
  rewrite !get_extract_header. unfold Query.search_articoli_per_cliente_select.
  rewrite !get_list_to_map.
  cbn [assoc app append Query.select_header_min Query.select_riga_min
         Query.select_quality String.eqb Ascii.eqb Bool.eqb default].
  split; [exact Hin|]. split; [exact Ht|]. split; [exact Hy|exact Hc].
Qed.

Lemma search_articoli_per_cliente_rows_match
    (D : database)
    (tipodoc : option string) (year : option Z)
    (codicecf cliente_search articolo_search : option string) (limit offset : Z) :
  match
    Query.search_articoli_per_cliente_rows D
      (QualityRepositoryMYSQL.search_articoli_per_cliente_params tipodoc year
         codicecf cliente_search articolo_search limit offset)
  with
  | Ret rows =>
      Z.of_nat (length rows) <= limit /\ 0 <= offset /\
      List.Forall
        (fun row =>
           matches_filters tipodoc year codicecf (QualityService._extract_header row))
        rows
  | Raise _ => limit < 0 \/ offset < 0
  end.
Proof.
  unfold Query.search_articoli_per_cliente_rows.
  set (ps := QualityRepositoryMYSQL.search_articoli_per_cliente_params tipodoc
               year codicecf cliente_search articolo_search limit offset).
  assert (P15 : Query.param ps 15 = VInt limit) by reflexivity.
  assert (P16 : Query.param ps 16 = VInt offset) by reflexivity.
  rewrite P15, P16.
  destruct (Sql.limit_offset (VInt limit) (VInt offset) _) as [ts|e] eqn:Hlim.
  - destruct (limit_offset_length _ _ _ _ Hlim) as [Hlen Hoff].
    rewrite length_map. split; [exact Hlen|]. split; [exact Hoff|].
    apply List.Forall_forall. intros row Hrow.
    apply in_map_iff in Hrow. destruct Hrow as (t & <- & Ht).
    apply (limit_offset_In _ _ _ _ _ Hlim) in Ht.
    apply order_by_In in Ht. apply filter_In in Ht. destruct Ht as [_ Ht].
    exact (search_articoli_per_cliente_where_matches tipodoc year codicecf
             cliente_search articolo_search limit offset t Ht).
  - exact (limit_offset_Raise limit offset _ e Hlim).
Qed.

(** The header fields of an item are those of the header of its row. *)
Lemma item_of_matches (tipodoc : option string) (year : option Z)
    (codicecf : option string) (row : dict) :
  matches_filters tipodoc year codicecf (QualityService._extract_header row) ->
  matches_filters tipodoc year codicecf
    (QualityService.item_of (QualityService._extract_header row)
       (QualityService._extract_row row)).
Proof.
  unfold matches_filters, of_recognized_type, QualityService.item_of.
  rewrite !get_list_to_map. cbn [assoc String.eqb Ascii.eqb Bool.eqb default].
  intros H. exact H.
Qed.

(** X11. The line search on a server holding any database.  When it
    returns, the rows are at most [limit]; the type check of the service
    drops none of them, so the service returns one item per row, in the
    same order; and every item is of one of the six recognized types and
    satisfies each exact filter that was supplied (type, year,
    counterparty code).  The call fails only on a negative limit or
    offset, and then the service fails with the same exception. *)
Theorem search_articoli_per_cliente_on_server
    (D : database) (settings : Settings) (db_name : option string)
    (tipodoc : option string) (year : option Z)
    (codicecf cliente_search articolo_search : option string) (limit offset : Z) :
  let repo := QualityRepositoryMYSQL.repository (Server.mysql D) settings in
  let raw :=
    fst (repo_search_articoli_per_cliente repo tipodoc year codicecf
           cliente_search articolo_search limit offset (new_world db_name)) in
  let out :=
    fst (QualityService.search_articoli_per_cliente repo tipodoc year codicecf
           cliente_search articolo_search limit offset (new_world db_name)) in
  let item row :=
    QualityService.item_of (QualityService._extract_header row)
      (QualityService._extract_row row) in
  match raw with
  | Ret rows =>
      out = Ret (map item rows) /\
      Z.of_nat (length rows) <= limit /\ 0 <= offset /\
      List.Forall (matches_filters tipodoc year codicecf) (map item rows)
  | Raise e => out = Raise e /\ (limit < 0 \/ offset < 0)
  end.
Proof.
  cbv zeta.
  unfold QualityService.search_articoli_per_cliente, bind.
  change (repo_search_articoli_per_cliente
            (QualityRepositoryMYSQL.repository (Server.mysql D) settings))
    with (QualityRepositoryMYSQL.search_articoli_per_cliente (Server.mysql D) settings).
  assert (Hrun :
    fst (QualityRepositoryMYSQL.search_articoli_per_cliente (Server.mysql D) settings
           tipodoc year codicecf cliente_search articolo_search limit offset
           (new_world db_name))
    = Query.search_articoli_per_cliente_rows D
        (QualityRepositoryMYSQL.search_articoli_per_cliente_params tipodoc year
           codicecf cliente_search articolo_search limit offset)).
  { unfold QualityRepositoryMYSQL.search_articoli_per_cliente.
    rewrite fetch_on_new_world, run_search_articoli_per_cliente by reflexivity.
    destruct (Query.search_articoli_per_cliente_rows D _); [|reflexivity].
    rewrite rows_or_empty_id. reflexivity. }
  pose proof (search_articoli_per_cliente_rows_match D tipodoc year codicecf
                cliente_search articolo_search limit offset) as Hrows.
  rewrite <- Hrun in Hrows.
  destruct (QualityRepositoryMYSQL.search_articoli_per_cliente (Server.mysql D)
              settings tipodoc year codicecf cliente_search articolo_search limit
              offset (new_world db_name)) as [[rows|e] w'];
    cbn [fst snd] in *; [|split; [reflexivity|exact Hrows]].
  destruct Hrows as (Hlen & Hoff & Hall).
  split.
  - unfold ret. cbn [fst]. f_equal. rewrite items_of_filter. f_equal.
    apply filter_all. eapply List.Forall_impl; [|exact Hall].
    intros row (Hrec & _). apply recognized_kept. exact Hrec.
  - split; [exact Hlen|]. split; [exact Hoff|].
    apply Forall_map. eapply List.Forall_impl; [|exact Hall].
    intros row Hrow. apply item_of_matches. exact Hrow.
Qed.

(** ** Text filters *)

(** [x LIKE '%%lit%%'] tests a substring. *)
Lemma like_match_contains2 (lit s : string) :
  plain lit = true -> Sql.like_match ("%%" +:+ lit +:+ "%%") s = Py.contains s lit.
Proof.
  intros Hp.
  assert (H : forall t, Sql.like_match (lit +:+ "%%") t = String.prefix lit t).
  { intros t. rewrite like_match_prefix by exact Hp. reflexivity. }
  assert (Inner : forall t,
             Sql.like_match (String "%" (lit +:+ "%%")) t = Py.contains t lit).
  { cbn [Sql.like_match]. rewrite Ascii.eqb_refl.
    induction t as [|c t IH].
    - cbn [Py.contains]. rewrite <- H. reflexivity.
    - cbn [Py.contains]. rewrite <- IH, <- H. reflexivity. }
  change ("%%" +:+ lit +:+ "%%") with (String "%" (String "%" (lit +:+ "%%"))).
  remember (String "%" (lit +:+ "%%")) as q eqn:Hq.
  cbn [Sql.like_match]. rewrite Ascii.eqb_refl.
  induction s as [|c s IH].
  - rewrite Inner. cbn [Py.contains]. rewrite orb_false_r. reflexivity.
  - rewrite IH, Inner. cbn [Py.contains].
    destruct (String.prefix lit (String c s)); [reflexivity|].
    cbn [orb]. apply orb_diag.
Qed.

(** [c LIKE CONCAT('%%', p, '%%')] with plain text bound to [p]. *)
Lemma like_param_contains (c : value) (lit : string) :
  plain lit = true ->
  Query.like_param c (VStr lit) = Some true ->
  exists s, Sql.text c = Some s /\ Py.contains s lit = true.
Proof.
  unfold Query.like_param. intros Hp H. unfold Sql.like in H.
  destruct (Sql.text c) as [s|] eqn:Hs; [|discriminate H].
  exists s. split; [reflexivity|].
  assert (E : Sql.like_match ("%%" +:+ lit +:+ "%%") s = true)
    by (injection H as H; exact H).
  rewrite like_match_contains2 in E by exact Hp. exact E.
Qed.

(** [(p IS NULL OR c1 LIKE CONCAT('%%', p, '%%') OR ...)]. *)
Lemma text_filter_mentions (p : value) (cs : list value) :
  Sql.any3 (Sql.is_null p :: map (fun c => Query.like_param c p) cs) = Some true ->
  mentions p cs.
Proof.
  intros H. unfold mentions. destruct p as [|lit|z]; try exact I.
  intros Hp. apply any3_true in H. inversion H as [? ? Hx|? ? Hl]; subst.
  - discriminate Hx.
  - apply List.Exists_exists in Hl. destruct Hl as (x & Hx & Hc).
    apply in_map_iff in Hx. destruct Hx as (c & <- & Hin).
    apply List.Exists_exists. exists c. split; [exact Hin|].
    apply like_param_contains; assumption.
Qed.

(** [(p IS NULL OR c LIKE CONCAT('%%', p, '%%'))]. *)
Lemma text_filter_mentions1 (p c : value) :
  Sql.or3 (Sql.is_null p) (Query.like_param c p) = Some true -> mentions p [c].
Proof.
  intros H. apply (text_filter_mentions p [c]). cbn [map Sql.any3].
  apply or3_true in H. destruct H as [H|H]; rewrite H; [reflexivity|].
  destruct (Sql.is_null p) as [[|]|]; reflexivity.
Qed.

(** X12. The number filter of the header search is a substring test.  On
    a server holding any database, when the stripped [numerodoc] argument
    is plain text (it holds none of the characters [%], [_] and
    backslash, which the statement hands to LIKE unescaped), the document
    number of every header returned contains it.  An absent or blank
    argument filters nothing: it binds NULL, and a document with its
    customer passes the WHERE clause exactly when it passes the fixed
    condition on the type and every filter, where a filter bound to NULL
    lets every row pass and the number filter bound to a value tests the
    number of the document against it. *)
Theorem search_schede_lavoro_number_filter
    (D : database) (settings : Settings) (db_name : option string)
    (tipodoc numerodoc : option string) (year : option Z)
    (codicecf fornitore_search articolo_search : option string) (limit offset : Z) :
  let repo := QualityRepositoryMYSQL.repository (Server.mysql D) settings in
  let out :=
    fst (QualityService.search_schede_lavoro repo tipodoc numerodoc year codicecf
           fornitore_search articolo_search limit offset (new_world db_name)) in
  let bound := or_None (Py.strip (or_empty numerodoc)) in
  let bound_of p :=
    QualityRepositoryMYSQL.bound_value p tipodoc numerodoc year codicecf
      fornitore_search articolo_search limit offset in
  let ps :=
    QualityRepositoryMYSQL.search_schede_lavoro_params tipodoc numerodoc year
      codicecf fornitore_search articolo_search limit offset in
  match out with
  | Ret headers =>
      List.Forall (fun h => mentions bound [Py.get h "numerodoc"]) headers
  | Raise _ => limit < 0 \/ offset < 0
  end /\
  (blank numerodoc -> bound = VNone) /\
  (forall d a,
     Sql.holds (Query.search_schede_lavoro_where D ps (d, a))
     = Sql.holds (Sql.in_list (Query.col d "tipodoc") Query.tipi_doc_values)
       && unless_absent (bound_of ph_tipodoc) (equals (Query.col d "tipodoc"))
       && unless_absent bound (like_one_of [Query.col d "numerodoc"])
       && unless_absent (bound_of ph_esanno) (equals (Query.col d "esanno"))
       && unless_absent (bound_of ph_codicecf) (equals (Query.col d "codicecf"))
       && unless_absent (bound_of ph_anagrafe)
            (like_one_of [Query.col a "DESCRIZION"; Query.col a "SUPRAGSOC"])
       && unless_absent (bound_of ph_articolo)
            (fun _ => Query.exists_riga D ps d)).
Proof.
  cbv zeta.
  split;
    [|split;
      [intros Hblank; apply blank_bound; exact Hblank
      |intros d a;
       exact (search_schede_lavoro_absent_unrestricted D tipodoc numerodoc year
                codicecf fornitore_search articolo_search limit offset d a)]].
  unfold QualityService.search_schede_lavoro, bind.
  change (repo_search_schede_lavoro
            (QualityRepositoryMYSQL.repository (Server.mysql D) settings))
    with (QualityRepositoryMYSQL.search_schede_lavoro (Server.mysql D) settings).
  assert (Hrun :
    fst (QualityRepositoryMYSQL.search_schede_lavoro (Server.mysql D) settings
           tipodoc numerodoc year codicecf fornitore_search articolo_search limit
           offset (new_world db_name))
    = Query.search_schede_lavoro_rows D
        (QualityRepositoryMYSQL.search_schede_lavoro_params tipodoc numerodoc year
           codicecf fornitore_search articolo_search limit offset)).
  { unfold QualityRepositoryMYSQL.search_schede_lavoro.
    rewrite fetch_on_new_world, run_search_schede_lavoro by reflexivity.
    destruct (Query.search_schede_lavoro_rows D _); [|reflexivity].
    rewrite rows_or_empty_id. reflexivity. }
  destruct (QualityRepositoryMYSQL.search_schede_lavoro (Server.mysql D) settings
              tipodoc numerodoc year codicecf fornitore_search articolo_search limit
              offset (new_world db_name)) as [[rows|e] w'];
    cbn [fst snd] in *; symmetry in Hrun;
    unfold Query.search_schede_lavoro_rows in Hrun;
    set (ps := QualityRepositoryMYSQL.search_schede_lavoro_params tipodoc numerodoc
                 year codicecf fornitore_search articolo_search limit offset) in *;
    assert (P17 : Query.param ps 17 = VInt limit) by reflexivity;
    assert (P18 : Query.param ps 18 = VInt offset) by reflexivity;
    rewrite P17, P18 in Hrun;
    destruct (Sql.limit_offset (VInt limit) (VInt offset) _) as [ts|e'] eqn:Hlim;
    try discriminate Hrun.
  - injection Hrun as <-. rewrite headers_of_filter.
    apply List.Forall_forall. intros h Hh.
    apply in_map_iff in Hh. destruct Hh as (row & <- & Hrow).
    apply filter_In in Hrow. destruct Hrow as [Hrow _].
    apply in_map_iff in Hrow. destruct Hrow as (t & <- & Ht).
    apply (limit_offset_In _ _ _ _ _ Hlim) in Ht.
    apply order_by_In in Ht. apply filter_In in Ht. destruct Ht as [_ Ht].
    apply holds_true in Ht.
    unfold Query.search_schede_lavoro_where in Ht. cbv zeta in Ht.
    apply all3_true in Ht. rewrite !List.Forall_cons_iff in Ht.
    destruct Ht as (_ & _ & Hn & _).
    unfold ps, QualityRepositoryMYSQL.search_schede_lavoro_params in Hn.
    cbv zeta in Hn. cbn [Query.param nth] in Hn.
    apply text_filter_mentions1 in Hn.
    rewrite get_extract_header. unfold Query.search_schede_lavoro_select.
    rewrite get_list_to_map.
    cbn [assoc append Query.select_header_full String.eqb Ascii.eqb Bool.eqb default].
    exact Hn.
  - exact (limit_offset_Raise limit offset _ e' Hlim).
Qed.

Lemma search_schede_lavoro_number_filter_witness :
  or_None (Py.strip (or_empty (Some "  "))) = VNone /\
  Sql.holds
    (Query.search_schede_lavoro_where Sample.D
       (QualityRepositoryMYSQL.search_schede_lavoro_params None (Some "  ") None
          None None None 50 0)
       (list_to_map [("tipodoc", VStr "OC"); ("numerodoc", VStr "A-1")], ∅))
  = true.
Proof.
  destruct (search_schede_lavoro_number_filter Sample.D Sample.settings
              (Some "fox_staging") None (Some "  ") None None None None 50 0)
    as (_ & Hbound & Hwhere).
  split; [apply Hbound; reflexivity|].
  rewrite Hwhere. reflexivity.
Defined.

(** ** [ORDER BY] and [LIMIT] *)

Lemma keys_cmp_antisym {A} (keys : list ((A -> value) * bool)) (x y : A) :
  Sql.keys_cmp keys y x = CompOpp (Sql.keys_cmp keys x y).
Proof.
  induction keys as [|[k desc] keys IH]; [reflexivity|].
  cbn [Sql.keys_cmp].
  destruct desc.
  - rewrite (value_cmp_antisym (k x) (k y)).
    destruct (Sql.value_cmp (k y) (k x)); simpl; [exact IH|reflexivity|reflexivity].
  - rewrite (value_cmp_antisym (k y) (k x)).
    destruct (Sql.value_cmp (k x) (k y)); simpl; [exact IH|reflexivity|reflexivity].
Qed.

Lemma keys_le_total {A} (keys : list ((A -> value) * bool)) :
  Total (Sql.keys_le keys).
Proof.
  intros x y. unfold Sql.keys_le. rewrite (keys_cmp_antisym keys x y).
  destruct (Sql.keys_cmp keys x y); simpl.
  - left. discriminate.
  - left. discriminate.
  - right. discriminate.
Qed.

Lemma Sorted_drop {A} (R : relation A) (n : nat) (l : list A) :
  Sorted R l -> Sorted R (drop n l).
Proof.
  revert l. induction n as [|n IH]; intros l H; [exact H|].
  destruct l as [|x l]; [constructor|]. simpl. apply IH.
  inversion H; assumption.
Qed.

Lemma Sorted_take {A} (R : relation A) (n : nat) (l : list A) :
  Sorted R l -> Sorted R (take n l).
Proof.
  revert n. induction l as [|x l IH]; intros n H; destruct n as [|n]; simpl;
    try constructor.
  - apply IH. inversion H; assumption.
  - inversion H as [|? ? _ Hh]; subst.
    destruct l as [|y l], n as [|n]; simpl; constructor.
    inversion Hh; assumption.
Qed.

(** The rows of a page are in the order of the [ORDER BY] clause. *)
Lemma limit_offset_order_by_Sorted {A}
    (keys : list ((A -> value) * bool)) (l o : value) (rows out : list A) :
  Sql.limit_offset l o (Sql.order_by keys rows) = Ret out ->
  Sorted (Sql.keys_le keys) out.
Proof.
  unfold Sql.limit_offset. destruct l as [| |l]; try discriminate.
  destruct o as [| |o]; try discriminate.
  destruct ((0 <=? l) && (0 <=? o))%bool; [|discriminate].
  intros H. injection H as <-.
  apply Sorted_take, Sorted_drop. unfold Sql.order_by.
  apply Sorted_merge_sort. apply keys_le_total.
Qed.

(** ** The customer options on a server holding a database *)

Lemma clienti_fetch_on_new_world (D : database) (settings : Settings)
    (db_name : option string) (sql : string) (params : list value) :
  fst (QualityRepositoryMYSQL.fetch (Clienti.mysql D) settings sql params
         (new_world db_name))
  = match Clienti.run_statement D sql (params_or_None (Some params)) with
    | Ret rows => Ret (rows_or_empty rows)
    | Raise e => Raise e
    end.
Proof.
  unfold QualityRepositoryMYSQL.fetch, with_DbManager, with_stmt, DbManager_enter,
    DbManager_exit, connect, conn_is_live, execute_query, execute, execute_body,
    try_finally, try_except_Exception, bind, get_conn, get_db_name, set_conn,
    mysql_connector_connect, conn_is_connected, conn_cursor, cursor_execute,
    cursor_fetchall, conn_rollback, cursor_close, ret, raise, new_world.
  cbn -[Clienti.run_statement params_or_None close].
  destruct (Clienti.run_statement D sql (params_or_None (Some params)))
    as [rows|e] eqn:Hrun.
  - cbn -[Clienti.run_statement params_or_None close].
    rewrite close_spec. reflexivity.
  - destruct (is_Exception e);
      cbn -[Clienti.run_statement params_or_None close];
      rewrite close_spec; reflexivity.
Qed.

Lemma run_search_clienti_options (D : database) (params : list value) :
  length params = 6%nat ->
  Clienti.run_statement D QuerySqlQualityMYSQL.search_clienti_options_sql
    (params_or_None (Some params))
  = Clienti.search_clienti_options_rows D params.
Proof.
  intros Hlen. destruct params as [|a r]; [discriminate Hlen|].
  unfold Clienti.run_statement, Server.check_params, params_or_None.
  rewrite String.eqb_refl, search_clienti_options_sql_slots, Hlen.
  reflexivity.
Qed.

(** The other statements are answered as by the server of [Server]. *)
Lemma clienti_run_statement_other (D : database) (sql : string)
    (params : option (list value)) :
  sql <> QuerySqlQualityMYSQL.search_clienti_options_sql ->
  Clienti.run_statement D sql params = Server.run_statement D sql params.
Proof.
  intros H. unfold Clienti.run_statement.
  apply String.eqb_neq in H. rewrite H. reflexivity.
Qed.

Lemma option_of_select (a : dict) :
  Clienti.option_of (Clienti.search_clienti_options_select a)
  = Clienti.search_clienti_options_select a.
Proof.
  unfold Clienti.option_of, Clienti.search_clienti_options_select.
  rewrite !get_list_to_map. reflexivity.
Qed.

Lemma options_of_acc (rows acc : list dict) :
  fold_left (fun out r => out ++ [Clienti.option_of r]) rows acc
  = acc ++ map Clienti.option_of rows.
Proof.
  revert acc. induction rows as [|r rows IH]; intros acc; simpl.
  - rewrite app_nil_r. reflexivity.
  - rewrite IH, <- app_assoc. reflexivity.
Qed.

(** A customer that passes the [WHERE] clause has a code and, when plain
    text is searched for, mentions it in its name, its alternative name
    or its code. *)
Lemma search_clienti_options_where_coded
    (cliente_search : option string) (limit offset : Z) (a : dict) :
  Sql.holds
    (Clienti.search_clienti_options_where
       (Clienti.search_clienti_options_params cliente_search limit offset) a) = true ->
  coded a = true /\
  mentions (or_None (Py.strip (or_empty cliente_search)))
    [ Query.col a "DESCRIZION"; Query.col a "SUPRAGSOC"; Query.col a "CODICE" ].
Proof.
  intros H. apply holds_true in H.
  unfold Clienti.search_clienti_options_where in H.
  apply all3_true in H. rewrite !List.Forall_cons_iff in H.
  destruct H as (Hn & He & Hq & _).
  apply is_not_null_true in Hn. apply neq_true in He. destruct He as (He & _).
  split.
  - unfold coded. rewrite andb_true_iff, !negb_true_iff, !bool_decide_eq_false.
    split; assumption.
  - unfold Clienti.search_clienti_options_params in Hq. cbv zeta in Hq.
    cbn [Query.param nth] in Hq.
    exact (text_filter_mentions _
             [ Query.col a "DESCRIZION"; Query.col a "SUPRAGSOC"; Query.col a "CODICE" ]
             Hq).
Qed.

(** X13. The customer options on a server holding any database.  When
    the call returns, the options are at most [limit]; each one is the
    pair code, name of a customer of the table whose code is neither NULL
    nor empty, the name being the alternative name when it is not NULL
    and the name otherwise, and the service hands the rows on with
    exactly these two keys; when plain text is searched for, the
    customer's name, alternative name or code contains it; the options
    are in ascending order of name, then code.  The call fails only on a
    negative limit or offset. *)
Theorem search_clienti_options_on_server
    (D : database) (settings : Settings) (db_name : option string)
    (cliente_search : option string) (limit offset : Z) :
  let repo := Clienti.repo_search_clienti_options (Clienti.mysql D) settings in
  let out :=
    fst (Clienti.search_clienti_options repo cliente_search limit offset
           (new_world db_name)) in
  match out with
  | Ret options =>
      out = fst (repo cliente_search limit offset (new_world db_name)) /\
      Z.of_nat (length options) <= limit /\ 0 <= offset /\
      Sorted by_name_then_code options /\
      List.Forall
        (fun o =>
           exists a,
             In a (anagrafe D) /\ coded a = true /\
             o = list_to_map
                   [ ("codicecf", Query.col a "CODICE");
                     ("cliente_nome",
                      match Query.col a "SUPRAGSOC" with
                      | VNone => Query.col a "DESCRIZION"
                      | name => name
                      end) ] /\
             mentions (or_None (Py.strip (or_empty cliente_search)))
               [ Query.col a "DESCRIZION"; Query.col a "SUPRAGSOC";
                 Query.col a "CODICE" ])
        options
  | Raise _ => limit < 0 \/ offset < 0
  end.
Proof.
  cbv zeta. unfold Clienti.search_clienti_options, bind.
  assert (Hrun :
    fst (Clienti.repo_search_clienti_options (Clienti.mysql D) settings
           cliente_search limit offset (new_world db_name))
    = Clienti.search_clienti_options_rows D
        (Clienti.search_clienti_options_params cliente_search limit offset)).
  { unfold Clienti.repo_search_clienti_options.
    rewrite clienti_fetch_on_new_world, run_search_clienti_options by reflexivity.
    destruct (Clienti.search_clienti_options_rows D _); [|reflexivity].
    rewrite rows_or_empty_id. reflexivity. }
  destruct (Clienti.repo_search_clienti_options (Clienti.mysql D) settings
              cliente_search limit offset (new_world db_name)) as [[rows|e] w'];
    cbn [fst snd] in *; symmetry in Hrun;
    unfold Clienti.search_clienti_options_rows in Hrun;
    set (ps := Clienti.search_clienti_options_params cliente_search limit offset) in *;
    assert (P4 : Query.param ps 4 = VInt limit) by reflexivity;
    assert (P5 : Query.param ps 5 = VInt offset) by reflexivity;
    rewrite P4, P5 in Hrun;
    destruct (Sql.limit_offset (VInt limit) (VInt offset) _) as [ts|e'] eqn:Hlim;
    try discriminate Hrun.
  2:{ exact (limit_offset_Raise limit offset _ e' Hlim). }
  injection Hrun as <-. unfold ret. cbn [fst].
  rewrite options_of_acc. cbn [app].
  assert (Hsame : map Clienti.option_of (map Clienti.search_clienti_options_select ts)
                  = map Clienti.search_clienti_options_select ts).
  { rewrite map_map. apply map_ext. intros a. apply option_of_select. }
  rewrite Hsame.
  destruct (limit_offset_length _ _ _ _ Hlim) as [Hlen Hoff].
  split; [reflexivity|].
  split; [rewrite length_map; exact Hlen|]. split; [exact Hoff|].
  split.
  - apply Sorted_fmap with (R1 := Sql.keys_le Clienti.search_clienti_options_order).
    + intros x y Hxy.
      unfold by_name_then_code, Clienti.search_clienti_options_select.
      rewrite !get_list_to_map.
      cbn [assoc String.eqb Ascii.eqb Bool.eqb default]. unfold id.
      unfold Sql.keys_le, Clienti.search_clienti_options_order in Hxy.
      cbn [Sql.keys_cmp] in Hxy.
      destruct (Sql.value_cmp (Clienti.cliente_nome x) (Clienti.cliente_nome y));
        [|exact I|exact (Hxy eq_refl)].
      destruct (Sql.value_cmp (Query.col x "CODICE") (Query.col y "CODICE"));
        [discriminate|discriminate|exact Hxy].
    + exact (limit_offset_order_by_Sorted _ _ _ _ _ Hlim).
  - apply List.Forall_forall. intros o Ho.
    apply in_map_iff in Ho. destruct Ho as (a & <- & Ha).
    apply (limit_offset_In _ _ _ _ _ Hlim) in Ha.
    apply order_by_In in Ha. apply filter_In in Ha. destruct Ha as [Hin Ha].
    destruct (search_clienti_options_where_coded cliente_search limit offset a Ha)
      as [Hcoded Hm].
    exists a. split; [exact Hin|]. split; [exact Hcoded|]. split; [|exact Hm].
    unfold Clienti.search_clienti_options_select, Clienti.cliente_nome, Sql.coalesce.
    destruct (Query.col a "SUPRAGSOC"); reflexivity.
Qed.

(** ** The order of the lists *)

(** X14. The lists come in the order of their [ORDER BY] clauses.  On a
    server holding any database, the headers [search_schede_lavoro]
    returns are sorted by document date, latest first, then by document
    number, highest first; the items [search_articoli_per_cliente]
    returns are sorted in the same way and, within a document, by
    ascending line number.  A NULL date or number sorts last and a NULL
    line number first. *)
Theorem lists_are_latest_first
    (D : database) (settings : Settings) (db_name : option string)
    (tipodoc numerodoc : option string) (year : option Z)
    (codicecf anagrafe_search articolo_search : option string) (limit offset : Z) :
  let repo := QualityRepositoryMYSQL.repository (Server.mysql D) settings in
  match
    fst (QualityService.search_schede_lavoro repo tipodoc numerodoc year codicecf
           anagrafe_search articolo_search limit offset (new_world db_name))
  with
  | Ret headers => Sorted (Sql.keys_le latest_first) headers
  | Raise _ => limit < 0 \/ offset < 0
  end /\
  match
    fst (QualityService.search_articoli_per_cliente repo tipodoc year codicecf
           anagrafe_search articolo_search limit offset (new_world db_name))
  with
  | Ret items => Sorted (Sql.keys_le latest_first_by_line) items
  | Raise _ => limit < 0 \/ offset < 0
  end.
Proof.
  cbv zeta. split.
  - pose proof (search_schede_lavoro_rows_match D tipodoc numerodoc year codicecf
                  anagrafe_search articolo_search limit offset) as Hrows.
    unfold QualityService.search_schede_lavoro, bind.
    change (repo_search_schede_lavoro
              (QualityRepositoryMYSQL.repository (Server.mysql D) settings))
      with (QualityRepositoryMYSQL.search_schede_lavoro (Server.mysql D) settings).
    assert (Hrun :
      fst (QualityRepositoryMYSQL.search_schede_lavoro (Server.mysql D) settings
             tipodoc numerodoc year codicecf anagrafe_search articolo_search limit
             offset (new_world db_name))
      = Query.search_schede_lavoro_rows D
          (QualityRepositoryMYSQL.search_schede_lavoro_params tipodoc numerodoc year
             codicecf anagrafe_search articolo_search limit offset)).
    { unfold QualityRepositoryMYSQL.search_schede_lavoro.
      rewrite fetch_on_new_world, run_search_schede_lavoro by reflexivity.
      destruct (Query.search_schede_lavoro_rows D _); [|reflexivity].
      rewrite rows_or_empty_id. reflexivity. }
    rewrite <- Hrun in Hrows.
    destruct (QualityRepositoryMYSQL.search_schede_lavoro (Server.mysql D) settings
                tipodoc numerodoc year codicecf anagrafe_search articolo_search limit
                offset (new_world db_name)) as [[rows|e] w'];
      cbn [fst snd] in *; [|exact Hrows].
    destruct Hrows as (_ & _ & Hall).
    rewrite headers_of_filter, filter_all.
    2:{ eapply List.Forall_impl; [|exact Hall].
        intros row (Hrec & _). apply recognized_kept. exact Hrec. }
    symmetry in Hrun. unfold Query.search_schede_lavoro_rows in Hrun.
    destruct (Sql.limit_offset _ _ _) as [ts|e'] eqn:Hlim; [|discriminate Hrun].
    injection Hrun as <-.
    pose proof (limit_offset_order_by_Sorted _ _ _ _ _ Hlim) as Hs.
    rewrite map_map.
    eapply Sorted_fmap; [|exact Hs].
    intros x y Hxy. unfold Sql.keys_le, latest_first in *.
    cbn [Sql.keys_cmp] in *. rewrite !get_extract_header.
    unfold Query.search_schede_lavoro_select. rewrite !get_list_to_map.
    cbn [assoc append Query.select_header_full String.eqb Ascii.eqb Bool.eqb default].
    unfold id. exact Hxy.
  - pose proof (search_articoli_per_cliente_rows_match D tipodoc year codicecf
                  anagrafe_search articolo_search limit offset) as Hrows.
    unfold QualityService.search_articoli_per_cliente, bind.
    change (repo_search_articoli_per_cliente
              (QualityRepositoryMYSQL.repository (Server.mysql D) settings))
      with (QualityRepositoryMYSQL.search_articoli_per_cliente (Server.mysql D)
              settings).
    assert (Hrun :
      fst (QualityRepositoryMYSQL.search_articoli_per_cliente (Server.mysql D)
             settings tipodoc year codicecf anagrafe_search articolo_search limit
             offset (new_world db_name))
      = Query.search_articoli_per_cliente_rows D
          (QualityRepositoryMYSQL.search_articoli_per_cliente_params tipodoc year
             codicecf anagrafe_search articolo_search limit offset)).
    { unfold QualityRepositoryMYSQL.search_articoli_per_cliente.
      rewrite fetch_on_new_world, run_search_articoli_per_cliente by reflexivity.
      destruct (Query.search_articoli_per_cliente_rows D _); [|reflexivity].
      rewrite rows_or_empty_id. reflexivity. }
    rewrite <- Hrun in Hrows.
    destruct (QualityRepositoryMYSQL.search_articoli_per_cliente (Server.mysql D)
                settings tipodoc year codicecf anagrafe_search articolo_search limit
                offset (new_world db_name)) as [[rows|e] w'];
      cbn [fst snd] in *; [|exact Hrows].
    destruct Hrows as (_ & _ & Hall).
    rewrite items_of_filter, filter_all.
    2:{ eapply List.Forall_impl; [|exact Hall].
        intros row (Hrec & _). apply recognized_kept. exact Hrec. }
    symmetry in Hrun. unfold Query.search_articoli_per_cliente_rows in Hrun.
    destruct (Sql.limit_offset _ _ _) as [ts|e'] eqn:Hlim; [|discriminate Hrun].
    injection Hrun as <-.
    pose proof (limit_offset_order_by_Sorted _ _ _ _ _ Hlim) as Hs.
    rewrite map_map.
    eapply Sorted_fmap; [|exact Hs].
    intros x y Hxy. unfold Sql.keys_le, latest_first_by_line in *.
    cbn [Sql.keys_cmp] in *. unfold QualityService.item_of.
    rewrite !get_list_to_map.
    cbn [assoc String.eqb Ascii.eqb Bool.eqb default].
    rewrite !get_extract_header, !get_extract_row.
    unfold Query.search_articoli_per_cliente_select. rewrite !get_list_to_map.
    cbn [assoc app append Query.select_header_min Query.select_riga_min
           Query.select_quality String.eqb Ascii.eqb Bool.eqb default].
    unfold id. exact Hxy.
Qed.

(** ** The document detail through the service *)

Lemma get_scheda_lavoro_filter
    (D : database) (tipodoc : string) (esanno : Z) (numerodoc : string) :
  List.filter
    (fun t => Sql.holds
                (Query.get_scheda_lavoro_where
                   [VStr tipodoc; VInt esanno; VStr numerodoc] t))
    (Query.from_doctes_docrig D)
  = List.filter (detail_line tipodoc esanno numerodoc) (Query.from_doctes_docrig D).
Proof. apply filter_ext. intros t. apply get_scheda_lavoro_where_detail_line. Qed.

Lemma get_scheda_lavoro_on_new_world
    (D : database) (settings : Settings) (db_name : option string)
    (tipodoc : string) (esanno : Z) (numerodoc : string) :
  tipodoc <> "" -> numerodoc <> "" ->
  fst (QualityRepositoryMYSQL.get_scheda_lavoro (Server.mysql D) settings
         (Some tipodoc) esanno (Some numerodoc) (new_world db_name))
  = Ret (map Query.get_scheda_lavoro_select
           (Sql.order_by Query.get_scheda_lavoro_order
              (List.filter (detail_line tipodoc esanno numerodoc)
                 (Query.from_doctes_docrig D)))).
Proof.
  intros Ht Hn. unfold QualityRepositoryMYSQL.get_scheda_lavoro.
  assert (T1 : Py.truthy (Py.of_opt (Some tipodoc)) = true).
  { simpl. apply negb_true_iff, String.eqb_neq. exact Ht. }
  assert (T2 : Py.truthy (Py.of_opt (Some numerodoc)) = true).
  { simpl. apply negb_true_iff, String.eqb_neq. exact Hn. }
  rewrite T1, T2. cbn [negb].
  rewrite fetch_on_new_world, run_get_scheda_lavoro by reflexivity.
  rewrite rows_or_empty_id. unfold Query.get_scheda_lavoro_rows.
  unfold QualityRepositoryMYSQL.get_scheda_lavoro_params. cbn [Py.of_opt Py.str].
  rewrite get_scheda_lavoro_filter. reflexivity.
Qed.

Lemma assoc_app_l (l1 l2 : list (string * value)) (key : string) (x : value) :
  assoc key l1 = Some x -> assoc key (l1 ++ l2) = Some x.
Proof.
  induction l1 as [|[k' v'] l1 IH]; intros Hx; [discriminate Hx|].
  simpl in *. destruct (String.eqb k' key); [exact Hx|]. apply IH. exact Hx.
Qed.

(** X15. The detail of a document through the service, on a server
    holding any database, for a key whose type and number are not empty.
    The call returns.  There is one entry in [righe] for every joined
    line of the document that carries an item code, in ascending order of
    line number, and each entry has a non-empty item code.  The header is
    [None] exactly when the document has no such line, also when the
    document itself exists; otherwise it is a non-empty mapping that
    carries the requested type, year and number. *)
Theorem get_scheda_lavoro_service_on_server
    (D : database) (settings : Settings) (db_name : option string)
    (tipodoc : string) (esanno : Z) (numerodoc : string) :
  tipodoc <> "" -> numerodoc <> "" ->
  let repo := QualityRepositoryMYSQL.repository (Server.mysql D) settings in
  let lines :=
    List.filter (detail_line tipodoc esanno numerodoc) (Query.from_doctes_docrig D) in
  exists s,
    fst (QualityService.get_scheda_lavoro repo (Some tipodoc) esanno (Some numerodoc)
           (new_world db_name)) = Ret s /\
    length (righe s) = length lines /\
    Sorted (Sql.keys_le by_line) (righe s) /\
    List.Forall
      (fun r => Py.get r "codicearti" <> VNone /\ Py.get r "codicearti" <> VStr "")
      (righe s) /\
    match header s with
    | None => lines = [] /\ righe s = []
    | Some h =>
        lines <> [] /\ h <> ∅ /\
        Py.get h "tipodoc" = VStr tipodoc /\
        Py.get h "esanno" = VInt esanno /\
        Py.get h "numerodoc" = VStr numerodoc
    end.
Proof.
  intros Ht Hn. cbv zeta.
  unfold QualityService.get_scheda_lavoro, bind.
  change (repo_get_scheda_lavoro
            (QualityRepositoryMYSQL.repository (Server.mysql D) settings))
    with (QualityRepositoryMYSQL.get_scheda_lavoro (Server.mysql D) settings).
  pose proof (get_scheda_lavoro_on_new_world D settings db_name tipodoc esanno
                numerodoc Ht Hn) as Hrun.
  destruct (QualityRepositoryMYSQL.get_scheda_lavoro (Server.mysql D) settings
              (Some tipodoc) esanno (Some numerodoc) (new_world db_name))
    as [[rows|e] w']; cbn [fst snd] in *; [|discriminate Hrun].
  injection Hrun as ->.
  set (lines := List.filter (detail_line tipodoc esanno numerodoc)
                  (Query.from_doctes_docrig D)).
  set (sorted := Sql.order_by Query.get_scheda_lavoro_order lines).
  assert (Hperm : sorted ≡ₚ lines) by apply merge_sort_Permutation.
  assert (Hline : List.Forall (fun t => detail_line tipodoc esanno numerodoc t = true)
                    sorted).
  { apply List.Forall_forall. intros t Hin. apply list_elem_of_In in Hin.
    rewrite Hperm in Hin. apply list_elem_of_In, filter_In in Hin. apply Hin. }
  assert (Hfields : forall t, detail_line tipodoc esanno numerodoc t = true ->
            Query.col (j_d t) "tipodoc" = VStr tipodoc /\
            Query.col (j_d t) "esanno" = VInt esanno /\
            Query.col (j_d t) "numerodoc" = VStr numerodoc /\
            Query.col (j_r t) "codicearti" <> VNone /\
            Query.col (j_r t) "codicearti" <> VStr "").
  { intros t H. unfold detail_line in H.
    rewrite !andb_true_iff, !negb_true_iff, !bool_decide_eq_true,
      !bool_decide_eq_false in H.
    destruct H as ((((H1 & H2) & H3) & H4) & H5). auto. }
  eexists. split; [reflexivity|].
  assert (Hrighe : righe (QualityService.scheda_of (map Query.get_scheda_lavoro_select sorted))
                   = map QualityService._extract_row
                       (map Query.get_scheda_lavoro_select sorted)).
  { destruct sorted; reflexivity. }
  rewrite Hrighe.
  split; [rewrite !length_map; apply Permutation_length; exact Hperm|].
  split.
  { rewrite map_map.
    apply Sorted_fmap with (R1 := Sql.keys_le Query.get_scheda_lavoro_order).
    - intros x y Hxy. unfold Sql.keys_le, by_line, Query.get_scheda_lavoro_order in *.
      cbn [Sql.keys_cmp] in *. rewrite !get_extract_row.
      unfold Query.get_scheda_lavoro_select. rewrite !get_list_to_map.
      cbn [assoc app append Query.select_header_full Query.select_riga_full
             Query.select_riga_min Query.select_quality
             String.eqb Ascii.eqb Bool.eqb default].
      unfold id. exact Hxy.
    - apply Sorted_merge_sort. apply keys_le_total. }
  split.
  { rewrite map_map. apply Forall_map.
    eapply List.Forall_impl; [|exact Hline].
    intros t H. apply Hfields in H. destruct H as (_ & _ & _ & H4 & H5).
    rewrite !get_extract_row. unfold Query.get_scheda_lavoro_select.
    rewrite !get_list_to_map.
    cbn [assoc app append Query.select_header_full Query.select_riga_full
           Query.select_riga_min Query.select_quality
           String.eqb Ascii.eqb Bool.eqb default].
    split; assumption. }
  destruct sorted as [|t0 rest] eqn:Hsorted.
  - cbn [map QualityService.scheda_of header]. split; [|reflexivity].
    apply Permutation_nil_l in Hperm. symmetry. exact Hperm.
  - cbn [map QualityService.scheda_of header].
    inversion Hline as [|? ? H0 _]; subst.
    apply Hfields in H0. destruct H0 as (H1 & H2 & H3 & _).
    assert (G : forall k v, Query.col (j_d t0) k = v ->
              assoc ("d_" +:+ k)
                (Query.select_header_full (j_d t0) (j_a t0)) = Some (Query.col (j_d t0) k) ->
              Py.get (QualityService._extract_header (Query.get_scheda_lavoro_select t0)) k = v).
    { intros k v Hv Ha. rewrite get_extract_header.
      unfold Query.get_scheda_lavoro_select. rewrite get_list_to_map.
      rewrite (assoc_app_l _ _ _ _ Ha). exact Hv. }
    assert (G1 := G "tipodoc" _ H1 eq_refl).
    assert (G2 := G "esanno" _ H2 eq_refl).
    assert (G3 := G "numerodoc" _ H3 eq_refl).
    split.
    { intros Hnil. rewrite Hnil in Hperm.
      apply Permutation_nil_r in Hperm. discriminate Hperm. }
    split.
    { intros Hempty. rewrite Hempty in G1. discriminate G1. }
    split; [exact G1|]. split; [exact G2|exact G3].
Qed.

Lemma get_scheda_lavoro_service_on_server_witness :
  exists s,
    fst (QualityService.get_scheda_lavoro Sample.repo (Some "OC") 2024 (Some "A-1")
           (new_world (Some "fox_staging"))) = Ret s /\
    length (righe s) = 3%nat /\
    match header s with
    | None => False
    | Some h => Py.get h "numerodoc" = VStr "A-1"
    end.
Proof.
  destruct (get_scheda_lavoro_service_on_server Sample.D Sample.settings
              (Some "fox_staging") "OC" 2024 "A-1")
    as (s & Hrun & Hlen & _ & _ & Hh).
  - discriminate.
  - discriminate.
  - exists s. split; [exact Hrun|]. split.
    + rewrite Hlen. vm_cast_no_check (@eq_refl nat 3%nat).
    + destruct (header s) as [h|].
      * destruct Hh as (_ & _ & _ & _ & H). exact H.
      * destruct Hh as [_ Hnil]. rewrite Hnil in Hlen.
        assert (E : length
                      (List.filter (detail_line "OC" 2024 "A-1")
                         (Query.from_doctes_docrig Sample.D)) = 3%nat)
          by (vm_cast_no_check (@eq_refl nat 3%nat)).
        rewrite E in Hlen. discriminate Hlen.
Defined.

(** ** Normalisation of the text filters *)















(** ** The request handlers *)

(** X17. The two detail handlers answer alike, up to the JSON encoding
    of the detail.  [api_get_document] raises its 404 inside the [try]
    block and re-raises it, while [view_quality_document_detail] raises
    it after the block; for every conversion of the year, repository,
    encoder, arguments and world the two end in the same world.  Where
    the view fails, with its [HTTPException] or an uncaught exception,
    the API fails alike.  Where the view answers 200, its header is
    neither [None] nor empty and the API answers 200 with the same
    header and lines when the encoder accepts them; when the encoder
    raises, the API answers the 500 of its [except Exception] where the
    view answers 200.  When the year of the path does not convert, the
    service is not called. *)
Theorem detail_handlers_agree
    (int : string -> outcome Z) (_repo : QualityRepository)
    (json_dumps : content -> option exn)
    (tipodoc esanno numerodoc : string) (w : world) :
  let api :=
    ApiRouter.api_get_document int _repo json_dumps tipodoc esanno numerodoc w in
  let view :=
    ViewRouter.view_quality_document_detail int _repo tipodoc esanno numerodoc w in
  snd api = snd view /\
  match fst view with
  | Respond status_code (DetailPage template h lines) =>
      let data := {| header := h; righe := lines |} in
      status_code = 200 /\ template = "quality/documenti_detail.html" /\
      no_header data = false /\
      fst api
      = match json_dumps (Document data) with
        | None => Respond 200 (Document data)
        | Some e => internal_error "Errore nel caricamento document qualità: " e
        end
  | Respond _ _ => False
  | failure => fst api = failure
  end /\
  match int esanno with
  | Raise e =>
      api = (internal_error "Errore nel caricamento document qualità: " e, w)
  | Ret y =>
      snd api
      = snd (QualityService.get_scheda_lavoro _repo (Some tipodoc) y
               (Some numerodoc) w)
  end.
Proof.
  cbv zeta.
  unfold ApiRouter.api_get_document, ViewRouter.view_quality_document_detail,
    ApiRouter.JSONResponse.
  destruct (int esanno) as [y|e].
  - destruct (QualityService.get_scheda_lavoro _repo (Some tipodoc) y
                (Some numerodoc) w) as [[data|e] w'].
    + destruct data as [h lines].
      destruct (no_header {| header := h; righe := lines |}) eqn:Hh;
        cbn [fst snd not_found header righe].
      * repeat split.
      * destruct (json_dumps (Document {| header := h; righe := lines |}));
          cbn [fst snd]; repeat split; exact Hh.
    + unfold internal_error. destruct (is_Exception e);
        cbn [fst snd]; repeat split.
  - unfold internal_error. destruct (is_Exception e);
      cbn [fst snd]; repeat split.
Qed.

Lemma lookup_list_to_map (l : list (string * value)) (k : string) :
  (list_to_map l : dict) !! k = assoc k l.
Proof.
  induction l as [|[k' v] l IH]; simpl.
  - apply lookup_empty.
  - destruct (String.eqb k' k) eqn:E.
    + apply String.eqb_eq in E. subst. apply lookup_insert_eq.
    + apply String.eqb_neq in E. rewrite lookup_insert_ne by exact E. exact IH.
Qed.

(** X18. [api_get_document] on a server holding any database, for a
    year that converts and a type and number that are not empty: the
    answer is 404 exactly when the document has no joined line with an
    item code.  Otherwise the service returns a detail whose header is
    not empty and whose [righe] has one entry for each such line, and
    the answer is a 200 carrying it when the encoder accepts it, the
    500 of the handler's [except Exception] when the encoder raises. *)
Theorem api_get_document_on_server
    (int : string -> outcome Z) (json_dumps : content -> option exn)
    (D : database) (settings : Settings) (db_name : option string)
    (tipodoc esanno numerodoc : string) (y : Z) :
  int esanno = Ret y -> tipodoc <> "" -> numerodoc <> "" ->
  let repo := QualityRepositoryMYSQL.repository (Server.mysql D) settings in
  let lines :=
    List.filter (detail_line tipodoc y numerodoc) (Query.from_doctes_docrig D) in
  let answer :=
    fst (ApiRouter.api_get_document int repo json_dumps tipodoc esanno numerodoc
           (new_world db_name)) in
  match lines with
  | [] => answer = not_found
  | _ :: _ =>
      exists data,
        fst (QualityService.get_scheda_lavoro repo (Some tipodoc) y
               (Some numerodoc) (new_world db_name)) = Ret data /\
        length (righe data) = length lines /\
        no_header data = false /\
        answer
        = match json_dumps (Document data) with
          | None => Respond 200 (Document data)
          | Some e => internal_error "Errore nel caricamento document qualità: " e
          end
  end.
Proof.
  intros Hy Ht Hn. cbv zeta.
  unfold ApiRouter.api_get_document, ApiRouter.JSONResponse. rewrite Hy.
  unfold QualityService.get_scheda_lavoro, bind.
  change (repo_get_scheda_lavoro
            (QualityRepositoryMYSQL.repository (Server.mysql D) settings))
    with (QualityRepositoryMYSQL.get_scheda_lavoro (Server.mysql D) settings).
  pose proof (get_scheda_lavoro_on_new_world D settings db_name tipodoc y
                numerodoc Ht Hn) as Hrun.
  destruct (QualityRepositoryMYSQL.get_scheda_lavoro (Server.mysql D) settings
              (Some tipodoc) y (Some numerodoc) (new_world db_name))
    as [[rows|e] w']; cbn [fst snd] in *; [|discriminate Hrun].
  injection Hrun as ->. unfold ret.
  set (lines := List.filter (detail_line tipodoc y numerodoc)
                  (Query.from_doctes_docrig D)).
  assert (Hperm : Sql.order_by Query.get_scheda_lavoro_order lines ≡ₚ lines)
    by apply merge_sort_Permutation.
  destruct lines as [|t lines'] eqn:Hlines.
  - apply Permutation_nil_r in Hperm. rewrite Hperm. reflexivity.
  - destruct (Sql.order_by Query.get_scheda_lavoro_order (t :: lines'))
      as [|t0 rest] eqn:Hsorted.
    { apply Permutation_nil_l in Hperm. discriminate Hperm. }
    assert (Hh : no_header
                   (QualityService.scheda_of
                      (map Query.get_scheda_lavoro_select (t0 :: rest))) = false).
    { unfold no_header. cbn [map QualityService.scheda_of header].
      apply bool_decide_eq_false. intros Hempty.
      assert (G : QualityService._extract_header (Query.get_scheda_lavoro_select t0)
                  !! "tipodoc" = Some (Query.col (j_d t0) "tipodoc")).
      { rewrite _extract_header_lookup. unfold Query.get_scheda_lavoro_select.
        rewrite lookup_list_to_map. reflexivity. }
      rewrite Hempty, lookup_empty in G. discriminate G. }
    cbn [fst]. rewrite Hh.
    exists (QualityService.scheda_of
              (map Query.get_scheda_lavoro_select (t0 :: rest))).
    split; [reflexivity|]. split; [|split; [exact Hh|]].
    + cbn [QualityService.scheda_of righe map]. cbn [length].
      rewrite !length_map. apply Permutation_length in Hperm.
      cbn [length] in Hperm. exact Hperm.
    + destruct (json_dumps _); reflexivity.
Qed.

Lemma api_get_document_on_server_witness :
  exists data,
    fst (ApiRouter.api_get_document (fun _ => Ret 2024) Sample.repo
           (fun _ => None) "OC" "2024" "A-1" (new_world (Some "fox_staging")))
    = Respond 200 (Document data) /\
    length (righe data) = 3%nat.
Proof.
  assert (H := api_get_document_on_server (fun _ => Ret 2024) (fun _ => None)
                 Sample.D Sample.settings (Some "fox_staging") "OC" "2024" "A-1"
                 2024).
  specialize (H eq_refl).
  assert (H1 : "OC"%string <> ""%string) by discriminate.
  assert (H2 : "A-1"%string <> ""%string) by discriminate.
  specialize (H H1 H2). cbv zeta in H.
  assert (E : length
                (List.filter (detail_line "OC" 2024 "A-1")
                   (Query.from_doctes_docrig Sample.D)) = 3%nat)
    by (vm_cast_no_check (@eq_refl nat 3%nat)).
  destruct (List.filter (detail_line "OC" 2024 "A-1")
              (Query.from_doctes_docrig Sample.D)) as [|t l];
    [discriminate E|].
  destruct H as (data & _ & Hl & _ & Hr). exists data.
  split; [exact Hr|]. rewrite Hl. exact E.
Defined.

Lemma blank_and_strip (o : option string) : blank o -> and_strip o = false.
Proof.
  destruct o as [s|]; [|reflexivity]. unfold blank, and_strip. intros H.
  rewrite H. destruct (Py.truthy (VStr s)); reflexivity.
Qed.

Lemma not_blank_and_strip (o : option string) : ~ blank o -> and_strip o = true.
Proof.
  destruct o as [s|]; unfold blank, and_strip; [|intros H; destruct (H I)].
  intros H. cbn [Py.truthy].
  destruct (String.eqb s "") eqn:E.
  - apply String.eqb_eq in E. subst. destruct (H eq_refl).
  - cbn [negb]. apply negb_true_iff, String.eqb_neq. exact H.
Qed.

(** X19. The first page of the lines by customer makes no query.  When
    no filter holds text (each of type, year, customer code, customer
    text and item text is absent, empty or blank), the handler answers
    200 with an empty list, whatever limit and offset are, without
    converting the year and without calling the service: the world is
    left as it was. *)
Theorem view_quality_articoli_cliente_without_filters
    (int : string -> outcome Z) (_repo : QualityRepository)
    (tipodoc year codicecf cliente_search articolo_search : option string)
    (offset limit : option Z) (w : world) :
  blank tipodoc -> blank year -> blank codicecf -> blank cliente_search ->
  blank articolo_search ->
  ViewRouter.view_quality_articoli_cliente int _repo tipodoc year codicecf
    cliente_search articolo_search offset limit w
  = (Respond 200
       (ListPage "quality/articoli_per_cliente.html" []
          [ ("tipodoc", Py.of_opt tipodoc);
            ("year", Py.of_opt year);
            ("codicecf", Py.of_opt codicecf);
            ("cliente_search", Py.of_opt cliente_search);
            ("articolo_search", Py.of_opt articolo_search);
            ("limit", int_or_None limit);
            ("offset", int_or_None offset) ]),
     w).
Proof.
  intros Ht Hy Hc Hcl Ha.
  unfold ViewRouter.view_quality_articoli_cliente, ViewRouter.articoli_cliente_rows.
  assert (Hyear : ViewRouter.year_int int year = inr None).
  { unfold ViewRouter.year_int. destruct year as [y|]; [|reflexivity].
    unfold blank in Hy. rewrite Hy. reflexivity. }
  rewrite Hyear.
  rewrite (blank_and_strip _ Ht), (blank_and_strip _ Hc), (blank_and_strip _ Hcl),
    (blank_and_strip _ Ha).
  reflexivity.
Qed.

Lemma view_quality_articoli_cliente_without_filters_witness :
  ViewRouter.view_quality_articoli_cliente (fun _ => Raise Faulty.lost) Sample.repo
    (Some "   ") (Some "") None (Some " ") None (Some 20) (Some 10) Sample.fresh
  = (Respond 200
       (ListPage "quality/articoli_per_cliente.html" []
          [ ("tipodoc", VStr "   ");
            ("year", VStr "");
            ("codicecf", VNone);
            ("cliente_search", VStr " ");
            ("articolo_search", VNone);
            ("limit", VInt 10);
            ("offset", VInt 20) ]),
     Sample.fresh).
Proof.
  apply (view_quality_articoli_cliente_without_filters
           (fun _ => Raise Faulty.lost) Sample.repo
           (Some "   ") (Some "") None (Some " ") None (Some 20) (Some 10)
           Sample.fresh); simpl; reflexivity.
Defined.

(** X20. With a customer code the lines are not paginated.  When the
    customer code holds text, the [try] block of
    [view_quality_articoli_cliente] is the search of the service with
    limit 100000 and offset 0, whatever the other filters are: the limit
    and the offset of the request are not used, and two requests that
    differ in them only run the same search. *)
Theorem view_quality_articoli_cliente_by_customer
    (_repo : QualityRepository)
    (tipodoc : option string) (year_int : option Z)
    (codicecf cliente_search articolo_search : option string)
    (offset limit offset' limit' : option Z) :
  ~ blank codicecf ->
  ViewRouter.articoli_cliente_rows _repo tipodoc year_int codicecf cliente_search
    articolo_search offset limit
  = QualityService.search_articoli_per_cliente _repo
      (strip_upper_if tipodoc) year_int (strip_if codicecf)
      (strip_if cliente_search) (strip_if articolo_search) 100000 0
  /\ ViewRouter.articoli_cliente_rows _repo tipodoc year_int codicecf cliente_search
       articolo_search offset limit
     = ViewRouter.articoli_cliente_rows _repo tipodoc year_int codicecf
         cliente_search articolo_search offset' limit'.
Proof.
  intros Hc. unfold ViewRouter.articoli_cliente_rows.
  rewrite (not_blank_and_strip _ Hc), !orb_true_r.
  split; reflexivity.
Qed.

Lemma view_quality_articoli_cliente_by_customer_witness :
  ViewRouter.articoli_cliente_rows Sample.repo None None (Some " C001 ") None None
    (Some 30) (Some 10)
  = QualityService.search_articoli_per_cliente Sample.repo
      None None (Some "C001") None None 100000 0.
Proof.
  assert (H : ~ blank (Some " C001 ")) by (simpl; discriminate).
  destruct (view_quality_articoli_cliente_by_customer Sample.repo None None
              (Some " C001 ") None None (Some 30) (Some 10) None None H) as [E _].
  exact E.
Defined.

Lemma search_schede_lavoro_service_run
    (D : database) (settings : Settings) (db_name : option string)
    (tipodoc numerodoc : option string) (year : option Z)
    (codicecf fornitore_search articolo_search : option string) (limit offset : Z) :
  fst (QualityService.search_schede_lavoro
         (QualityRepositoryMYSQL.repository (Server.mysql D) settings)
         tipodoc numerodoc year codicecf fornitore_search articolo_search limit offset
         (new_world db_name))
  = match
      Query.search_schede_lavoro_rows D
        (QualityRepositoryMYSQL.search_schede_lavoro_params tipodoc numerodoc year
           codicecf fornitore_search articolo_search limit offset)
    with
    | Ret rows => Ret (QualityService.headers_of rows)
    | Raise e => Raise e
    end.
Proof.
  unfold QualityService.search_schede_lavoro, bind.
  change (repo_search_schede_lavoro
            (QualityRepositoryMYSQL.repository (Server.mysql D) settings))
    with (QualityRepositoryMYSQL.search_schede_lavoro (Server.mysql D) settings).
  assert (Hrun :
    fst (QualityRepositoryMYSQL.search_schede_lavoro (Server.mysql D) settings
           tipodoc numerodoc year codicecf fornitore_search articolo_search limit
           offset (new_world db_name))
    = Query.search_schede_lavoro_rows D
        (QualityRepositoryMYSQL.search_schede_lavoro_params tipodoc numerodoc year
           codicecf fornitore_search articolo_search limit offset)).
  { unfold QualityRepositoryMYSQL.search_schede_lavoro.
    rewrite fetch_on_new_world, run_search_schede_lavoro by reflexivity.
    destruct (Query.search_schede_lavoro_rows D _); [|reflexivity].
    rewrite rows_or_empty_id. reflexivity. }
  rewrite <- Hrun.
  destruct (QualityRepositoryMYSQL.search_schede_lavoro (Server.mysql D) settings
              tipodoc numerodoc year codicecf fornitore_search articolo_search limit
              offset (new_world db_name)) as [[rows|e] w']; reflexivity.
Qed.

(** X21. [api_list_documents] serves the first page only.  The handler
    passes neither limit nor offset, and the list of types of the request
    has no effect.  On a server holding any database the service always
    returns, with at most 50 headers, each of a recognized type and
    satisfying the year and customer-code filters that were supplied; the
    answer is a 200 carrying them when the encoder accepts them, and the
    500 of the handler's [except Exception] when the encoder raises. *)
Theorem api_list_documents_first_page
    (json_dumps : content -> option exn)
    (D : database) (settings : Settings) (db_name : option string)
    (year : option Z) (codicecf cliente_search text_search : option string)
    (tipi_doc : option (list string)) :
  let repo := QualityRepositoryMYSQL.repository (Server.mysql D) settings in
  ApiRouter.api_list_documents repo json_dumps year codicecf cliente_search
    text_search tipi_doc
  = ApiRouter.api_list_documents repo json_dumps year codicecf cliente_search
      text_search None
  /\ exists headers,
       fst (QualityService.list_schede_lavoro repo year codicecf cliente_search
              text_search (tuple_if tipi_doc) 50 0 (new_world db_name))
       = Ret headers /\
       (length headers <= 50)%nat /\
       List.Forall (matches_filters None year codicecf) headers /\
       fst (ApiRouter.api_list_documents repo json_dumps year codicecf
              cliente_search text_search tipi_doc (new_world db_name))
       = match json_dumps (Items headers) with
         | None => Respond 200 (Items headers)
         | Some e => internal_error "Errore nel caricamento documents: " e
         end.
Proof.
  cbv zeta. split; [reflexivity|].
  unfold ApiRouter.api_list_documents, ApiRouter.JSONResponse,
    QualityService.list_schede_lavoro.
  pose proof (search_schede_lavoro_service_run D settings db_name None None year
                codicecf cliente_search text_search 50 0) as Hrun.
  pose proof (search_schede_lavoro_rows_match D None None year codicecf
                cliente_search text_search 50 0) as Hrows.
  destruct (QualityService.search_schede_lavoro
              (QualityRepositoryMYSQL.repository (Server.mysql D) settings)
              None None year codicecf cliente_search text_search 50 0
              (new_world db_name)) as [[headers|e] w'];
    cbn [fst snd] in *;
    destruct (Query.search_schede_lavoro_rows D _) as [rows|e'];
    try discriminate Hrun; [|lia].
  injection Hrun as ->. destruct Hrows as (Hlen & _ & Hall).
  exists (QualityService.headers_of rows). split; [reflexivity|].
  rewrite headers_of_filter, filter_all.
  2:{ eapply List.Forall_impl; [|exact Hall].
      intros row (Hrec & _). apply recognized_kept. exact Hrec. }
  split; [rewrite length_map; lia|]. split; [apply Forall_map; exact Hall|].
  destruct (json_dumps _); reflexivity.
Qed.

Lemma limit_offset_Raise_syntax {A} (l o : value) (rows : list A) (e : exn) :
  Sql.limit_offset l o rows = Raise e -> e = Sql.syntax_error.
Proof.
  unfold Sql.limit_offset. destruct l as [| |l]; try (intros H; congruence).
  destruct o as [| |o]; try (intros H; congruence).
  destruct ((0 <=? l) && (0 <=? o))%bool; intros H; congruence.
Qed.

Lemma search_clienti_options_service_run
    (D : database) (settings : Settings) (db_name : option string)
    (cliente_search : option string) (limit offset : Z) :
  fst (Clienti.search_clienti_options
         (Clienti.repo_search_clienti_options (Clienti.mysql D) settings)
         cliente_search limit offset (new_world db_name))
  = match
      Sql.limit_offset (VInt limit) (VInt offset)
        (Sql.order_by Clienti.search_clienti_options_order
           (List.filter
              (fun a =>
                 Sql.holds
                   (Clienti.search_clienti_options_where
                      (Clienti.search_clienti_options_params cliente_search limit
                         offset) a))
              (anagrafe D)))
    with
    | Ret ts => Ret (map Clienti.search_clienti_options_select ts)
    | Raise e => Raise e
    end.
Proof.
  unfold Clienti.search_clienti_options, bind.
  assert (Hrun :
    fst (Clienti.repo_search_clienti_options (Clienti.mysql D) settings
           cliente_search limit offset (new_world db_name))
    = Clienti.search_clienti_options_rows D
        (Clienti.search_clienti_options_params cliente_search limit offset)).
  { unfold Clienti.repo_search_clienti_options.
    rewrite clienti_fetch_on_new_world, run_search_clienti_options by reflexivity.
    destruct (Clienti.search_clienti_options_rows D _); [|reflexivity].
    rewrite rows_or_empty_id. reflexivity. }
  unfold Clienti.search_clienti_options_rows in Hrun.
  change (Query.param (Clienti.search_clienti_options_params cliente_search limit
                         offset) 4) with (VInt limit) in Hrun.
  change (Query.param (Clienti.search_clienti_options_params cliente_search limit
                         offset) 5) with (VInt offset) in Hrun.
  destruct (Sql.limit_offset _ _ _) as [ts|e'];
    destruct (Clienti.repo_search_clienti_options (Clienti.mysql D) settings
                cliente_search limit offset (new_world db_name)) as [[rows|e] w'];
    cbn [fst snd] in *; try discriminate Hrun.
  - injection Hrun as ->. unfold ret. cbn [fst]. rewrite options_of_acc. cbn [app].
    assert (Hsame : map Clienti.option_of
                      (map Clienti.search_clienti_options_select ts)
                    = map Clienti.search_clienti_options_select ts).
    { rewrite map_map. apply map_ext. intros a. apply option_of_select. }
    rewrite Hsame. reflexivity.
  - exact Hrun.
Qed.

(** X22. The limit and offset of [api_list_customers].  An absent or
    zero limit becomes 200 and an absent offset 0.  On a server holding
    any database, when the effective limit and offset are not negative
    the answer is a 200 with at most that many options; a negative limit
    or offset is answered with the 500 of the handler, which carries the
    syntax error of the statement. *)
Theorem api_list_customers_limits
    (D : database) (settings : Settings) (db_name : option string)
    (search : option string) (limit offset : option Z) :
  let repo := Clienti.repo_search_clienti_options (Clienti.mysql D) settings in
  let eff_limit := opt_int_or limit 200 in
  let eff_offset := opt_int_or offset 0 in
  let answer :=
    fst (ApiRouter.api_list_customers repo search limit offset (new_world db_name)) in
  match limit with
  | None | Some 0 => eff_limit = 200
  | Some l => eff_limit = l
  end /\
  if ((0 <=? eff_limit) && (0 <=? eff_offset))%bool then
    exists options,
      answer = Respond 200 (Items options) /\
      Z.of_nat (length options) <= eff_limit
  else
    answer
    = HTTPException 500
        ("Errore nel caricamento clienti: " +:+ exn_msg Sql.syntax_error).
Proof.
  cbv zeta. split.
  { destruct limit as [[|p|p]|]; reflexivity. }
  unfold ApiRouter.api_list_customers.
  pose proof (search_clienti_options_service_run D settings db_name search
                (opt_int_or limit 200) (opt_int_or offset 0)) as Hrun.
  destruct (Clienti.search_clienti_options
              (Clienti.repo_search_clienti_options (Clienti.mysql D) settings)
              search (opt_int_or limit 200) (opt_int_or offset 0)
              (new_world db_name)) as [[options|e] w'];
    cbn [fst snd] in *;
    destruct (Sql.limit_offset (VInt (opt_int_or limit 200))
                (VInt (opt_int_or offset 0)) _) as [ts|e'] eqn:Hlim;
    try discriminate Hrun.
  - destruct (limit_offset_length _ _ _ _ Hlim) as [Hlen Hoff].
    injection Hrun as ->.
    unfold Sql.limit_offset in Hlim.
    destruct ((0 <=? opt_int_or limit 200) && (0 <=? opt_int_or offset 0))%bool;
      [|discriminate Hlim].
    eexists. split; [reflexivity|]. rewrite length_map. exact Hlen.
  - injection Hrun as ->.
    pose proof (limit_offset_Raise_syntax _ _ _ _ Hlim) as ->.
    unfold Sql.limit_offset in Hlim.
    destruct ((0 <=? opt_int_or limit 200) && (0 <=? opt_int_or offset 0))%bool;
      [discriminate Hlim|].
    reflexivity.
Qed.

(** X23. The errors of the quality handlers reach the client as plain
    text.  For every handler of the two routers, conversion of the year,
    repository, arguments and world: an [HTTPException] the handler
    raises has status 400, 404 or 500, never 401 or 403, so that the
    exception handler of the application answers it with its detail as
    plain text under the same status and never with a redirect. *)
Theorem quality_errors_are_plain_text
    (int : string -> outcome Z) (_repo : QualityRepository)
    (clienti : option string -> Z -> Z -> M (list dict))
    (json_dumps : content -> option exn)
    (tipodoc numerodoc year codicecf anagrafe_search articolo_search : option string)
    (year_number limit offset : option Z) (tipi_doc : option (list string))
    (key_tipodoc key_esanno key_numerodoc : string) (w : world) :
  plain_text_error
    (fst (ApiRouter.api_list_documents _repo json_dumps year_number codicecf
            anagrafe_search articolo_search tipi_doc w)) /\
  plain_text_error
    (fst (ApiRouter.api_get_document int _repo json_dumps key_tipodoc key_esanno
            key_numerodoc w)) /\
  plain_text_error
    (fst (ApiRouter.api_list_customers clienti anagrafe_search limit offset w)) /\
  plain_text_error
    (fst (ViewRouter.view_quality_documents int _repo tipodoc numerodoc year
            codicecf anagrafe_search articolo_search w)) /\
  plain_text_error
    (fst (ViewRouter.view_quality_document_detail int _repo key_tipodoc key_esanno
            key_numerodoc w)) /\
  plain_text_error
    (fst (ViewRouter.view_quality_articoli_cliente int _repo tipodoc year codicecf
            anagrafe_search articolo_search offset limit w)).
Proof.
  assert (H500 : forall prefix e, plain_text_error (internal_error prefix e)).
  { intros prefix e. unfold internal_error. destruct (is_Exception e); [|exact I].
    split; [right; right; left; reflexivity|reflexivity]. }
  assert (H404 : plain_text_error not_found).
  { split; [right; left; reflexivity|reflexivity]. }
  assert (Hyear : forall y,
            match ViewRouter.year_int int y with
            | inl r => plain_text_error r
            | inr _ => True
            end).
  { intros [y|]; unfold ViewRouter.year_int; [|exact I].
    destruct (String.eqb (Py.strip y) ""); [exact I|].
    destruct (int y) as [z|e]; [exact I|].
    destruct (exn_cls e); try exact I.
    split; [left; reflexivity|reflexivity]. }
  repeat split.
  - unfold ApiRouter.api_list_documents, ApiRouter.JSONResponse.
    destruct (QualityService.list_schede_lavoro _ _ _ _ _ _ _ _ w) as [[rows|e] w'];
      [|apply H500].
    destruct (json_dumps (Items rows)); [apply H500|exact I].
  - unfold ApiRouter.api_get_document, ApiRouter.JSONResponse.
    destruct (int key_esanno) as [y|e]; [|apply H500].
    destruct (QualityService.get_scheda_lavoro _ _ _ _ w) as [[data|e] w'];
      [|apply H500].
    destruct (no_header data); [exact H404|].
    destruct (json_dumps (Document data)); [apply H500|exact I].
  - unfold ApiRouter.api_list_customers.
    destruct (Clienti.search_clienti_options _ _ _ _ w) as [[rows|e] w'];
      [exact I|apply H500].
  - unfold ViewRouter.view_quality_documents.
    pose proof (Hyear year) as Hy.
    destruct (ViewRouter.year_int int year) as [r|y]; [exact Hy|].
    destruct (QualityService.search_schede_lavoro _ _ _ _ _ _ _ _ _ w)
      as [[rows|e] w']; [exact I|apply H500].
  - unfold ViewRouter.view_quality_document_detail.
    destruct (int key_esanno) as [y|e]; [|apply H500].
    destruct (QualityService.get_scheda_lavoro _ _ _ _ w) as [[data|e] w'];
      [|apply H500].
    destruct (no_header data); [exact H404|exact I].
  - unfold ViewRouter.view_quality_articoli_cliente.
    pose proof (Hyear year) as Hy.
    destruct (ViewRouter.year_int int year) as [r|y]; [exact Hy|].
    destruct (ViewRouter.articoli_cliente_rows _ _ _ _ _ _ _ _ w)
      as [[rows|e] w']; [exact I|apply H500].
Qed.

(** ** The lookup of the user who logs in *)

Lemma fetch_one_connect (drv : driver) (settings : Settings)
    (db_name : option string) (sql : string) (params : list value) :
  one_connect (connect_args settings db_name)
    (w_log (snd (QualityRepositoryMYSQL.fetch drv settings sql params
                   (new_world db_name)))).
Proof.
  destruct (fetch_log drv settings db_name sql params) as (_ & Hlog).
  cbv zeta in Hlog.
  destruct (drv_connect drv [] (connect_args settings db_name)) as [c|e].
  - destruct Hlog as (calls & F & E).
    eexists. split; [exact E|].
    assert (G : Forall (fun ev => not_connect ev /\ not_commit ev) calls).
    { eapply List.Forall_impl; [|exact F]. exact read_call_not_connect_commit. }
    apply Forall_and in G. destruct G as [G1 G2].
    split; (apply Forall_app; split; [assumption|]);
      destruct (drv_is_connected drv _ c); repeat constructor.
  - rewrite Hlog. exists []. repeat split; constructor.
Qed.

(** [DbManager.__exit__] suppresses nothing: the block is never left
    without a result. *)
Lemma with_DbManager_not_suppressed (drv : driver) (settings : Settings)
    {A : Type} (body : M A) (w : world) :
  fst (with_DbManager drv settings body w) <> Ret None.
Proof.
  unfold with_DbManager, with_stmt, DbManager_enter, DbManager_exit, bind.
  destruct (connect drv settings w) as [[[]|e] w1]; cbn [fst snd]; [|discriminate].
  destruct (body w1) as [[a|e] w2]; rewrite close_spec; cbn [fst snd];
    unfold ret; cbn [fst]; discriminate.
Qed.

(** The [with] block of the lookup is that of the quality repository. *)
Lemma get_user_info_auth_block (drv : driver) (settings : Settings)
    (person : Type) (Person : dict -> outcome person) (username : string)
    (w : world) :
  snd (PersonRepository.get_user_info_auth drv settings person Person username w)
  = snd (QualityRepositoryMYSQL.fetch drv settings SqlUserAuth.get_user_info_auth
           [VStr username] w).
Proof.
  unfold PersonRepository.get_user_info_auth, QualityRepositoryMYSQL.fetch, bind.
  destruct (with_DbManager drv settings
              (execute_query drv SqlUserAuth.get_user_info_auth
                 (Some [VStr username]) true GET) w) as [[[rows|]|e] w'];
    cbn [fst snd]; try (destruct rows as [|row rest]); reflexivity.
Qed.

(** X24. The lookup of the user who logs in.  On the [MySQLDb()] of a
    new [PersonRepository], for every driver: the statement has one
    placeholder and is executed with one parameter, the user name exactly
    as it was typed; one connection is opened, to the main database,
    before any other driver call; nothing is committed; and the instance
    ends as it started, holding no connection.  The answer is [None]
    when the query returns no row, and is built from the first row
    otherwise. *)
Theorem get_user_info_auth_lookup
    (drv : driver) (settings : Settings)
    (person : Type) (Person : dict -> outcome person) (username : string) :
  let w := new_world None in
  let args := connect_args settings None in
  let result :=
    PersonRepository.get_user_info_auth drv settings person Person username w in
  let rows :=
    fst (with_DbManager drv settings
           (execute_query drv SqlUserAuth.get_user_info_auth (Some [VStr username])
              true GET) w) in
  count_placeholders SqlUserAuth.get_user_info_auth = 1%nat /\
  Server.check_params SqlUserAuth.get_user_info_auth (Some [VStr username]) = Ret tt /\
  ca_database args = API_MYSQL_DB settings /\
  w_db (snd result) = w_db w /\
  one_connect args (w_log (snd result)) /\
  List.Forall
    (executes SqlUserAuth.get_user_info_auth (Some [VStr username]) false)
    (w_log (snd result)) /\
  match rows with
  | Ret (Some []) => fst result = Ret None
  | Ret (Some (row :: _)) =>
      fst result = match Person row with
                   | Ret p => Ret (Some p)
                   | Raise e => Raise e
                   end
  | Ret None => False
  | Raise e => fst result = Raise e
  end.
Proof.
  cbv zeta.
  rewrite (get_user_info_auth_block drv settings person Person username
             (new_world None)).
  split; [reflexivity|]. split; [reflexivity|]. split; [reflexivity|].
  split.
  { destruct (fetch_log drv settings None SqlUserAuth.get_user_info_auth
                [VStr username]) as (Hdb & _). exact Hdb. }
  split; [apply fetch_one_connect|].
  split.
  { destruct (logs_only_fetch drv settings SqlUserAuth.get_user_info_auth
                [VStr username] (new_world None)) as (evs & E & F).
    rewrite E. exact F. }
  unfold PersonRepository.get_user_info_auth, bind.
  pose proof (with_DbManager_not_suppressed drv settings
                (execute_query drv SqlUserAuth.get_user_info_auth
                   (Some [VStr username]) true GET) (new_world None)) as Hns.
  destruct (with_DbManager drv settings
              (execute_query drv SqlUserAuth.get_user_info_auth
                 (Some [VStr username]) true GET) (new_world None))
    as [[[rows|]|e] w']; cbn [fst snd] in *;
    [|exact (Hns eq_refl)|reflexivity].
  destruct rows as [|row rest]; reflexivity.
Qed.

(** ** The instance after a [with] block *)

(** X25. A [MySQLDb] is unusable after a [with] block until it is
    connected again.  Whenever the block was entered, whatever its body
    did and however it ended, the instance holds no connection
    afterwards: [execute] then fails with the not-connected
    [RuntimeError] without any driver call, for every kind and
    statement, and [close] does nothing.  This holds also when the
    instance was connected before the block, as it is in a block nested
    in another one on the same instance: the inner block takes the
    connection of the outer one away. *)
Theorem instance_after_with_block
    (drv : driver) (settings : Settings) {A : Type} (body : M A)
    (query_type : QueryType) (sql : string) (params : option (list value))
    (w : world) :
  fst (connect drv settings w) = Ret tt ->
  let after := snd (with_DbManager drv settings body w) in
  _conn (w_db after) = None /\
  execute drv query_type sql params after = (Raise not_connected_error, after) /\
  close drv after = (Ret tt, after).
Proof.
  intros Hc. cbv zeta.
  assert (Hnone : _conn (w_db (snd (with_DbManager drv settings body w))) = None).
  { unfold with_DbManager, with_stmt, DbManager_enter, DbManager_exit, bind.
    destruct (connect drv settings w) as [[[]|e] w1]; cbn [fst snd] in *;
      [|discriminate Hc].
    destruct (body w1) as [[a|e] w2]; rewrite close_spec; reflexivity. }
  destruct (snd (with_DbManager drv settings body w)) as [[n oc] h].
  cbn [w_db _conn] in Hnone. subst oc.
  split; [reflexivity|]. split.
  - reflexivity.
  - rewrite close_spec. unfold close_events. cbn [w_db w_log _conn _db_name].
    rewrite app_nil_r. reflexivity.
Qed.

Lemma instance_after_with_block_witness :
  _conn (w_db Faulty.connected) = Some 0%nat /\
  let after :=
    snd (with_DbManager (Server.mysql Sample.D) Sample.settings (ret tt)
           Faulty.connected) in
  _conn (w_db after) = None /\
  execute (Server.mysql Sample.D) GET QuerySqlQualityMYSQL.get_scheda_lavoro_sql
    (Some [VStr "OC"; VInt 2024; VStr "A-1"]) after
  = (Raise not_connected_error, after).
Proof.
  split; [reflexivity|].
  destruct (instance_after_with_block (Server.mysql Sample.D) Sample.settings
              (ret tt) GET QuerySqlQualityMYSQL.get_scheda_lavoro_sql
              (Some [VStr "OC"; VInt 2024; VStr "A-1"]) Faulty.connected)
    as (H1 & H2 & _).
  - reflexivity.
  - split; [exact H1|exact H2].
Defined.

(** ** The text filter of the line search *)



